(** * A stock dashboard page: the page code and its properties

    The page lets a user pick companies of one of two fixed groups, fetches
    their price history and snapshot, and renders metric cards, a price
    chart, a performance table and a volume chart.  This file embeds the
    page code (pages/02) as Rocq functions and proves properties of it.

    Layout: a model of the Python values and operations the page uses
    (module [Py]), the page's tables and functions, then the theorems. *)

From Stdlib Require Import ZArith QArith String Ascii List Lia.
From Stdlib Require Import Floats.SpecFloat DecimalString.
From Stdlib Require DecimalN DecimalPos DecimalZ.
From stdpp Require Import gmap strings list.

Open Scope Z_scope.

(** ** The Python values and operations the page uses *)

Module Py.

(** Exceptions.  [ProviderError] is an exception of the data provider that
    the page lets through: its message is what [str(e)] gives, and the flag
    says whether the exception derives from [Exception] ([KeyboardInterrupt]
    and [SystemExit] do not). *)
Inductive exn : Type :=
| KeyError (key : string)
| IndexError
| TypeError
| ValueError
| OverflowError
| ZeroDivisionError
| UnboundLocalError (var : string)
| ProviderError (is_exception : bool) (msg : string).

(** The result of evaluating an expression or a call. *)
Inductive outcome (A : Type) : Type :=
| Return (a : A)
| Raise (e : exn).
Arguments Return {A} a.
Arguments Raise {A} e.

#[export] Instance outcome_ret : MRet outcome := fun A a => Return a.
#[export] Instance outcome_bind : MBind outcome := fun A B k m =>
  match m with
  | Return a => k a
  | Raise e => Raise e
  end.

(** *** Floats: IEEE 754 binary64, as the Standard Library specifies it *)

Definition float : Type := spec_float.
Definition prec : Z := 53.
Definition emax : Z := 1024.

Definition fadd : float -> float -> float := SFadd prec emax.
Definition fsub : float -> float -> float := SFsub prec emax.
Definition fmul : float -> float -> float := SFmul prec emax.
Definition fdiv : float -> float -> float := SFdiv prec emax.
Definition fsqrt : float -> float := SFsqrt prec emax.
(** [x < y] and [x <= y]; both are false when an operand is NaN. *)
Definition flt : float -> float -> bool := SFltb.
Definition fle : float -> float -> bool := SFleb.

Definition is_nan (x : float) : bool :=
  match x with S754_nan => true | _ => false end.

Definition is_zero (x : float) : bool :=
  match x with S754_zero _ => true | _ => false end.

(** The float nearest to an integer (ties to even); infinite when the integer
    is out of the floats' range. *)
Definition float_of_Z (n : Z) : float := binary_normalize prec emax n 0 false.

(** [float(n)] for an int [n]: Python refuses an int out of range. *)
Definition float_of_int (n : Z) : outcome float :=
  match float_of_Z n with
  | S754_infinity _ => Raise OverflowError
  | x => Return x
  end.

(** *** Values *)

(** The values that reach the page's formatting code: what the provider's
    snapshot dictionary holds (JSON-like data), and the page's own defaults.
    [PyOther] stands for any object that is neither a number, a string nor
    [None] (a list, a dict). *)
Inductive pyval : Type :=
| PyNone
| PyInt (n : Z)
| PyFloat (x : float)
| PyStr (s : string)
| PyOther.

(** [n >= t] for an int [n] and a float [t]: Python compares the exact
    values, without converting the int. *)
Definition int_ge_float (n : Z) (t : float) : bool :=
  match t with
  | S754_nan => false
  | S754_infinity s => s
  | S754_zero _ => 0 <=? n
  | S754_finite s m e =>
      let v := if s then Zneg m else Zpos m in
      if 0 <=? e then v * 2 ^ e <=? n else v <=? n * 2 ^ (- e)
  end.

(** [v >= t] where [t] is a float. *)
Definition ge_float (v : pyval) (t : float) : outcome bool :=
  match v with
  | PyInt n => Return (int_ge_float n t)
  | PyFloat x => Return (fle t x)
  | PyNone | PyStr _ | PyOther => Raise TypeError
  end.

(** [x / d] on Python floats. *)
Definition float_truediv (x d : float) : outcome float :=
  if is_zero d then Raise ZeroDivisionError else Return (fdiv x d).

(** [v / d] where [d] is a float: an int is converted to a float first. *)
Definition truediv_float (v : pyval) (d : float) : outcome float :=
  match v with
  | PyInt n => x ← float_of_int n; float_truediv x d
  | PyFloat x => float_truediv x d
  | PyNone | PyStr _ | PyOther => Raise TypeError
  end.

(** *** Fixed-point formatting: the format specs [.2f] and [,.0f] *)

(** A format spec of presentation type [f]: [,] asks for thousands
    separators, [.N] gives the number of decimals. *)
Record format_spec : Type := FormatSpec {
  grouping : bool;
  precision : nat
}.

(** [a / b] rounded to the nearest integer, ties to even, for [0 < b]. *)
Definition round_half_even (a b : Z) : Z :=
  let q := a / b in
  match 2 * (a mod b) ?= b with
  | Lt => q
  | Eq => if Z.even q then q else q + 1
  | Gt => q + 1
  end.

(** [m * 2^e * 10^precision], correctly rounded to an integer: the digits
    that the conversion of the float [m * 2^e] prints. *)
Definition scaled (precision : nat) (m : positive) (e : Z) : Z :=
  let n := Zpos m * 10 ^ Z.of_nat precision in
  if 0 <=? e then n * 2 ^ e else round_half_even n (2 ^ (- e)).

(** The decimal digits of a natural number. *)
Definition digits (n : Z) : list ascii :=
  list_ascii_of_string (NilZero.string_of_uint (N.to_uint (Z.to_N n))).

(** Thousands separators, on the digits of the integer part in reverse. *)
Fixpoint group3 (rev_digits : list ascii) : list ascii :=
  match rev_digits with
  | a :: b :: c :: ((_ :: _) as rest) => a :: b :: c :: ","%char :: group3 rest
  | _ => rev_digits
  end.

(** The text of [n / 10^precision] for a natural number [n]. *)
Definition fixed_digits (spec : format_spec) (n : Z) : string :=
  let p := precision spec in
  let ds := digits n in
  let ds := repeat "0"%char (S p - length ds) ++ ds in
  let k := (length ds - p)%nat in
  let ip := take k ds in
  let ip := if grouping spec then rev (group3 (rev ip)) else ip in
  string_of_list_ascii
    (ip ++ match p with O => [] | S _ => "."%char :: drop k ds end).

Definition sign (s : bool) : string := if s then "-" else "".

(** [format(x, spec)] for a float [x]. *)
Definition format_float (spec : format_spec) (x : float) : string :=
  match x with
  | S754_nan => "nan"
  | S754_infinity s => sign s +:+ "inf"
  | S754_zero s => sign s +:+ fixed_digits spec 0
  | S754_finite s m e =>
      sign s +:+ fixed_digits spec (scaled (precision spec) m e)
  end.

(** [format(v, spec)]: an int is converted to a float first; a string or
    [None] has no [f] format. *)
Definition format (v : pyval) (spec : format_spec) : outcome string :=
  match v with
  | PyInt n => x ← float_of_int n; Return (format_float spec x)
  | PyFloat x => Return (format_float spec x)
  | PyStr _ => Raise ValueError
  | PyNone | PyOther => Raise TypeError
  end.

(** The spec [.2f]. *)
Definition f2 : format_spec := FormatSpec false 2.
(** The spec [,.0f]. *)
Definition grouped0 : format_spec := FormatSpec true 0.

End Py.

Import Py.

(** ** The page *)

(** The float literals [1e12], [1e9] and [1e6]. *)
Definition f1e12 : float := float_of_Z (10 ^ 12).
Definition f1e9 : float := float_of_Z (10 ^ 9).
Definition f1e6 : float := float_of_Z (10 ^ 6).

(** [format_market_cap], lines 72 to 80. *)
Definition format_market_cap (market_cap : pyval) : outcome string :=
  c ← ge_float market_cap f1e12;
  if c : bool then
    q ← truediv_float market_cap f1e12;
    mret ("$" +:+ format_float f2 q +:+ "T")
  else
    c ← ge_float market_cap f1e9;
    if c : bool then
      q ← truediv_float market_cap f1e9;
      mret ("$" +:+ format_float f2 q +:+ "B")
    else
      c ← ge_float market_cap f1e6;
      if c : bool then
        q ← truediv_float market_cap f1e6;
        mret ("$" +:+ format_float f2 q +:+ "M")
      else
        s ← format market_cap grouped0;
        mret ("$" +:+ s).


(** *** The catalog *)

(** A Python dict with string keys: the entries in insertion order. *)
Definition dict (V : Type) : Type := list (string * V).

Fixpoint dict_get {V : Type} (d : dict V) (k : string) : option V :=
  match d with
  | [] => None
  | (k', v) :: d' => if String.eqb k k' then Some v else dict_get d' k
  end.

(** [d[k]] *)
Definition getitem {V : Type} (d : dict V) (k : string) : outcome V :=
  match dict_get d k with
  | Some v => Return v
  | None => Raise (KeyError k)
  end.

(** [d[k] = v]: a present key keeps its place, a new key goes last. *)
Fixpoint dict_set {V : Type} (d : dict V) (k : string) (v : V) : dict V :=
  match d with
  | [] => [(k, v)]
  | (k', v') :: d' =>
      if String.eqb k k' then (k, v) :: d' else (k', v') :: dict_set d' k v
  end.

(** The catalog, lines 15 to 46. *)
Definition TOP_10_COMPANIES : dict string :=
  [ ("Apple", "AAPL");
    ("Microsoft", "MSFT");
    ("Alphabet (Google)", "GOOGL");
    ("Amazon", "AMZN");
    ("NVIDIA", "NVDA");
    ("Tesla", "TSLA");
    ("Meta (Facebook)", "META");
    ("Berkshire Hathaway", "BRK-B");
    ("Taiwan Semiconductor", "TSM");
    ("Visa", "V") ].

Definition AI_COMPANIES : dict string :=
  [ ("NVIDIA", "NVDA");
    ("AMD", "AMD");
    ("Palantir", "PLTR");
    ("Snowflake", "SNOW");
    ("ServiceNow", "NOW");
    ("UiPath", "PATH");
    ("C3.ai", "AI");
    ("SoundHound AI", "SOUN");
    ("Arm Holdings", "ARM");
    ("Symbotic", "SYM") ].

Definition COMPANY_GROUPS : dict (dict string) :=
  [ ("시총 Top 10 기업", TOP_10_COMPANIES);
    ("차세대 AI 주요 기업", AI_COMPANIES) ].

Definition period_options : dict string :=
  [ ("1년", "1y"); ("2년", "2y"); ("3년", "3y"); ("5년", "5y") ].

Definition line_chart : string := "라인 차트".
Definition candlestick_chart : string := "캔들스틱 차트".

(** *** Historical data *)

(** A row of the provider's history table. *)
Record bar : Type := Bar {
  Date : string;
  Open : float;
  High : float;
  Low : float;
  Close : float;
  Volume : Z
}.

Definition dataframe : Type := list bar.

(** [data.empty] *)
Definition empty (data : dataframe) : bool :=
  match data with [] => true | _ :: _ => false end.

(** [series.iloc[0]] and [series.iloc[-1]] *)
Definition iloc_first (series : list float) : outcome float :=
  match series with
  | [] => Raise IndexError
  | x :: _ => Return x
  end.

Definition iloc_last (series : list float) : outcome float :=
  match last series with
  | None => Raise IndexError
  | Some x => Return x
  end.

(** The sum of a column, in the order of its rows.  (On a long column the
    library adds in blocks, which can change the last bits of the sum; the
    sums of the columns in the properties below are exact.) *)
Definition fsum (values : list float) : float :=
  fold_left fadd values (S754_zero false).

(** [series.max()] and [series.min()]: missing values (NaN) are skipped, and
    a series without values gives NaN. *)
Definition series_max (series : list float) : float :=
  match filter (fun x => negb (is_nan x)) series with
  | [] => S754_nan
  | x :: xs => fold_left (fun acc y => if flt acc y then y else acc) xs x
  end.

Definition series_min (series : list float) : float :=
  match filter (fun x => negb (is_nan x)) series with
  | [] => S754_nan
  | x :: xs => fold_left (fun acc y => if flt y acc then y else acc) xs x
  end.

(** [series.std()], the sample standard deviation ([ddof] is 1): missing
    values count as absent; the mean first, then the squared deviations,
    divided by the count less one; NaN when there are fewer than two
    values. *)
Definition series_std (series : list float) : float :=
  let ddof := 1%nat in
  let mask := map is_nan series in
  let count := length (filter negb mask) in
  if (count <=? ddof)%nat then S754_nan
  else
    let values :=
      map (fun x => if is_nan x then S754_zero false else x) series in
    let avg := fdiv (fsum values) (float_of_Z (Z.of_nat count)) in
    let sqr :=
      map (fun x => if is_nan x then S754_zero false
                    else fmul (fsub avg x) (fsub avg x)) series in
    let d := float_of_Z (Z.of_nat (count - ddof)) in
    fsqrt (fdiv (fsum sqr) d).

(** *** The page's output *)

(** A row of the performance table; the columns are 기업, 시작 가격,
    현재 가격, 총 수익률, 최고가, 최저가 and 변동성. *)
Record performance_row : Type := PerformanceRow {
  company_name : string;
  start_price : string;
  current_price : string;
  total_return : string;
  highest : string;
  lowest : string;
  volatility : string
}.

Inductive plot_trace : Type :=
| Scatter (x : list string) (y : list pyval) (name : string) (color : string)
| Candlestick (x : list string) (open high low close : list float)
    (name : string).

Record figure : Type := Figure {
  fig_data : list plot_trace;
  fig_title : string
}.

(** What a run of the page does, in order: the elements it shows and the
    requests it sends to the data provider.  A caption carries its text and
    the value that the text ends with. *)
Inductive event : Type :=
| Title (text : string)
| Markdown (text : string)
| Header (text : string)
| Warning (text : string)
| Error (text : string)
| Info (text : string)
| Metric (column : nat) (label value delta : string)
| Caption (column : nat) (text : string) (value : pyval)
| PlotlyChart (fig : figure)
| Dataframe (rows : list performance_row)
| FetchHistory (ticker period : string)
| FetchSnapshot (ticker : string).

(** A computation of the page: the events so far and how it ended. *)
Record run (A : Type) : Type := Run {
  trace : list event;
  result : outcome A
}.
Arguments Run {A} trace result.
Arguments trace {A} r.
Arguments result {A} r.

#[export] Instance run_ret : MRet run := fun A a => Run [] (Return a).
#[export] Instance run_bind : MBind run := fun A B k m =>
  match result m with
  | Return a => Run (trace m ++ trace (k a)) (result (k a))
  | Raise e => Run (trace m) (Raise e)
  end.

Definition emit (e : event) : run unit := Run [e] (Return tt).
Definition throw {A : Type} (e : exn) : run A := Run [] (Raise e).
Definition lift {A : Type} (o : outcome A) : run A := Run [] o.

(** [for a in l: s = body(s, a)] *)
Fixpoint for_each {A S : Type} (body : S -> A -> run S) (l : list A) (s : S)
  : run S :=
  match l with
  | [] => mret s
  | a :: l' => s' ← body s a; for_each body l' s'
  end.

Definition enumerate {A : Type} (l : list A) : list (nat * A) :=
  imap (fun i a => (i, a)) l.

(** What a request to the data provider does: it returns, or it raises;
    [is_exception] says whether what it raises derives from [Exception],
    [msg] is the text of the exception. *)
Inductive response (A : Type) : Type :=
| Responds (a : A)
| Fails (is_exception : bool) (msg : string).
Arguments Responds {A} a.
Arguments Fails {A} is_exception msg.

(** The controls of the sidebar, as the user set them. *)
Record controls : Type := Controls {
  company_group : string;
  selected_companies : list string;
  selected_period : string;
  chart_type : string
}.

Definition placeholder : gmap string pyval :=
  <["name" := PyStr "N/A"]> (<["sector" := PyStr "N/A"]>
  (<["marketCap" := PyInt 0]> (<["currentPrice" := PyInt 0]> ∅))).

(** The row of the performance table for a company, lines 173 to 184. *)
Definition performance (company : string) (data : dataframe)
  : outcome performance_row :=
  let closes := map Close data in
  start ← iloc_first closes;
  end_ ← iloc_last closes;
  let change := fmul (fdiv (fsub end_ start) start) (float_of_Z 100) in
  mret {| company_name := company;
          start_price := "$" +:+ format_float f2 start;
          current_price := "$" +:+ format_float f2 end_;
          total_return := format_float f2 change +:+ "%";
          highest := "$" +:+ format_float f2 (series_max closes);
          lowest := "$" +:+ format_float f2 (series_min closes);
          volatility := format_float f2 (series_std closes) |}.

Section Page.

(** The data provider: the history of a ticker over a period, and the
    snapshot of a ticker. *)
Variable history : string -> string -> response dataframe.
Variable snapshot : string -> response (gmap string pyval).

(** The colour list [Set1] of the chart library. *)
Variable Set1 : list string.

(** [get_stock_data], lines 48 to 56.  The page keeps the results of this
    function and of the next one between runs; a run here starts with nothing
    kept, and within a run no request repeats. *)
Definition get_stock_data (ticker period : string) : run (option dataframe) :=
  _ ← emit (FetchHistory ticker period);
  match history ticker period with
  | Responds data => mret (Some data)
  | Fails true e =>
      _ ← emit (Error (ticker +:+ " 데이터를 가져오는 중 오류 발생: " +:+ e));
      mret None
  | Fails false e => throw (ProviderError false e)
  end.

(** [get_company_info], lines 58 to 70. *)
Definition get_company_info (ticker : string) : run (gmap string pyval) :=
  _ ← emit (FetchSnapshot ticker);
  match snapshot ticker with
  | Responds info =>
      mret (<["name" := default (PyStr "N/A") (info !! "longName")]>
           (<["sector" := default (PyStr "N/A") (info !! "sector")]>
           (<["marketCap" := default (PyInt 0) (info !! "marketCap")]>
           (<["currentPrice" := default (PyInt 0) (info !! "currentPrice")]>
            ∅))))
  | Fails _ _ => mret placeholder
  end.

(** [info[k]] on a snapshot record *)
Definition field (info : gmap string pyval) (k : string) : outcome pyval :=
  match info !! k with
  | Some v => Return v
  | None => Raise (KeyError k)
  end.

(** The loaded data: [stock_data] and [company_info]. *)
Definition loaded : Type := dict dataframe * dict (gmap string pyval).

(** The body of the loading loop, lines 111 to 117. *)
Definition load (companies_dict : dict string) (period_label : string)
    (s : loaded) (company : string) : run loaded :=
  ticker ← lift (getitem companies_dict company);
  period ← lift (getitem period_options period_label);
  data ← get_stock_data ticker period;
  info ← get_company_info ticker;
  match data with
  | Some data =>
      if negb (empty data)
      then mret (dict_set s.1 company data, dict_set s.2 company info)
      else mret s
  | None => mret s
  end.

(** The body of the loop over the metric cards, lines 126 to 134. *)
Definition metric_card (company_info : dict (gmap string pyval))
    (_ : unit) (ic : nat * string) : run unit :=
  let '(i, company) := ic in
  info ← lift (getitem company_info company);
  price ← lift (v ← field info "currentPrice"; format v f2);
  cap ← lift (v ← field info "marketCap"; format_market_cap v);
  _ ← emit (Metric i company ("$" +:+ price) ("시총: " +:+ cap));
  sector ← lift (field info "sector");
  emit (Caption i "섹터: " sector).

(** [colors[i]] *)
Definition color (colors : list string) (i : nat) : outcome string :=
  match colors !! i with
  | Some c => Return c
  | None => Raise IndexError
  end.

(** The body of the loop over the traces of the line chart, lines 141 to
    146. *)
Definition price_trace (colors : list string) (traces : list plot_trace)
    (icd : nat * (string * dataframe)) : run (list plot_trace) :=
  let '(i, (company, data)) := icd in
  c ← lift (color colors i);
  mret (traces ++
        [Scatter (map Date data) (map (fun b => PyFloat (Close b)) data)
           company c]).

Definition candlestick_notice : string :=
  "캔들스틱 차트는 하나의 기업만 지원됩니다.".

(** The price chart, lines 138 to 165; it returns the figure and the local
    variable [colors], which only the line chart assigns. *)
Definition price_chart (ctl : controls) (stock_data : dict dataframe)
  : run (figure * option (list string)) :=
  if String.eqb (chart_type ctl) line_chart then
    let colors := Set1 ++ Set1 in
    traces ← for_each (price_trace colors) (enumerate stock_data) [];
    mret (Figure traces ("주가 추이 - " +:+ selected_period ctl), Some colors)
  else
    company ← lift (match selected_companies ctl with
                    | [] => Raise IndexError
                    | c :: _ => Return c
                    end);
    data ← lift (getitem stock_data company);
    let fig :=
      Figure [Candlestick (map Date data) (map Open data) (map High data)
                (map Low data) (map Close data) company]
        (company +:+ " 캔들스틱 차트 - " +:+ selected_period ctl) in
    _ ← (if (1 <? length (selected_companies ctl))%nat
         then emit (Info candlestick_notice) else mret tt);
    mret (fig, None).

(** The body of the loop over the rows of the performance table. *)
Definition performance_entry (rows : list performance_row)
    (cd : string * dataframe) : run (list performance_row) :=
  row ← lift (performance cd.1 cd.2);
  mret (rows ++ [row]).

(** The body of the loop over the traces of the volume chart, lines 190 to
    195. *)
Definition volume_trace (colors : option (list string))
    (traces : list plot_trace) (icd : nat * (string * dataframe))
  : run (list plot_trace) :=
  let '(i, (company, data)) := icd in
  cs ← lift (match colors with
             | None => Raise (UnboundLocalError "colors")
             | Some cs => Return cs
             end);
  c ← lift (match length cs with
            | O => Raise ZeroDivisionError
            | S _ => color cs (i mod length cs)
            end);
  mret (traces ++
        [Scatter (map Date data) (map (fun b => PyInt (Volume b)) data)
           company c]).

Definition disclaimer : string := "
    **데이터 소스**: Yahoo Finance

    **면책 조항**: 
    - 본 데이터는 투자 조언이 아닙니다.
    - 실제 투자 전에 전문가와 상담하세요.
    - 과거의 수익률은 미래의 수익을 보장하지 않습니다.
    ".

(** What [main] does once some data is loaded, lines 123 to 212. *)
Definition render (ctl : controls) (s : loaded) : run unit :=
  let '(stock_data, company_info) := s in
  _ ← emit (Header "📊 선택된 기업 정보");
  _ ← for_each (metric_card company_info)
        (enumerate (selected_companies ctl)) tt;
  _ ← emit (Header "📈 주가 차트");
  fc ← price_chart ctl stock_data;
  _ ← emit (PlotlyChart fc.1);
  _ ← emit (Header "📊 성과 비교");
  performance_data ← for_each performance_entry stock_data [];
  _ ← emit (Dataframe performance_data);
  _ ← emit (Header "📊 거래량 분석");
  traces ← for_each (volume_trace fc.2) (enumerate stock_data) [];
  _ ← emit (PlotlyChart
              (Figure traces ("거래량 추이 - " +:+ selected_period ctl)));
  _ ← emit (Header "ℹ️ 추가 정보");
  emit (Info disclaimer).

(** [main], lines 82 to 121, with the values of the controls of the sidebar
    as its argument. *)
Definition main (ctl : controls) : run unit :=
  _ ← emit (Title "📈 글로벌 주요 기업 주가 분석");
  _ ← emit (Markdown
      "시총 상위 기업과 차세대 AI 기업들의 최근 주가 흐름을 비교해보세요.");
  companies_dict ← lift (getitem COMPANY_GROUPS (company_group ctl));
  match selected_companies ctl with
  | [] => emit (Warning "최소 하나의 기업을 선택해주세요.")
  | _ :: _ =>
      s ← for_each (load companies_dict (selected_period ctl))
            (selected_companies ctl) ([], []);
      match s.1 with
      | [] => emit (Error "데이터를 불러올 수 없습니다.")
      | _ :: _ => render ctl s
      end
  end.

End Page.

(** ** A sample session, to run the page on *)

Module Sample.

Definition bars (closes : list Z) : dataframe :=
  imap (fun i c => Bar ("day " +:+ NilZero.string_of_uint (Nat.to_uint i))
                     (float_of_Z c) (float_of_Z c) (float_of_Z c)
                     (float_of_Z c) 1000) closes.

Definition history (ticker period : string) : response dataframe :=
  if String.eqb ticker "AAPL" then Responds (bars [100; 110])
  else if String.eqb ticker "MSFT" then Responds []
  else if String.eqb ticker "GOOGL" then Responds (bars [200; 180])
  else if String.eqb ticker "AMZN" then Responds (bars [10; 20; 30])
  else Fails true "no data".

Definition snapshot (ticker : string) : response (gmap string pyval) :=
  if String.eqb ticker "AAPL" then
    Responds (<["longName" := PyStr "Apple Inc."]>
             (<["sector" := PyStr "Technology"]>
             (<["marketCap" := PyInt 2500000000]>
             (<["currentPrice" := PyInt 110]> ∅))))
  else if String.eqb ticker "GOOGL" then
    Responds (<["longName" := PyStr "Alphabet Inc."]> ∅)
  else Fails true "no snapshot".

Definition Set1 : list string :=
  ["c1"; "c2"; "c3"; "c4"; "c5"; "c6"; "c7"; "c8"; "c9"].

End Sample.

(** ** Properties *)

(** The events that are requests to the data provider. *)
Definition is_fetch (e : event) : bool :=
  match e with
  | FetchHistory _ _ | FetchSnapshot _ => true
  | _ => false
  end.

(** The events that show data: metric cards, charts and tables. *)
Definition is_display (e : event) : bool :=
  match e with
  | Metric _ _ _ _ | Caption _ _ _ | PlotlyChart _ | Dataframe _ => true
  | _ => false
  end.

(** What the provider's snapshot has under a key, if anything. *)
Definition provided (r : response (gmap string pyval)) (k : string)
  : option pyval :=
  match r with
  | Responds info => info !! k
  | Fails _ _ => None
  end.

(** The percent change of the specification: the last close less the first,
    over the first, times 100, in float arithmetic. *)
Definition percent_change (first final : float) : float :=
  fmul (fdiv (fsub final first) first) (float_of_Z 100).

(** The textbook sample variance, on exact rationals: the squared deviations
    from the mean, summed and divided by the count less one. *)
Definition Qsum (xs : list Q) : Q := fold_right Qplus (0%Q) xs.

Definition sample_variance (xs : list Q) : Q :=
  let n := inject_Z (Z.of_nat (length xs)) in
  let mean := (Qsum xs / n)%Q in
  (Qsum (map (fun x => (x - mean) * (x - mean))%Q xs) / (n - 1))%Q.

(** A fetch of the history fails when the request raises an exception or
    returns no rows. *)
Definition fetch_fails (r : response dataframe) : bool :=
  match r with
  | Responds data => empty data
  | Fails is_exception _ => is_exception
  end.

(** What the provider answers to the request that the page sends for the
    history of a selected company. *)
Definition answer (history : string -> string -> response dataframe)
    (ctl : controls) (company : string) : option (response dataframe) :=
  companies_dict ← dict_get COMPANY_GROUPS (company_group ctl);
  ticker ← dict_get companies_dict company;
  period ← dict_get period_options (selected_period ctl);
  Some (history ticker period).

(** The events up to the metric cards: neither a chart, nor a table, nor an
    information box. *)
Definition preliminary (e : event) : bool :=
  match e with
  | PlotlyChart _ | Dataframe _ | Info _ => false
  | _ => true
  end.

(** The events that are neither a chart nor an information box. *)
Definition quiet (e : event) : bool :=
  match e with
  | PlotlyChart _ | Info _ => false
  | _ => true
  end.

(** The figure of the candlestick chart of a company. *)
Definition candlestick_figure (ctl : controls) (company : string)
    (data : dataframe) : figure :=
  Figure [Candlestick (map Date data) (map Open data) (map High data)
            (map Low data) (map Close data) company]
    (company +:+ " 캔들스틱 차트 - " +:+ selected_period ctl).

(** The float that a number stands for in an arithmetic operation. *)
Definition as_float (v : pyval) : outcome float :=
  match v with
  | PyInt n => float_of_int n
  | PyFloat x => Return x
  | PyNone | PyStr _ | PyOther => Raise TypeError
  end.

(** [v >= k] for a number [v] and an integer [k] that is a float. *)
Definition at_least (v : pyval) (k : Z) : bool :=
  match v with
  | PyInt n => k <=? n
  | PyFloat x => fle (float_of_Z k) x
  | PyNone | PyStr _ | PyOther => false
  end.

(** [v < 0] and [v >= 0] for a number [v]. *)
Definition is_negative (v : pyval) : bool :=
  match v with
  | PyInt n => n <? 0
  | PyFloat x => flt x (S754_zero false)
  | PyNone | PyStr _ | PyOther => false
  end.

Definition is_nonnegative (v : pyval) : bool :=
  match v with
  | PyInt n => 0 <=? n
  | PyFloat x => fle (S754_zero false) x
  | PyNone | PyStr _ | PyOther => false
  end.

(** The units of the market-cap text. *)
Inductive magnitude : Type := Trillions | Billions | Millions | Units.

(** The largest unit that a number reaches. *)
Definition largest_unit (v : pyval) : magnitude :=
  if at_least v (10 ^ 12) then Trillions
  else if at_least v (10 ^ 9) then Billions
  else if at_least v (10 ^ 6) then Millions
  else Units.

(** The text for the float [x] in a unit: the quotient by the unit with two
    decimals and the suffix of the unit, or the thousands-grouped integer. *)
Definition rendered (u : magnitude) (x : float) : string :=
  match u with
  | Trillions => "$" +:+ format_float f2 (fdiv x (float_of_Z (10 ^ 12))) +:+ "T"
  | Billions => "$" +:+ format_float f2 (fdiv x (float_of_Z (10 ^ 9))) +:+ "B"
  | Millions => "$" +:+ format_float f2 (fdiv x (float_of_Z (10 ^ 6))) +:+ "M"
  | Units => "$" +:+ format_float grouped0 x
  end.

(** The letters of the unit suffixes, and the texts without any of them. *)
Definition unit_letter (c : ascii) : bool :=
  Ascii.eqb c "T" || Ascii.eqb c "B" || Ascii.eqb c "M".

Definition unit_free (s : string) : bool :=
  forallb (fun c => negb (unit_letter c)) (list_ascii_of_string s).

(** The numbers that are, or convert to, a float: the floats, and the ints
    below [2^1024 - 2^970] in magnitude. *)
Definition converts (v : pyval) : bool :=
  match v with
  | PyInt n => Z.abs n <? 2 ^ 1024 - 2 ^ 970
  | PyFloat _ => true
  | PyNone | PyStr _ | PyOther => false
  end.

(** The state of the right shift of the integer [n] after [j] steps: the
    mantissa is the quotient by [2^j], the round bit is the top bit of the
    remainder, and the sticky bit says whether the rest of the remainder is
    not zero. *)
Definition shifted (n j : Z) (st : shr_record) : Prop :=
  (j = 0 /\ st = Build_shr_record n false false)
  \/ (1 <= j /\ 0 <= shr_m st
      /\ exists low,
           0 <= low < 2 ^ (j - 1)
           /\ n = shr_m st * 2 ^ j
                  + (if shr_r st then 2 ^ (j - 1) else 0) + low
           /\ (shr_s st = false <-> low = 0)).

(** The record that [get_company_info] makes of the provider's response. *)
Definition snapshot_record (r : response (gmap string pyval))
  : gmap string pyval :=
  <["name" := default (PyStr "N/A") (provided r "longName")]>
  (<["sector" := default (PyStr "N/A") (provided r "sector")]>
  (<["marketCap" := default (PyInt 0) (provided r "marketCap")]>
  (<["currentPrice" := default (PyInt 0) (provided r "currentPrice")]> ∅))).

(** A card can be made of a record when its price and its market cap are
    numbers that are, or convert to, floats. *)
Definition card_ok (info : gmap string pyval) : bool :=
  match info !! "currentPrice", info !! "marketCap" with
  | Some price, Some cap => converts price && converts cap
  | _, _ => false
  end.

(** A company is ready to be shown when the provider returns rows for it and
    a card can be made of its snapshot. *)
Definition ready (history : string -> string -> response dataframe)
    (snapshot : string -> response (gmap string pyval))
    (ctl : controls) (company : string) : bool :=
  match dict_get COMPANY_GROUPS (company_group ctl) with
  | Some companies_dict =>
      match dict_get companies_dict company,
            dict_get period_options (selected_period ctl) with
      | Some ticker, Some period =>
          match history ticker period with
          | Responds data =>
              negb (empty data) && card_ok (snapshot_record (snapshot ticker))
          | Fails _ _ => false
          end
      | _, _ => false
      end
  | None => false
  end.

(** The loaded data hold a company: its rows and the record of its
    snapshot. *)
Definition holds (history : string -> string -> response dataframe)
    (snapshot : string -> response (gmap string pyval))
    (ctl : controls) (s : dict dataframe * dict (gmap string pyval))
    (company : string) : Prop :=
  exists companies_dict ticker period data,
    dict_get COMPANY_GROUPS (company_group ctl) = Some companies_dict
    /\ dict_get companies_dict company = Some ticker
    /\ dict_get period_options (selected_period ctl) = Some period
    /\ history ticker period = Responds data
    /\ dict_get s.1 company = Some data
    /\ dict_get s.2 company = Some (snapshot_record (snapshot ticker)).

(** *** Further vocabulary *)

(** The keys of a dict, in insertion order. *)
Definition keys {V : Type} (d : dict V) : list string := map fst d.

(** The loaded data are well formed: the two dicts have the same keys in
    the same order, and every table has rows. *)
Definition well_loaded (s : dict dataframe * dict (gmap string pyval)) : Prop :=
  keys s.1 = keys s.2 /\ Forall (fun cd => empty cd.2 = false) s.1.


(** The page from the price chart on, lines 136 to 212: what [render] does
    after the metric cards. *)
Definition charts (Set1 : list string) (ctl : controls)
    (stock_data : dict dataframe) : run unit :=
  _ ← emit (Header "📈 주가 차트");
  fc ← price_chart Set1 ctl stock_data;
  _ ← emit (PlotlyChart fc.1);
  _ ← emit (Header "📊 성과 비교");
  performance_data ← for_each performance_entry stock_data [];
  _ ← emit (Dataframe performance_data);
  _ ← emit (Header "📊 거래량 분석");
  traces ← for_each (volume_trace fc.2) (enumerate stock_data) [];
  _ ← emit (PlotlyChart
              (Figure traces ("거래량 추이 - " +:+ selected_period ctl)));
  _ ← emit (Header "ℹ️ 추가 정보");
  emit (Info disclaimer).

(** The line of a company in the price chart and in the volume chart: its
    dates against its closes, or against its volumes, under its name and in
    a colour. *)
Definition price_line (cd : string * dataframe) (c : string) : plot_trace :=
  Scatter (map Date cd.2) (map (fun b => PyFloat (Close b)) cd.2) cd.1 c.

Definition volume_line (cd : string * dataframe) (c : string) : plot_trace :=
  Scatter (map Date cd.2) (map (fun b => PyInt (Volume b)) cd.2) cd.1 c.

(** The requests that the page sends for a selection: for each company in
    turn, the history of its ticker over the period, then its snapshot. *)
Definition requests (companies_dict : dict string) (period : string)
    (selected : list string) : list event :=
  flat_map (fun company =>
              match dict_get companies_dict company with
              | Some ticker => [FetchHistory ticker period; FetchSnapshot ticker]
              | None => []
              end) selected.

(** The numbers: ints and floats. *)
Definition is_number (v : pyval) : bool :=
  match v with
  | PyInt _ | PyFloat _ => true
  | PyNone | PyStr _ | PyOther => false
  end.

(** The loaded records are those that [get_company_info] makes of the
    snapshots of the tickers. *)
Definition records_of (snapshot : string -> response (gmap string pyval))
    (companies_dict : dict string) (s : dict dataframe * dict (gmap string pyval))
  : Prop :=
  forall company info,
    dict_get s.2 company = Some info ->
    exists ticker,
      dict_get companies_dict company = Some ticker
      /\ info = snapshot_record (snapshot ticker).

(** Reading a dollar text back: after the dollar sign, the decimal integer
    that is left when the thousands separators are taken out. *)
Definition read_dollars (text : string) : option Z :=
  match text with
  | String "$" rest =>
      let ds := List.filter (fun c => negb (Ascii.eqb c ","))
                  (list_ascii_of_string rest) in
      Z.of_int <$> NilZero.int_of_string (string_of_list_ascii ds)
  | _ => None
  end.

(** The column and the label of a metric card. *)
Definition card_of (e : event) : option (nat * string) :=
  match e with
  | Metric column label _ _ => Some (column, label)
  | _ => None
  end.

(** The controls that the widgets of the sidebar can give, lines 87 to 105:
    a group of the catalog, companies of that group without repeats, a
    period of the list and one of the two chart types. *)
Definition offered (ctl : controls) : Prop :=
  exists companies_dict,
    dict_get COMPANY_GROUPS (company_group ctl) = Some companies_dict
    /\ Forall (fun c => In c (keys companies_dict)) (selected_companies ctl)
    /\ NoDup (selected_companies ctl)
    /\ In (selected_period ctl) (keys period_options)
    /\ In (chart_type ctl) [line_chart; candlestick_chart].

(** The error messages. *)
Definition is_error (e : event) : bool :=
  match e with
  | Error _ => true
  | _ => false
  end.

(** The messages for the requests that raised: for each company in turn
    whose history request raised an exception, the ticker and the text of
    the exception. *)
Definition fetch_errors (history : string -> string -> response dataframe)
    (companies_dict : dict string) (period : string)
    (selected : list string) : list event :=
  flat_map (fun company =>
              match dict_get companies_dict company with
              | Some ticker =>
                  match history ticker period with
                  | Fails true msg =>
                      [Error (ticker +:+ " 데이터를 가져오는 중 오류 발생: "
                              +:+ msg)]
                  | _ => []
                  end
              | None => []
              end) selected.

(** The unit of the market-cap text of an int from a million on, and its
    letter. *)
Definition unit_of (n : Z) : Z :=
  if 10 ^ 12 <=? n then 10 ^ 12
  else if 10 ^ 9 <=? n then 10 ^ 9
  else 10 ^ 6.

Definition unit_suffix (n : Z) : string :=
  if 10 ^ 12 <=? n then "T"
  else if 10 ^ 9 <=? n then "B"
  else "M".

(** *** The run monad *)

Lemma bind_Return {A B : Type} (m : run A) (k : A -> run B) (a : A) :
  result m = Return a ->
  m ≫= k = Run (trace m ++ trace (k a)) (result (k a)).
Proof. intros H. unfold mbind, run_bind. now rewrite H. Qed.

Lemma bind_Raise {A B : Type} (m : run A) (k : A -> run B) (e : exn) :
  result m = Raise e -> m ≫= k = Run (trace m) (Raise e).
Proof. intros H. unfold mbind, run_bind. now rewrite H. Qed.

Lemma run_eta {A : Type} (m : run A) : Run (trace m) (result m) = m.
Proof. now destruct m. Qed.

Lemma bind_Run_Return {A B : Type} (t : list event) (a : A) (k : A -> run B) :
  Run t (Return a) ≫= k = Run (t ++ trace (k a)) (result (k a)).
Proof. reflexivity. Qed.

Lemma bind_Run_Raise {A B : Type} (t : list event) (e : exn) (k : A -> run B) :
  Run t (Raise e) ≫= k = Run t (Raise e).
Proof. reflexivity. Qed.

Lemma bind_lift_Return {A B : Type} (a : A) (k : A -> run B) :
  lift (Return a) ≫= k = k a.
Proof. unfold lift. rewrite bind_Run_Return. apply run_eta. Qed.

Lemma bind_lift_Raise {A B : Type} (e : exn) (k : A -> run B) :
  lift (Raise e) ≫= k = Run [] (Raise e).
Proof. reflexivity. Qed.

Lemma bind_mret {A B : Type} (a : A) (k : A -> run B) : mret a ≫= k = k a.
Proof. apply (bind_lift_Return a k). Qed.

Lemma bind_emit {B : Type} (e : event) (k : unit -> run B) :
  emit e ≫= k = Run (e :: trace (k tt)) (result (k tt)).
Proof. reflexivity. Qed.

Lemma for_each_nil {A S : Type} (body : S -> A -> run S) (s : S) :
  for_each body [] s = mret s.
Proof. reflexivity. Qed.

Lemma for_each_cons {A S : Type} (body : S -> A -> run S) (a : A)
    (l : list A) (s : S) :
  for_each body (a :: l) s = body s a ≫= for_each body l.
Proof. reflexivity. Qed.

(** The trace of the whole contains the trace of the first part. *)
Lemma trace_bind {A B : Type} (m : run A) (k : A -> run B) :
  trace (m ≫= k)
  = trace m ++ match result m with
               | Return a => trace (k a)
               | Raise _ => []
               end.
Proof.
  unfold mbind, run_bind. destruct (result m); cbn [trace].
  - reflexivity.
  - now rewrite app_nil_r.
Qed.

Lemma result_bind {A B : Type} (m : run A) (k : A -> run B) :
  result (m ≫= k)
  = match result m with
    | Return a => result (k a)
    | Raise e => Raise e
    end.
Proof. unfold mbind, run_bind. now destruct (result m). Qed.

(** *** No company selected *)

(** C5: with no company selected, the page shows its title, its
    introduction and a warning, and returns: it sends no request to the data
    provider and shows no card, chart or table. *)
Theorem no_selection_warns_and_halts
    (history : string -> string -> response dataframe)
    (snapshot : string -> response (gmap string pyval))
    (Set1 : list string) (ctl : controls) :
  is_Some (dict_get COMPANY_GROUPS (company_group ctl)) ->
  selected_companies ctl = [] ->
  main history snapshot Set1 ctl =
    Run [ Title "📈 글로벌 주요 기업 주가 분석";
          Markdown
      "시총 상위 기업과 차세대 AI 기업들의 최근 주가 흐름을 비교해보세요.";
          Warning "최소 하나의 기업을 선택해주세요." ]
        (Return tt)
  /\ Forall (fun e => is_fetch e = false /\ is_display e = false)
       (trace (main history snapshot Set1 ctl)).
Proof.
  intros [companies_dict Hgroup] Hnone.
  assert (Hrun : main history snapshot Set1 ctl =
    Run [ Title "📈 글로벌 주요 기업 주가 분석";
          Markdown
      "시총 상위 기업과 차세대 AI 기업들의 최근 주가 흐름을 비교해보세요.";
          Warning "최소 하나의 기업을 선택해주세요." ]
        (Return tt)).
  { unfold main, getitem. rewrite Hgroup, Hnone. reflexivity. }
  split; [exact Hrun |].
  rewrite Hrun. cbn [trace]. repeat constructor.
Qed.

Lemma no_selection_warns_and_halts_witness :
  let ctl := Controls "시총 Top 10 기업" [] "3년" line_chart in
  main Sample.history Sample.snapshot Sample.Set1 ctl =
    Run [ Title "📈 글로벌 주요 기업 주가 분석";
          Markdown
      "시총 상위 기업과 차세대 AI 기업들의 최근 주가 흐름을 비교해보세요.";
          Warning "최소 하나의 기업을 선택해주세요." ]
        (Return tt)
  /\ Forall (fun e => is_fetch e = false /\ is_display e = false)
       (trace (main Sample.history Sample.snapshot Sample.Set1 ctl)).
Proof.
  apply (no_selection_warns_and_halts Sample.history Sample.snapshot
           Sample.Set1 (Controls "시총 Top 10 기업" [] "3년" line_chart)).
  - exists TOP_10_COMPANIES. reflexivity.
  - reflexivity.
Defined.

(** *** The snapshot *)

(** C7: when the request for the snapshot of a ticker raises, whatever it
    raises, [get_company_info] returns the placeholder record, and the
    request is all it does: it shows no error. *)
Theorem snapshot_failure_gives_placeholder
    (snapshot : string -> response (gmap string pyval))
    (ticker : string) (is_exception : bool) (msg : string) :
  snapshot ticker = Fails is_exception msg ->
  get_company_info snapshot ticker =
    Run [FetchSnapshot ticker]
      (Return (<["name" := PyStr "N/A"]> (<["sector" := PyStr "N/A"]>
              (<["marketCap" := PyInt 0]> (<["currentPrice" := PyInt 0]> ∅))))).
Proof.
  intros Hfail. unfold get_company_info. rewrite Hfail. reflexivity.
Qed.

Lemma snapshot_failure_gives_placeholder_witness :
  get_company_info Sample.snapshot "MSFT" =
    Run [FetchSnapshot "MSFT"]
      (Return (<["name" := PyStr "N/A"]> (<["sector" := PyStr "N/A"]>
              (<["marketCap" := PyInt 0]> (<["currentPrice" := PyInt 0]> ∅))))).
Proof.
  apply (snapshot_failure_gives_placeholder Sample.snapshot "MSFT" true
           "no snapshot").
  reflexivity.
Defined.

(** C10: [get_company_info] always returns a record with exactly the keys
    name, sector, marketCap and currentPrice; each field holds what the
    provider's snapshot has for it, and its own placeholder otherwise. *)
Theorem company_info_has_four_fields
    (snapshot : string -> response (gmap string pyval)) (ticker : string) :
  exists info : gmap string pyval,
    result (get_company_info snapshot ticker) = Return info
    /\ dom info = {["name"; "sector"; "marketCap"; "currentPrice"]}
    /\ info !! "name"
       = Some (default (PyStr "N/A") (provided (snapshot ticker) "longName"))
    /\ info !! "sector"
       = Some (default (PyStr "N/A") (provided (snapshot ticker) "sector"))
    /\ info !! "marketCap"
       = Some (default (PyInt 0) (provided (snapshot ticker) "marketCap"))
    /\ info !! "currentPrice"
       = Some (default (PyInt 0) (provided (snapshot ticker) "currentPrice")).
Proof.
  unfold get_company_info.
  destruct (snapshot ticker) as [response | is_exception msg];
    eexists; (split; [reflexivity |]);
    (split; [unfold placeholder; rewrite !dom_insert_L; set_solver |]);
    repeat split.
Qed.

(** *** The performance table *)

(** C3: for a series with a first and a last close, the row of the
    performance table gives as total return the percent change, last close
    less first close over first close times 100, with two decimals and a
    percent sign; closes 100, 110 give 10.00% and closes 200, 180 give
    -10.00%. *)
Theorem total_return_is_percent_change :
  (forall (company : string) (data : dataframe) (first final : float),
      head (map Close data) = Some first ->
      last (map Close data) = Some final ->
      exists row,
        performance company data = Return row
        /\ total_return row
           = format_float f2 (percent_change first final) +:+ "%")
  /\ (forall (company : string) (data : dataframe),
        map Close data = [float_of_Z 100; float_of_Z 110] ->
        exists row,
          performance company data = Return row
          /\ total_return row = "10.00%")
  /\ (forall (company : string) (data : dataframe),
        map Close data = [float_of_Z 200; float_of_Z 180] ->
        exists row,
          performance company data = Return row
          /\ total_return row = "-10.00%").
Proof.
  split; [| split].
  - intros company data first final Hfirst Hlast.
    unfold performance, iloc_first, iloc_last.
    rewrite Hlast.
    destruct (map Close data) as [| x xs]; [discriminate |].
    injection Hfirst as ->.
    eexists. split; reflexivity.
  - intros company data Hcloses. unfold performance. rewrite Hcloses.
    eexists. split; [reflexivity | vm_compute; reflexivity].
  - intros company data Hcloses. unfold performance. rewrite Hcloses.
    eexists. split; [reflexivity | vm_compute; reflexivity].
Qed.

Lemma total_return_is_percent_change_witness :
  exists row,
    performance "Apple" (Sample.bars [100; 110]) = Return row
    /\ total_return row
       = format_float f2 (percent_change (float_of_Z 100) (float_of_Z 110))
           +:+ "%".
Proof.
  apply (proj1 total_return_is_percent_change "Apple"
           (Sample.bars [100; 110]) (float_of_Z 100) (float_of_Z 110));
    reflexivity.
Defined.

(** C4: for the closes 10, 20, 30 the row of the performance table shows the
    highest close 30, the lowest close 10 and the volatility 10.00, which is
    the textbook sample standard deviation: the sample variance, with
    divisor n - 1, is 100, the square of 10. *)
Theorem summary_of_10_20_30 :
  (forall (company : string) (data : dataframe),
      map Close data = [float_of_Z 10; float_of_Z 20; float_of_Z 30] ->
      exists row,
        performance company data = Return row
        /\ highest row = "$30.00"
        /\ lowest row = "$10.00"
        /\ volatility row = "10.00")
  /\ series_std [float_of_Z 10; float_of_Z 20; float_of_Z 30] = float_of_Z 10
  /\ (sample_variance [10; 20; 30] == 10 * 10)%Q.
Proof.
  split; [| split].
  - intros company data Hcloses. unfold performance. rewrite Hcloses.
    eexists. split; [reflexivity |].
    repeat split; vm_compute; reflexivity.
  - vm_compute. reflexivity.
  - vm_compute. reflexivity.
Qed.

Lemma summary_of_10_20_30_witness :
  exists row,
    performance "Amazon" (Sample.bars [10; 20; 30]) = Return row
    /\ highest row = "$30.00"
    /\ lowest row = "$10.00"
    /\ volatility row = "10.00".
Proof.
  apply (proj1 summary_of_10_20_30 "Amazon" (Sample.bars [10; 20; 30])).
  reflexivity.
Defined.

(** *** One fetch of three fails *)

(** C1 (what the page does): with Apple, Microsoft and Alphabet selected and
    an empty history for Microsoft alone, the page shows the card of Apple
    and then raises [KeyError] for Microsoft, at its card; no chart and no
    table follow. *)
Theorem one_failed_fetch_of_three_raises :
  main Sample.history Sample.snapshot Sample.Set1
    (Controls "시총 Top 10 기업" ["Apple"; "Microsoft"; "Alphabet (Google)"]
       "3년" line_chart)
  = Run [ Title "📈 글로벌 주요 기업 주가 분석";
          Markdown
      "시총 상위 기업과 차세대 AI 기업들의 최근 주가 흐름을 비교해보세요.";
          FetchHistory "AAPL" "3y"; FetchSnapshot "AAPL";
          FetchHistory "MSFT" "3y"; FetchSnapshot "MSFT";
          FetchHistory "GOOGL" "3y"; FetchSnapshot "GOOGL";
          Header "📊 선택된 기업 정보";
          Metric 0 "Apple" "$110.00" "시총: $2.50B";
          Caption 0 "섹터: " (PyStr "Technology") ]
        (Raise (KeyError "Microsoft")).
Proof. vm_compute. reflexivity. Qed.

(** *** Every fetch fails *)

Section AllFailed.

Variable history : string -> string -> response dataframe.
Variable snapshot : string -> response (gmap string pyval).

Lemma get_company_info_returns (ticker : string) :
  exists info,
    get_company_info snapshot ticker = Run [FetchSnapshot ticker] (Return info).
Proof.
  unfold get_company_info. destruct (snapshot ticker); eexists; reflexivity.
Qed.

(** A failed fetch returns [None] or an empty table. *)
Lemma get_stock_data_failed (ticker period : string) :
  fetch_fails (history ticker period) = true ->
  exists t data,
    get_stock_data history ticker period = Run t (Return data)
    /\ match data with Some d => empty d = true | None => True end
    /\ Forall (fun e => is_display e = false) t.
Proof.
  intros Hfails. unfold get_stock_data. rewrite bind_emit.
  destruct (history ticker period) as [data | [] msg]; try discriminate.
  - exists [FetchHistory ticker period], (Some data). cbn.
    repeat split; [exact Hfails | repeat constructor].
  - eexists _, None. rewrite bind_emit. cbn.
    repeat split; repeat constructor.
Qed.

(** A failed fetch leaves the loaded data as it is. *)
Lemma load_failed (companies_dict : dict string) (period_label : string)
    (s : loaded) (company ticker period : string) :
  dict_get companies_dict company = Some ticker ->
  dict_get period_options period_label = Some period ->
  fetch_fails (history ticker period) = true ->
  exists t,
    load history snapshot companies_dict period_label s company
      = Run t (Return s)
    /\ Forall (fun e => is_display e = false) t.
Proof.
  intros Hticker Hperiod Hfails.
  destruct (get_company_info_returns ticker) as [info Hinfo].
  destruct (get_stock_data_failed ticker period Hfails)
    as (t & data & Hdata & Hempty & Ht).
  unfold load, getitem.
  rewrite Hticker, bind_lift_Return, Hperiod, bind_lift_Return.
  rewrite Hdata, bind_Run_Return, Hinfo, bind_Run_Return.
  assert (Hkeep : match data with
                  | Some data =>
                      if negb (empty data)
                      then mret (dict_set s.1 company data,
                                 dict_set s.2 company info)
                      else mret s
                  | None => mret s
                  end = (mret s : run loaded)).
  { destruct data as [d |]; [now rewrite Hempty | reflexivity]. }
  rewrite Hkeep. cbn [trace result mret run_ret].
  eexists. split; [reflexivity |].
  apply Forall_app. split; [exact Ht | repeat constructor].
Qed.

Lemma answer_Some (ctl : controls) (company : string)
    (r : response dataframe) :
  answer history ctl company = Some r ->
  exists companies_dict ticker period,
    dict_get COMPANY_GROUPS (company_group ctl) = Some companies_dict
    /\ dict_get companies_dict company = Some ticker
    /\ dict_get period_options (selected_period ctl) = Some period
    /\ r = history ticker period.
Proof.
  unfold answer. intros Hr.
  destruct (dict_get COMPANY_GROUPS (company_group ctl))
    as [companies_dict |] eqn:Hgroup; [| discriminate].
  change (dict_get companies_dict company ≫= (fun ticker =>
            dict_get period_options (selected_period ctl) ≫= (fun period =>
              Some (history ticker period))) = Some r) in Hr.
  destruct (dict_get companies_dict company) as [ticker |] eqn:Hticker;
    [| discriminate].
  change (dict_get period_options (selected_period ctl) ≫= (fun period =>
            Some (history ticker period)) = Some r) in Hr.
  destruct (dict_get period_options (selected_period ctl)) as [period |]
    eqn:Hperiod; [| discriminate].
  injection Hr as <-. now exists companies_dict, ticker, period.
Qed.

Lemma load_all_failed (ctl : controls) (companies_dict : dict string)
    (selected : list string) (s : loaded) :
  dict_get COMPANY_GROUPS (company_group ctl) = Some companies_dict ->
  Forall (fun c => exists r, answer history ctl c = Some r
                             /\ fetch_fails r = true) selected ->
  exists t,
    for_each (load history snapshot companies_dict (selected_period ctl))
      selected s = Run t (Return s)
    /\ Forall (fun e => is_display e = false) t.
Proof.
  intros Hgroup Hall. induction Hall as [| c l (r & Hr & Hfails) _ IH].
  - exists []. split; [reflexivity | constructor].
  - apply answer_Some in Hr
      as (companies_dict' & ticker & period & Hgroup' & Hticker & Hperiod & ->).
    rewrite Hgroup in Hgroup'. injection Hgroup' as <-.
    destruct (load_failed companies_dict (selected_period ctl) s c ticker
                period Hticker Hperiod Hfails) as (t1 & Hload & Ht1).
    destruct IH as (t2 & Hrest & Ht2).
    rewrite for_each_cons, Hload, bind_Run_Return, Hrest. cbn.
    eexists. split; [reflexivity |]. apply Forall_app. now split.
Qed.

End AllFailed.

(** C6: when at least one company is selected and the fetch of the history
    fails for every selected company (the request raises an exception or
    returns no rows), the page shows, after its title and introduction, only
    the requests and their error messages, then the error message that no
    data could be loaded, and returns: no card, chart or table is shown. *)
Theorem all_fetches_failed_halts
    (history : string -> string -> response dataframe)
    (snapshot : string -> response (gmap string pyval))
    (Set1 : list string) (ctl : controls) :
  selected_companies ctl <> [] ->
  Forall (fun c => exists r, answer history ctl c = Some r
                             /\ fetch_fails r = true)
    (selected_companies ctl) ->
  exists fetches,
    main history snapshot Set1 ctl
    = Run ([ Title "📈 글로벌 주요 기업 주가 분석";
             Markdown
      "시총 상위 기업과 차세대 AI 기업들의 최근 주가 흐름을 비교해보세요." ]
           ++ fetches ++ [Error "데이터를 불러올 수 없습니다."])
        (Return tt)
    /\ Forall (fun e => is_display e = false) fetches.
Proof.
  intros Hsome Hall.
  destruct (selected_companies ctl) as [| c l] eqn:Hsel; [congruence |].
  assert (Hgroup : exists companies_dict,
             dict_get COMPANY_GROUPS (company_group ctl) = Some companies_dict).
  { inversion Hall as [| ? ? (r & Hr & _) _]; subst.
    apply answer_Some in Hr as (companies_dict & _ & _ & Hgroup & _).
    eauto. }
  destruct Hgroup as [companies_dict Hgroup].
  destruct (load_all_failed history snapshot ctl companies_dict (c :: l)
              ([], []) Hgroup Hall) as (t & Hload & Ht).
  exists t. split; [| exact Ht].
  unfold main, getitem. rewrite !bind_emit, Hgroup, bind_lift_Return, Hsel.
  rewrite Hload, bind_Run_Return. cbn. reflexivity.
Qed.

Lemma all_fetches_failed_halts_witness :
  exists fetches,
    main Sample.history Sample.snapshot Sample.Set1
      (Controls "시총 Top 10 기업" ["Tesla"; "Visa"] "3년" candlestick_chart)
    = Run ([ Title "📈 글로벌 주요 기업 주가 분석";
             Markdown
      "시총 상위 기업과 차세대 AI 기업들의 최근 주가 흐름을 비교해보세요." ]
           ++ fetches ++ [Error "데이터를 불러올 수 없습니다."])
        (Return tt)
    /\ Forall (fun e => is_display e = false) fetches.
Proof.
  apply (all_fetches_failed_halts Sample.history Sample.snapshot Sample.Set1
           (Controls "시총 Top 10 기업" ["Tesla"; "Visa"] "3년"
              candlestick_chart)).
  - discriminate.
  - repeat constructor; eexists; (split; reflexivity).
Defined.

(** *** The candlestick chart *)

Lemma for_each_trace {A S : Type} (P : event -> Prop)
    (body : S -> A -> run S) (l : list A) :
  (forall s a, Forall P (trace (body s a))) ->
  forall s, Forall P (trace (for_each body l s)).
Proof.
  intros Hbody. induction l as [| a l IH]; intros s.
  - constructor.
  - rewrite for_each_cons, trace_bind. apply Forall_app. split; [apply Hbody |].
    destruct (result (body s a)); [apply IH | constructor].
Qed.

Lemma for_each_invariant {A S : Type} (I : S -> Prop)
    (body : S -> A -> run S) (l : list A) :
  (forall s a s', I s -> result (body s a) = Return s' -> I s') ->
  forall s s', I s -> result (for_each body l s) = Return s' -> I s'.
Proof.
  intros Hbody. induction l as [| a l IH]; intros s s' Hs Hrun.
  - injection Hrun as <-. exact Hs.
  - rewrite for_each_cons, result_bind in Hrun.
    destruct (result (body s a)) as [s1 |] eqn:Hstep; [| discriminate].
    eapply IH; [| exact Hrun]. eapply Hbody; eauto.
Qed.

Lemma dict_get_set {V : Type} (d : dict V) (k k' : string) (v : V) :
  dict_get (dict_set d k v) k'
  = if String.eqb k' k then Some v else dict_get d k'.
Proof.
  induction d as [| [k0 v0] d IH]; cbn.
  - reflexivity.
  - destruct (String.eqb_spec k k0) as [-> | Hne]; cbn.
    + destruct (String.eqb k' k0); reflexivity.
    + rewrite IH. destruct (String.eqb_spec k' k0) as [-> | Hne'].
      * destruct (String.eqb_spec k0 k); [congruence | reflexivity].
      * reflexivity.
Qed.

Lemma preliminary_quiet (e : event) : preliminary e = true -> quiet e = true.
Proof. now destruct e. Qed.

Section Candlestick.

Variable history : string -> string -> response dataframe.
Variable snapshot : string -> response (gmap string pyval).
Variable Set1 : list string.

Lemma get_stock_data_preliminary (ticker period : string) :
  Forall (fun e => preliminary e = true)
    (trace (get_stock_data history ticker period)).
Proof.
  unfold get_stock_data. rewrite bind_emit. cbn [trace].
  destruct (history ticker period) as [data | [] msg]; repeat constructor.
Qed.

Lemma get_stock_data_Some (ticker period : string) (data : dataframe) :
  result (get_stock_data history ticker period) = Return (Some data) ->
  history ticker period = Responds data.
Proof.
  unfold get_stock_data. rewrite bind_emit. cbn [result].
  destruct (history ticker period) as [d | [] msg]; cbn; congruence.
Qed.

Lemma load_preliminary (companies_dict : dict string) (period_label : string)
    (s : loaded) (company : string) :
  Forall (fun e => preliminary e = true)
    (trace (load history snapshot companies_dict period_label s company)).
Proof.
  unfold load.
  destruct (getitem companies_dict company) as [ticker |];
    [rewrite bind_lift_Return | constructor].
  destruct (getitem period_options period_label) as [period |];
    [rewrite bind_lift_Return | constructor].
  rewrite trace_bind. apply Forall_app.
  split; [apply get_stock_data_preliminary |].
  destruct (result (get_stock_data history ticker period)) as [data |];
    [| constructor].
  destruct (get_company_info_returns snapshot ticker) as [info ->].
  rewrite bind_Run_Return. cbn [trace].
  constructor; [reflexivity |].
  destruct data as [data |]; [destruct (negb (empty data)) |]; constructor.
Qed.

Lemma load_quiet (companies_dict : dict string) (period_label : string)
    (s : loaded) (company : string) :
  Forall (fun e => quiet e = true)
    (trace (load history snapshot companies_dict period_label s company)).
Proof.
  eapply Forall_impl; [apply load_preliminary |].
  intros e He. exact (preliminary_quiet e He).
Qed.

(** What is loaded for a company is what the provider answered for it. *)
Lemma load_answer (ctl : controls) (companies_dict : dict string)
    (s s' : loaded) (company : string) :
  dict_get COMPANY_GROUPS (company_group ctl) = Some companies_dict ->
  (forall c d, dict_get s.1 c = Some d ->
               answer history ctl c = Some (Responds d)) ->
  result (load history snapshot companies_dict (selected_period ctl) s company)
    = Return s' ->
  forall c d, dict_get s'.1 c = Some d ->
              answer history ctl c = Some (Responds d).
Proof.
  intros Hgroup Hs. unfold load, getitem.
  destruct (dict_get companies_dict company) as [ticker |] eqn:Hticker;
    [rewrite bind_lift_Return | discriminate].
  destruct (dict_get period_options (selected_period ctl)) as [period |]
    eqn:Hperiod; [rewrite bind_lift_Return | discriminate].
  rewrite result_bind.
  destruct (result (get_stock_data history ticker period)) as [data |]
    eqn:Hdata; [| discriminate].
  destruct (get_company_info_returns snapshot ticker) as [info ->].
  rewrite bind_Run_Return. cbn [result].
  destruct data as [data |].
  - apply get_stock_data_Some in Hdata.
    destruct (negb (empty data)); intros [= <-]; [| exact Hs].
    intros c d. cbn [fst]. rewrite dict_get_set.
    destruct (String.eqb_spec c company) as [-> | Hne]; [| apply Hs].
    intros [= <-]. unfold answer. rewrite Hgroup. cbn [mbind option_bind].
    rewrite Hticker. cbn [mbind option_bind]. rewrite Hperiod.
    cbn [mbind option_bind]. now rewrite Hdata.
  - intros [= <-]. exact Hs.
Qed.

Lemma lift_preliminary {A : Type} (o : outcome A) :
  Forall (fun e => preliminary e = true) (trace (lift o)).
Proof. constructor. Qed.

Lemma metric_card_preliminary (company_info : dict (gmap string pyval))
    (u : unit) (ic : nat * string) :
  Forall (fun e => preliminary e = true)
    (trace (metric_card company_info u ic)).
Proof.
  destruct ic as [i company]. unfold metric_card.
  repeat (rewrite trace_bind; apply Forall_app; split;
          [first [apply lift_preliminary | repeat constructor] |];
          match goal with
          | |- context [result ?m] => destruct (result m); [| constructor]
          end).
  repeat constructor.
Qed.

Lemma metric_card_quiet (company_info : dict (gmap string pyval)) (u : unit)
    (ic : nat * string) :
  Forall (fun e => quiet e = true) (trace (metric_card company_info u ic)).
Proof.
  eapply Forall_impl; [apply metric_card_preliminary |].
  intros e He. exact (preliminary_quiet e He).
Qed.

Lemma performance_entry_quiet (rows : list performance_row)
    (cd : string * dataframe) :
  Forall (fun e => quiet e = true) (trace (performance_entry rows cd)).
Proof.
  unfold performance_entry.
  destruct (performance cd.1 cd.2); [rewrite bind_lift_Return |]; constructor.
Qed.

(** The candlestick chart: the first selected company alone, with a notice
    when more companies are selected. *)
Lemma price_chart_candlestick (ctl : controls) (stock_data : dict dataframe)
    (company : string) (rest : list string) :
  chart_type ctl = candlestick_chart ->
  selected_companies ctl = company :: rest ->
  price_chart Set1 ctl stock_data
  = match dict_get stock_data company with
    | Some data =>
        Run (match rest with [] => [] | _ :: _ => [Info candlestick_notice] end)
          (Return (candlestick_figure ctl company data, None))
    | None => Run [] (Raise (KeyError company))
    end.
Proof.
  intros Hchart Hsel. unfold price_chart, getitem. rewrite Hchart, Hsel.
  change (candlestick_chart =? line_chart)%string with false.
  cbn match. rewrite bind_lift_Return.
  destruct (dict_get stock_data company) as [data |];
    [rewrite bind_lift_Return | reflexivity].
  destruct rest; reflexivity.
Qed.

(** Without the colours of the line chart, the volume chart fails at its
    first trace. *)
Lemma volume_without_colors (stock_data : dict dataframe) :
  stock_data <> [] ->
  for_each (volume_trace None) (enumerate stock_data) []
  = Run [] (Raise (UnboundLocalError "colors")).
Proof.
  destruct stock_data as [| [company data] rest]; [congruence |].
  intros _. reflexivity.
Qed.

(** In candlestick mode the page shows at most one chart, the candlestick
    chart of the first selected company, with the notice before it when more
    companies are selected; everything else it shows is neither a chart nor
    an information box. *)
Lemma render_candlestick (ctl : controls) (stock_data : dict dataframe)
    (company_info : dict (gmap string pyval)) (company : string)
    (rest : list string) :
  chart_type ctl = candlestick_chart ->
  selected_companies ctl = company :: rest ->
  stock_data <> [] ->
  exists before after,
    Forall (fun e => quiet e = true) before
    /\ Forall (fun e => quiet e = true) after
    /\ (trace (render Set1 ctl (stock_data, company_info)) = before
        \/ exists data,
             dict_get stock_data company = Some data
             /\ trace (render Set1 ctl (stock_data, company_info))
                = before
                  ++ match rest with
                     | [] => []
                     | _ :: _ => [Info candlestick_notice]
                     end
                  ++ PlotlyChart (candlestick_figure ctl company data)
                     :: after).
Proof.
  intros Hchart Hsel Hdata. unfold render.
  rewrite bind_emit. cbn [trace]. rewrite trace_bind.
  pose proof (for_each_trace (fun e => quiet e = true)
                (metric_card company_info)
                (enumerate (selected_companies ctl))
                (metric_card_quiet company_info) tt) as Hcards.
  destruct (result (for_each (metric_card company_info)
                      (enumerate (selected_companies ctl)) tt)) as [[] |].
  2:{ eexists _, []. split; [| split; [constructor | left; reflexivity]].
      constructor; [reflexivity |]. now rewrite app_nil_r. }
  rewrite bind_emit. cbn [trace].
  rewrite (price_chart_candlestick ctl stock_data company rest Hchart Hsel).
  destruct (dict_get stock_data company) as [data |].
  2:{ eexists _, []. split; [| split; [constructor | left; reflexivity]].
      constructor; [reflexivity |]. apply Forall_app. split; [exact Hcards |].
      repeat constructor. }
  rewrite bind_Run_Return, !bind_emit. cbn [trace fst snd].
  rewrite (volume_without_colors stock_data Hdata).
  rewrite bind_Run_Raise.
  pose proof (for_each_trace (fun e => quiet e = true) performance_entry
                stock_data performance_entry_quiet []) as Hrows.
  rewrite trace_bind.
  exists (Header "📊 선택된 기업 정보"
          :: trace (for_each (metric_card company_info)
                     (enumerate (selected_companies ctl)) tt)
          ++ [Header "📈 주가 차트"]).
  eexists. split; [| split; [| right; exists data; split; [reflexivity |]]].
  3:{ cbn [app]. rewrite <- !app_assoc. cbn [app]. reflexivity. }
  - constructor; [reflexivity |]. apply Forall_app. split; [exact Hcards |].
    repeat constructor.
  - constructor; [reflexivity |]. apply Forall_app. split; [exact Hrows |].
    destruct (result (for_each performance_entry stock_data []));
      repeat constructor.
Qed.

Lemma main_candlestick (ctl : controls) (company : string)
    (rest : list string) :
  chart_type ctl = candlestick_chart ->
  selected_companies ctl = company :: rest ->
  exists before after,
    Forall (fun e => quiet e = true) before
    /\ Forall (fun e => quiet e = true) after
    /\ (trace (main history snapshot Set1 ctl) = before
        \/ exists data,
             answer history ctl company = Some (Responds data)
             /\ trace (main history snapshot Set1 ctl)
                = before
                  ++ match rest with
                     | [] => []
                     | _ :: _ => [Info candlestick_notice]
                     end
                  ++ PlotlyChart (candlestick_figure ctl company data)
                     :: after).
Proof.
  intros Hchart Hsel. unfold main, getitem. rewrite !bind_emit. cbn [trace].
  destruct (dict_get COMPANY_GROUPS (company_group ctl))
    as [companies_dict |] eqn:Hgroup.
  2:{ eexists _, []. split; [| split; [constructor | left; reflexivity]].
      repeat constructor. }
  rewrite bind_lift_Return, Hsel, trace_bind. rewrite <- Hsel.
  match goal with
  | |- context [result ?m] => remember m as loading eqn:Hloading
  end.
  assert (Hload : Forall (fun e => quiet e = true) (trace loading)).
  { subst loading. apply for_each_trace. intros s a. apply load_quiet. }
  assert (Hanswer : forall s', result loading = Return s' ->
            forall c d, dict_get s'.1 c = Some d ->
                        answer history ctl c = Some (Responds d)).
  { subst loading. intros s'.
    apply (for_each_invariant
             (fun s : loaded => forall c d, dict_get s.1 c = Some d ->
                answer history ctl c = Some (Responds d))).
    - intros s a s1. now apply load_answer.
    - discriminate. }
  clear Hloading.
  match goal with
  | |- context [match ?r with Return _ => _ | Raise _ => _ end] =>
      destruct r as [[stock_data company_info] |] eqn:Hresult
  end.
  2:{ eexists _, []. split; [| split; [constructor | left; reflexivity]].
      repeat (constructor; [reflexivity |]).
      apply Forall_app. split; [exact Hload | constructor]. }
  specialize (Hanswer (stock_data, company_info) Hresult).
  cbn [fst]. destruct stock_data as [| entry stock_data'] eqn:Hstock.
  { eexists _, []. split; [| split; [constructor | left; reflexivity]].
    repeat (constructor; [reflexivity |]).
    apply Forall_app. split; [exact Hload | repeat constructor]. }
  rewrite <- Hstock in *.
  destruct (render_candlestick ctl stock_data company_info company rest
              Hchart Hsel ltac:(congruence))
    as (before & after & Hbefore & Hafter & [Ht | (data & Hdata & Ht)]).
  - rewrite <- Ht in Hbefore.
    eexists _, []. split; [| split; [constructor | left; reflexivity]].
    repeat (constructor; [reflexivity |]).
    apply Forall_app. split; [exact Hload | exact Hbefore].
  - exists (Title "📈 글로벌 주요 기업 주가 분석"
            :: Markdown
      "시총 상위 기업과 차세대 AI 기업들의 최근 주가 흐름을 비교해보세요."
            :: trace loading ++ before), after.
    split; [| split; [exact Hafter | right; exists data; split]].
    + repeat (constructor; [reflexivity |]). apply Forall_app. now split.
    + apply Hanswer. exact Hdata.
    + cbn [app]. rewrite <- app_assoc. do 3 f_equal. exact Ht.
Qed.

End Candlestick.

(** *** Integers as floats *)

Lemma digits2_pos_bounds (p : positive) :
  2 ^ (Zpos (digits2_pos p) - 1) <= Zpos p < 2 ^ Zpos (digits2_pos p).
Proof.
  induction p as [p IH | p IH |]; cbn [digits2_pos].
  - rewrite Pos2Z.inj_succ.
    replace (Z.succ (Zpos (digits2_pos p)) - 1)
      with (Z.succ (Zpos (digits2_pos p) - 1)) by lia.
    rewrite !Z.pow_succ_r by lia. lia.
  - rewrite Pos2Z.inj_succ.
    replace (Z.succ (Zpos (digits2_pos p)) - 1)
      with (Z.succ (Zpos (digits2_pos p) - 1)) by lia.
    rewrite !Z.pow_succ_r by lia. lia.
  - cbn. lia.
Qed.

Lemma digits2_pos_iter_xO (p k : positive) :
  digits2_pos (Pos.iter xO p k) = (digits2_pos p + k)%positive.
Proof.
  induction k as [| k IH] using Pos.peano_ind.
  - cbn. lia.
  - rewrite Pos.iter_succ. cbn [digits2_pos]. rewrite IH. lia.
Qed.

Lemma Zpos_iter_xO (p k : positive) :
  Zpos (Pos.iter xO p k) = Zpos p * 2 ^ Zpos k.
Proof.
  induction k as [| k IH] using Pos.peano_ind.
  - cbn. lia.
  - rewrite Pos.iter_succ, Pos2Z.inj_succ, Z.pow_succ_r by lia.
    rewrite Pos2Z.inj_xO, IH. lia.
Qed.

(** An integer below [2^53] in magnitude is a float: the conversion is
    exact, to a mantissa of 53 bits. *)
Lemma binary_round_exact (s : bool) (p : positive) :
  Zpos p < 2 ^ 53 ->
  exists (m : positive) (e : Z),
    binary_round prec emax s p 0 = S754_finite s m e
    /\ e <= 0
    /\ Zpos m = Zpos p * 2 ^ (- e)
    /\ Zpos (digits2_pos m) = 53.
Proof.
  intros Hp.
  pose proof (digits2_pos_bounds p) as [Hlow _].
  assert (Hd : Zpos (digits2_pos p) <= 53).
  { destruct (Z_le_gt_dec (Zpos (digits2_pos p)) 53) as [| Hgt]; [easy |].
    exfalso. 
    assert (2 ^ 53 <= 2 ^ (Zpos (digits2_pos p) - 1))
      by (apply Z.pow_le_mono_r; lia).
    lia. }
  unfold binary_round, shl_align, fexp, emin, prec, emax.
  rewrite Z.add_0_r.
  replace (Z.max (Zpos (digits2_pos p) - 53) (3 - 1024 - 53))
    with (Zpos (digits2_pos p) - 53) by lia.
  rewrite Z.sub_0_r.
  destruct (Zpos (digits2_pos p) - 53) as [| k | k] eqn:Hshift; [| lia |].
  - exists p, 0. split; [| split; [lia | split; [cbn; lia | lia]]].
    unfold binary_round_aux, shr_fexp, fexp, emin. cbn [Zdigits2].
    rewrite Z.add_0_r, Hshift.
    replace (Z.max 0 (3 - 1024 - 53)) with 0 by lia.
    rewrite Z.sub_diag. cbn [shr shr_record_of_loc shr_m loc_of_shr_record
                             round_nearest_even Zdigits2].
    rewrite Z.add_0_r, Hshift.
    replace (Z.max 0 (3 - 1024 - 53)) with 0 by lia.
    rewrite Z.sub_diag. cbn [shr shr_m].
    reflexivity.
  - exists (Pos.iter xO p k), (Zneg k).
    split; [| split; [lia | split; [now rewrite Zpos_iter_xO |]]].
    2:{ rewrite digits2_pos_iter_xO. lia. }
    unfold binary_round_aux, shr_fexp, fexp, emin. cbn [Zdigits2].
    rewrite digits2_pos_iter_xO.
    replace (Zpos (digits2_pos p + k) + Zneg k) with (Zpos (digits2_pos p))
      by lia.
    rewrite Hshift.
    replace (Z.max (Zneg k) (3 - 1024 - 53)) with (Zneg k) by lia.
    rewrite Z.sub_diag. cbn [shr shr_record_of_loc shr_m loc_of_shr_record
                             round_nearest_even Zdigits2].
    rewrite digits2_pos_iter_xO.
    replace (Zpos (digits2_pos p + k) + Zneg k) with (Zpos (digits2_pos p))
      by lia.
    rewrite Hshift.
    replace (Z.max (Zneg k) (3 - 1024 - 53)) with (Zneg k) by lia.
    rewrite Z.sub_diag. cbn [shr shr_m].
    replace (Zneg k <=? 1024 - 53) with true by (symmetry; apply Z.leb_le; lia).
    reflexivity.
Qed.

(** An integer below [2^53] in magnitude is printed digit for digit. *)
Lemma scaled_exact (m : positive) (e n : Z) :
  e <= 0 -> Zpos m = n * 2 ^ (- e) -> scaled 0 m e = n.
Proof.
  intros He Hm. unfold scaled. rewrite Hm. cbn [Z.of_nat]. rewrite Z.pow_0_r.
  rewrite Z.mul_1_r.
  destruct (Z.leb_spec 0 e) as [Hle | Hlt].
  - replace e with 0 by lia. cbn. lia.
  - unfold round_half_even.
    assert (Hpow : 0 < 2 ^ (- e)) by (apply Z.pow_pos_nonneg; lia).
    rewrite Z.div_mul, Z.mod_mul by lia.
    assert (Hhalf : (2 * 0 ?= 2 ^ (- e)) = Lt)
      by (apply Z.compare_lt_iff; lia).
    now rewrite Hhalf.
Qed.

Lemma format_int_exact (spec : format_spec) (n : Z) :
  precision spec = O ->
  Z.abs n < 2 ^ 53 ->
  format (PyInt n) spec
  = Return (sign (n <? 0) +:+ fixed_digits spec (Z.abs n)).
Proof.
  intros Hspec Hn. unfold format, float_of_int, float_of_Z, binary_normalize.
  destruct n as [| p | p].
  - reflexivity.
  - destruct (binary_round_exact false p Hn) as (m & e & -> & He & Hm & _).
    cbn [mbind outcome_bind format_float]. rewrite Hspec.
    now rewrite (scaled_exact m e (Zpos p) He Hm).
  - destruct (binary_round_exact true p Hn) as (m & e & -> & He & Hm & _).
    cbn [mbind outcome_bind format_float]. rewrite Hspec.
    now rewrite (scaled_exact m e (Zpos p) He Hm).
Qed.

(** *** The market-cap text *)

Lemma int_ge_float_1e12 (n : Z) : int_ge_float n f1e12 = (10 ^ 12 <=? n).
Proof.
  change f1e12 with (S754_finite false 8192000000000000 (-13)).
  unfold int_ge_float. change (0 <=? -13) with false.
  change (2 ^ (- -13)) with 8192. cbn match.
  destruct (Z.leb_spec 8192000000000000 (n * 8192));
    destruct (Z.leb_spec (10 ^ 12) n); lia.
Qed.

Lemma int_ge_float_1e9 (n : Z) : int_ge_float n f1e9 = (10 ^ 9 <=? n).
Proof.
  change f1e9 with (S754_finite false 8388608000000000 (-23)).
  unfold int_ge_float. change (0 <=? -23) with false.
  change (2 ^ (- -23)) with 8388608. cbn match.
  destruct (Z.leb_spec 8388608000000000 (n * 8388608));
    destruct (Z.leb_spec (10 ^ 9) n); lia.
Qed.

Lemma int_ge_float_1e6 (n : Z) : int_ge_float n f1e6 = (10 ^ 6 <=? n).
Proof.
  change f1e6 with (S754_finite false 8589934592000000 (-33)).
  unfold int_ge_float. change (0 <=? -33) with false.
  change (2 ^ (- -33)) with 8589934592. cbn match.
  destruct (Z.leb_spec 8589934592000000 (n * 8589934592));
    destruct (Z.leb_spec (10 ^ 6) n); lia.
Qed.

(** On a number that is or converts to the float [x], [format_market_cap]
    returns the text for [x] in the largest unit that the number reaches. *)
Lemma format_market_cap_numeric (v : pyval) (x : float) :
  as_float v = Return x ->
  format_market_cap v = Return (rendered (largest_unit v) x).
Proof.
  destruct v as [| n | y | |]; try discriminate; cbn [as_float]; intros Hx.
  - unfold format_market_cap, largest_unit, at_least, ge_float, truediv_float,
      format.
    rewrite int_ge_float_1e12, int_ge_float_1e9, int_ge_float_1e6, Hx.
    cbn [mbind outcome_bind].
    destruct (10 ^ 12 <=? n); [reflexivity |].
    destruct (10 ^ 9 <=? n); [reflexivity |].
    destruct (10 ^ 6 <=? n); reflexivity.
  - injection Hx as ->.
    unfold format_market_cap, largest_unit, at_least, ge_float, truediv_float,
      format.
    cbn [mbind outcome_bind]. fold f1e12 f1e9 f1e6.
    destruct (fle f1e12 x); [reflexivity |].
    destruct (fle f1e9 x); [reflexivity |].
    destruct (fle f1e6 x); reflexivity.
Qed.

(** *** The characters of a formatted float *)

Lemma list_ascii_of_string_app (s1 s2 : string) :
  list_ascii_of_string (s1 +:+ s2)
  = list_ascii_of_string s1 ++ list_ascii_of_string s2.
Proof.
  induction s1 as [| c s1 IH]; [reflexivity |].
  change (list_ascii_of_string (String c (s1 +:+ s2))
          = (c :: list_ascii_of_string s1) ++ list_ascii_of_string s2).
  cbn [list_ascii_of_string]. now rewrite IH.
Qed.

Lemma unit_free_Forall (s : string) :
  unit_free s = true
  <-> Forall (fun c => unit_letter c = false) (list_ascii_of_string s).
Proof.
  unfold unit_free. rewrite List.forallb_forall, List.Forall_forall.
  split; intros H c Hc; specialize (H c Hc); now destruct (unit_letter c).
Qed.

Lemma unit_free_app (s1 s2 : string) :
  unit_free s1 = true -> unit_free s2 = true -> unit_free (s1 +:+ s2) = true.
Proof.
  intros H1 H2. apply unit_free_Forall in H1, H2. apply unit_free_Forall.
  rewrite list_ascii_of_string_app. apply Forall_app. now split.
Qed.

Lemma uint_digits_plain (u : Decimal.uint) :
  Forall (fun c => unit_letter c = false)
    (list_ascii_of_string (NilEmpty.string_of_uint u)).
Proof. induction u; cbn; constructor; auto. Qed.

Lemma digits_plain (n : Z) : Forall (fun c => unit_letter c = false) (digits n).
Proof.
  unfold digits, NilZero.string_of_uint.
  destruct (N.to_uint (Z.to_N n)) eqn:Hn; try (rewrite <- Hn);
    try apply uint_digits_plain.
  repeat constructor.
Qed.

Lemma group3_plain (l : list ascii) :
  Forall (fun c => unit_letter c = false) l ->
  Forall (fun c => unit_letter c = false) (group3 l).
Proof.
  remember (length l) as n eqn:Hn. revert l Hn.
  induction n as [n IH] using lt_wf_ind. intros l Hn Hl.
  destruct l as [| a [| b [| c [| d rest]]]]; try exact Hl.
  change (group3 (a :: b :: c :: d :: rest))
    with (a :: b :: c :: ","%char :: group3 (d :: rest)).
  inversion Hl as [| ? ? Ha Hl1]; subst.
  inversion Hl1 as [| ? ? Hb Hl2]; subst.
  inversion Hl2 as [| ? ? Hc Hl3]; subst.
  repeat (constructor; [assumption || reflexivity |]).
  apply (IH (length (d :: rest))); [cbn; lia | reflexivity | exact Hl3].
Qed.

Lemma fixed_digits_unit_free (spec : format_spec) (n : Z) :
  unit_free (fixed_digits spec n) = true.
Proof.
  apply unit_free_Forall. unfold fixed_digits.
  rewrite list_ascii_of_string_of_list_ascii.
  assert (Hds : Forall (fun c => unit_letter c = false)
                  (repeat "0"%char (S (precision spec) - length (digits n))
                   ++ digits n)).
  { apply Forall_app. split; [| apply digits_plain].
    apply List.Forall_forall. intros c Hc.
    apply repeat_spec in Hc. now subst. }
  apply Forall_app. split.
  - destruct (grouping spec).
    + apply Forall_rev, group3_plain, Forall_rev, Forall_take, Hds.
    + apply Forall_take, Hds.
  - destruct (precision spec); constructor; [reflexivity |].
    apply Forall_drop, Hds.
Qed.

Lemma format_float_unit_free (spec : format_spec) (x : float) :
  unit_free (format_float spec x) = true.
Proof.
  destruct x as [s | s | | s m e]; cbn [format_float].
  - apply unit_free_app; [now destruct s | apply fixed_digits_unit_free].
  - now destruct s.
  - reflexivity.
  - apply unit_free_app; [now destruct s | apply fixed_digits_unit_free].
Qed.

(** *** The range of the ints that convert to a float *)

Section ShiftRight.

(** The integer that is shifted. *)
Variable n : Z.

Lemma shr_1_nonneg (m : Z) (r s : bool) :
  0 <= m ->
  shr_1 (Build_shr_record m r s)
  = Build_shr_record (Z.div2 m) (Z.odd m) (r || s).
Proof. destruct m as [| [p | p |] | p]; cbn; intros; try lia; reflexivity. Qed.

Lemma shifted_step (j : Z) (st : shr_record) :
  0 <= n -> shifted n j st -> shifted n (j + 1) (shr_1 st).
Proof.
  intros Hn [[-> ->] | (Hj & Hm & low & Hlow & Heq & Hs)]; right.
  - rewrite shr_1_nonneg by exact Hn. cbn [shr_m shr_r shr_s orb].
    split; [lia |]. split; [rewrite Z.div2_div; apply Z.div_pos; lia |].
    exists 0. change (2 ^ (0 + 1 - 1)) with 1. change (2 ^ (0 + 1)) with 2.
    split; [lia |]. split; [| tauto].
    rewrite (Z.div2_odd n) at 1. destruct (Z.odd n); cbn [Z.b2z]; lia.
  - destruct st as [m r s]. cbn [shr_m shr_r shr_s] in *.
    rewrite shr_1_nonneg by exact Hm. cbn [shr_m shr_r shr_s].
    split; [lia |]. split; [rewrite Z.div2_div; apply Z.div_pos; lia |].
    replace (j + 1 - 1) with j by lia.
    assert (Hpow : 2 ^ j = 2 * 2 ^ (j - 1)).
    { replace j with (Z.succ (j - 1)) at 1 by lia.
      apply Z.pow_succ_r. lia. }
    assert (Hpow' : 2 ^ (j + 1) = 2 * 2 ^ j) by (apply Z.pow_succ_r; lia).
    exists ((if r then 2 ^ (j - 1) else 0) + low).
    split; [destruct r; lia |]. split.
    + rewrite Hpow'. rewrite (Z.div2_odd m) in Heq at 1.
      destruct (Z.odd m); cbn [Z.b2z] in Heq; lia.
    + destruct r; cbn [orb]; [split; [discriminate | lia] |].
      rewrite Hs. lia.
Qed.

Lemma shifted_iter (p : positive) :
  0 <= n ->
  forall (j : Z) (st : shr_record),
    0 <= j ->
    shifted n j st -> shifted n (j + Zpos p) (SpecFloat.iter_pos shr_1 p st).
Proof.
  intros Hn. induction p as [p IH | p IH |]; intros j st Hj Hst;
    cbn [SpecFloat.iter_pos].
  - replace (j + Zpos p~1) with (j + 1 + Zpos p + Zpos p) by lia.
    apply IH; [lia |]. apply IH; [lia |]. now apply shifted_step.
  - replace (j + Zpos p~0) with (j + Zpos p + Zpos p) by lia.
    apply IH; [lia |]. now apply IH.
  - now apply shifted_step.
Qed.

End ShiftRight.

Lemma digits2_pos_unique (q : positive) (d : Z) :
  2 ^ (d - 1) <= Zpos q < 2 ^ d -> 0 < d -> Zpos (digits2_pos q) = d.
Proof.
  intros [Hlow Hhigh] Hd.
  pose proof (digits2_pos_bounds q) as [Hlow' Hhigh'].
  destruct (Z.lt_trichotomy (Zpos (digits2_pos q)) d) as [Hlt | [Heq | Hgt]];
    [exfalso | exact Heq | exfalso].
  - assert (2 ^ Zpos (digits2_pos q) <= 2 ^ (d - 1))
      by (apply Z.pow_le_mono_r; lia).
    lia.
  - assert (2 ^ d <= 2 ^ (Zpos (digits2_pos q) - 1))
      by (apply Z.pow_le_mono_r; lia).
    lia.
Qed.

Lemma round_nearest_even_bounds (m : Z) (l : location) :
  m <= round_nearest_even m l <= m + 1.
Proof.
  unfold round_nearest_even.
  destruct l as [| []]; try destruct (Z.even m); lia.
Qed.

(** The second normalisation, on a mantissa of 53 bits or on [2^53]. *)
Lemma renormalize (s : bool) (mant k : Z) :
  2 ^ 52 <= mant <= 2 ^ 53 ->
  0 <= k ->
  (let '(mrs, e) := shr_fexp prec emax mant k loc_Exact in
   match shr_m mrs with
   | 0 => S754_zero s
   | Zpos m => if e <=? emax - prec then S754_finite s m e
               else S754_infinity s
   | Zneg _ => S754_nan
   end)
  = if mant <? 2 ^ 53
    then if k <=? 971 then S754_finite s (Z.to_pos mant) k
         else S754_infinity s
    else if k + 1 <=? 971 then S754_finite s (Z.to_pos (2 ^ 52)) (k + 1)
         else S754_infinity s.
Proof.
  intros Hmant Hk. unfold shr_fexp, fexp, emin, prec, emax.
  destruct (Z.ltb_spec mant (2 ^ 53)) as [Hlt | Hge].
  - destruct mant as [| q | q]; try lia. cbn [Zdigits2].
    rewrite (digits2_pos_unique q 53) by (change (53 - 1) with 52; lia).
    replace (Z.max (53 + k - 53) (3 - 1024 - 53)) with k by lia.
    rewrite Z.sub_diag. cbn [shr shr_record_of_loc shr_m].
    change (1024 - 53) with 971. reflexivity.
  - replace mant with (2 ^ 53) by lia.
    change (Zdigits2 (2 ^ 53)) with 54.
    replace (Z.max (54 + k - 53) (3 - 1024 - 53)) with (k + 1) by lia.
    replace (k + 1 - k) with 1 by lia.
    change (1024 - 53) with 971. reflexivity.
Qed.

(** The conversion of an integer of more than 53 bits: the mantissa is
    shifted to 53 bits, rounded, and normalised again. *)
Lemma binary_round_large (s : bool) (p : positive) :
  2 ^ 53 <= Zpos p ->
  exists st : shr_record,
    let k := Zpos (digits2_pos p) - 53 in
    let mant := round_nearest_even (shr_m st) (loc_of_shr_record st) in
    1 <= k
    /\ shifted (Zpos p) k st
    /\ 2 ^ 52 <= shr_m st < 2 ^ 53
    /\ binary_round prec emax s p 0
       = if mant <? 2 ^ 53
         then if k <=? 971 then S754_finite s (Z.to_pos mant) k
              else S754_infinity s
         else if k + 1 <=? 971
              then S754_finite s (Z.to_pos (2 ^ 52)) (k + 1)
              else S754_infinity s.
Proof.
  intros Hp.
  pose proof (digits2_pos_bounds p) as [Hlow Hhigh].
  assert (Hd : 54 <= Zpos (digits2_pos p)).
  { destruct (Z_le_gt_dec 54 (Zpos (digits2_pos p))) as [| Hgt]; [easy |].
    exfalso.
    assert (2 ^ Zpos (digits2_pos p) <= 2 ^ 53)
      by (apply Z.pow_le_mono_r; lia).
    lia. }
  destruct (Zpos (digits2_pos p) - 53) as [| kp | kp] eqn:Hk; try lia.
  exists (SpecFloat.iter_pos shr_1 kp (Build_shr_record (Zpos p) false false)).
  cbn zeta.
  pose proof (shifted_iter (Zpos p) kp ltac:(lia) 0
                (Build_shr_record (Zpos p) false false) ltac:(lia)
                (or_introl (conj eq_refl eq_refl))) as Hshift.
  rewrite Z.add_0_l in Hshift.
  set (st := SpecFloat.iter_pos shr_1 kp
               (Build_shr_record (Zpos p) false false)) in *.
  assert (Hm : 2 ^ 52 <= shr_m st < 2 ^ 53).
  { destruct Hshift as [[? _] | (_ & Hm0 & low & Hlow' & Heq & _)]; [lia |].
    assert (Hpow : 2 ^ Zpos kp = 2 * 2 ^ (Zpos kp - 1)).
    { replace (Zpos kp) with (Z.succ (Zpos kp - 1)) at 1 by lia.
      apply Z.pow_succ_r. lia. }
    assert (Hd1 : 2 ^ (Zpos (digits2_pos p) - 1) = 2 ^ 52 * 2 ^ Zpos kp).
    { replace (Zpos (digits2_pos p) - 1) with (52 + Zpos kp) by lia.
      apply Z.pow_add_r; lia. }
    assert (Hd2 : 2 ^ Zpos (digits2_pos p) = 2 ^ 53 * 2 ^ Zpos kp).
    { replace (Zpos (digits2_pos p)) with (53 + Zpos kp) by lia.
      apply Z.pow_add_r; lia. }
    assert (0 < 2 ^ (Zpos kp - 1)) by (apply Z.pow_pos_nonneg; lia).
    destruct (shr_r st); nia. }
  split; [lia |]. split; [exact Hshift |]. split; [exact Hm |].
  unfold binary_round, shl_align, fexp, emin, prec, emax.
  rewrite Z.add_0_r.
  replace (Z.max (Zpos (digits2_pos p) - 53) (3 - 1024 - 53))
    with (Zpos (digits2_pos p) - 53) by lia.
  rewrite Z.sub_0_r, Hk.
  unfold binary_round_aux.
  replace (shr_fexp 53 1024 (Zpos p) 0 loc_Exact) with (st, Zpos kp).
  2:{ unfold shr_fexp, fexp, emin. cbn [Zdigits2]. rewrite Z.add_0_r.
      replace (Z.max (Zpos (digits2_pos p) - 53) (3 - 1024 - 53))
        with (Zpos (digits2_pos p) - 53) by lia.
      rewrite Z.sub_0_r, Hk. reflexivity. }
  apply (renormalize s); [| lia].
  pose proof (round_nearest_even_bounds (shr_m st) (loc_of_shr_record st)).
  lia.
Qed.

Lemma binary_round_finite (s : bool) (p : positive) :
  Zpos p < 2 ^ 1024 - 2 ^ 970 ->
  exists (m : positive) (e : Z), binary_round prec emax s p 0 = S754_finite s m e.
Proof.
  intros Hp.
  destruct (Z_lt_le_dec (Zpos p) (2 ^ 53)) as [Hsmall | Hlarge].
  { destruct (binary_round_exact s p Hsmall) as (m & e & Hm & _). eauto. }
  destruct (binary_round_large s p Hlarge)
    as (st & Hk & Hshift & Hm & ->).
  pose proof (digits2_pos_bounds p) as [Hlow _].
  assert (Hd : Zpos (digits2_pos p) - 53 <= 971).
  { destruct (Z_le_gt_dec (Zpos (digits2_pos p) - 53) 971) as [| Hgt];
      [easy |].
    exfalso.
    assert (2 ^ 1024 <= 2 ^ (Zpos (digits2_pos p) - 1))
      by (apply Z.pow_le_mono_r; lia).
    lia. }
  pose proof (round_nearest_even_bounds (shr_m st) (loc_of_shr_record st))
    as Hround.
  destruct (Z.ltb_spec (round_nearest_even (shr_m st) (loc_of_shr_record st))
              (2 ^ 53)) as [Hlt | Hge].
  { replace (Zpos (digits2_pos p) - 53 <=? 971) with true
      by (symmetry; apply Z.leb_le; lia).
    eauto. }
  destruct (Z.leb_spec (Zpos (digits2_pos p) - 53 + 1) 971) as [| Hlast];
    [eauto |].
  exfalso.
  assert (Hk971 : Zpos (digits2_pos p) - 53 = 971) by lia.
  rewrite Hk971 in Hshift.
  destruct Hshift as [[? _] | (_ & _ & low & Hlow' & Heq & _)]; [lia |].
  change (971 - 1) with 970 in *.
  assert (Hpow : 2 ^ 971 = 2 * 2 ^ 970) by reflexivity.
  assert (Htop : 2 ^ 1024 = 2 ^ 53 * 2 ^ 971) by reflexivity.
  assert (Hm1 : shr_m st = 2 ^ 53 - 1) by lia.
  destruct st as [m1 r sticky]. cbn [shr_m shr_r] in *. subst m1.
  destruct r; [lia |].
  unfold loc_of_shr_record, round_nearest_even in Hge.
  destruct sticky; lia.
Qed.

Lemma binary_round_overflow (s : bool) (p : positive) :
  2 ^ 1024 - 2 ^ 970 <= Zpos p ->
  binary_round prec emax s p 0 = S754_infinity s.
Proof.
  intros Hp.
  assert (Hlarge : 2 ^ 53 <= Zpos p).
  { assert (2 ^ 53 <= 2 ^ 1024 - 2 ^ 970) by (vm_compute; discriminate).
    lia. }
  destruct (binary_round_large s p Hlarge)
    as (st & Hk & Hshift & Hm & ->).
  pose proof (digits2_pos_bounds p) as [_ Hhigh].
  assert (Hd : 971 <= Zpos (digits2_pos p) - 53).
  { destruct (Z_le_gt_dec 971 (Zpos (digits2_pos p) - 53)) as [| Hgt];
      [easy |].
    exfalso.
    assert (2 ^ Zpos (digits2_pos p) <= 2 ^ 1023)
      by (apply Z.pow_le_mono_r; lia).
    assert (2 ^ 1023 <= 2 ^ 1024 - 2 ^ 970) by (vm_compute; discriminate).
    lia. }
  replace (Zpos (digits2_pos p) - 53 + 1 <=? 971) with false
    by (symmetry; apply Z.leb_gt; lia).
  destruct (Z.leb_spec (Zpos (digits2_pos p) - 53) 971) as [Hle | Hgt];
    [| now destruct (_ <? _)].
  assert (Hk971 : Zpos (digits2_pos p) - 53 = 971) by lia.
  rewrite Hk971 in Hshift.
  destruct Hshift as [[? _] | (_ & _ & low & Hlow' & Heq & _)]; [lia |].
  change (971 - 1) with 970 in *.
  assert (Hpow : 2 ^ 971 = 2 * 2 ^ 970) by reflexivity.
  assert (Htop : 2 ^ 1024 = 2 ^ 53 * 2 ^ 971) by reflexivity.
  destruct st as [m1 r sticky]. cbn [shr_m shr_r] in *.
  assert (Hm1 : m1 = 2 ^ 53 - 1) by (destruct r; lia).
  subst m1. destruct r; [| lia].
  replace (round_nearest_even (2 ^ 53 - 1)
             (loc_of_shr_record (Build_shr_record (2 ^ 53 - 1) true sticky))
           <? 2 ^ 53) with false; [reflexivity |].
  now destruct sticky.
Qed.

(** The ints that convert to a float are those below [2^1024 - 2^970] in
    magnitude. *)
Lemma float_of_int_range (n : Z) :
  (Z.abs n < 2 ^ 1024 - 2 ^ 970 -> exists x, float_of_int n = Return x)
  /\ (2 ^ 1024 - 2 ^ 970 <= Z.abs n -> float_of_int n = Raise OverflowError).
Proof.
  unfold float_of_int, float_of_Z, binary_normalize.
  destruct n as [| p | p]; cbn [Z.abs]; split; intros Hn.
  - eauto.
  - exfalso. revert Hn. vm_compute. auto.
  - destruct (binary_round_finite false p Hn) as (m & e & ->). eauto.
  - now rewrite (binary_round_overflow false p Hn).
  - destruct (binary_round_finite true p Hn) as (m & e & ->). eauto.
  - now rewrite (binary_round_overflow true p Hn).
Qed.


(** *** The market-cap text, by range *)

Lemma as_float_converts (v : pyval) :
  converts v = true -> exists x, as_float v = Return x.
Proof.
  destruct v as [| n | x | |]; try discriminate; cbn [converts as_float].
  - intros Hn%Z.ltb_lt. now apply float_of_int_range.
  - eauto.
Qed.

Lemma negative_largest_unit (v : pyval) :
  is_negative v = true -> largest_unit v = Units.
Proof.
  destruct v as [| n | x | |]; try discriminate; cbn [is_negative].
  - intros Hn%Z.ltb_lt. unfold largest_unit, at_least.
    repeat match goal with
           | |- context [?k <=? n] => destruct (Z.leb_spec k n); [lia |]
           end.
    reflexivity.
  - destruct x as [s | s | | s m e]; try discriminate;
      destruct s; try discriminate; intros _; vm_compute; reflexivity.
Qed.

(** C2, as amended: on a float that is not negative, and on an int from 0
    to below [2^1024 - 2^970], [format_market_cap] returns the text in the
    largest unit that the number reaches: from [10^12] on, the quotient by
    [1e12] with two decimals and the suffix T; from [10^9] on, the quotient
    by [1e9] and B; from [10^6] on, the quotient by [1e6] and M; below, the
    integer with thousands separators; on an int from [2^1024 - 2^970] on it
    raises [OverflowError]; an int below [10^6] is printed digit for digit;
    999,999,999 gives $1000.00M, [10^12] gives $1.00T, 2,500,000,000 gives
    $2.50B and 500 gives $500.  The text is a function of the number
    alone. *)
Theorem format_market_cap_largest_unit :
  (forall v : pyval,
      is_nonnegative v = true ->
      converts v = true ->
      exists x : float,
        as_float v = Return x
        /\ format_market_cap v = Return (rendered (largest_unit v) x))
  /\ (forall n : Z,
        2 ^ 1024 - 2 ^ 970 <= n ->
        format_market_cap (PyInt n) = Raise OverflowError)
  /\ (forall n : Z,
        0 <= n < 10 ^ 6 ->
        format_market_cap (PyInt n)
        = Return ("$" +:+ fixed_digits grouped0 n))
  /\ format_market_cap (PyInt 999999999) = Return "$1000.00M"
  /\ format_market_cap (PyInt (10 ^ 12)) = Return "$1.00T"
  /\ format_market_cap (PyInt 2500000000) = Return "$2.50B"
  /\ format_market_cap (PyInt 500) = Return "$500".
Proof.
  split; [| split; [| split]].
  - intros v _ Hv. destruct (as_float_converts v Hv) as [x Hx].
    exists x. split; [exact Hx |]. now apply format_market_cap_numeric.
  - intros n Hn.
    assert (Hbig : 10 ^ 12 <= 2 ^ 1024 - 2 ^ 970) by (vm_compute; discriminate).
    unfold format_market_cap, ge_float, truediv_float.
    rewrite int_ge_float_1e12.
    replace (10 ^ 12 <=? n) with true by (symmetry; apply Z.leb_le; lia).
    cbn [mbind outcome_bind].
    now rewrite (proj2 (float_of_int_range n)) by lia.
  - intros n Hn. unfold format_market_cap, ge_float.
    rewrite int_ge_float_1e12, int_ge_float_1e9, int_ge_float_1e6.
    cbn [mbind outcome_bind].
    repeat match goal with
           | |- context [?k <=? n] => destruct (Z.leb_spec k n); [lia |]
           end.
    rewrite (format_int_exact grouped0 n) by (cbn; lia).
    replace (n <? 0) with false by (symmetry; apply Z.ltb_ge; lia).
    now rewrite Z.abs_eq by lia.
  - repeat split; vm_compute; reflexivity.
Qed.

Lemma format_market_cap_largest_unit_witness :
  (exists x : float,
      as_float (PyInt 2500000000) = Return x
      /\ format_market_cap (PyInt 2500000000)
         = Return (rendered (largest_unit (PyInt 2500000000)) x))
  /\ format_market_cap (PyInt (2 ^ 1024)) = Raise OverflowError
  /\ format_market_cap (PyInt 999999)
     = Return ("$" +:+ fixed_digits grouped0 999999).
Proof.
  split; [| split].
  - apply (proj1 format_market_cap_largest_unit (PyInt 2500000000));
      reflexivity.
  - apply (proj1 (proj2 format_market_cap_largest_unit) (2 ^ 1024)).
    vm_compute. discriminate.
  - apply (proj1 (proj2 (proj2 format_market_cap_largest_unit)) 999999). lia.
Defined.

(** C2, as stated, fails: the int [2^1024] is not negative, and on it
    [format_market_cap] raises [OverflowError] instead of returning a
    text. *)
Lemma format_market_cap_overflows :
  is_nonnegative (PyInt (2 ^ 1024)) = true
  /\ format_market_cap (PyInt (2 ^ 1024)) = Raise OverflowError.
Proof. split; vm_compute; reflexivity. Qed.

(** C9, as amended: on a negative float, and on a negative int above
    [-(2^1024 - 2^970)], none of the three units applies and
    [format_market_cap] returns the dollar sign and the number rounded to an
    integer with thousands separators, a text without T, B or M; on an int
    from [-(2^1024 - 2^970)] down it raises [OverflowError]; a negative int
    above [-2^53] is printed digit for digit; -2,500,000,000 gives
    $-2,500,000,000. *)
Theorem negative_market_cap_is_grouped :
  (forall v : pyval,
      is_negative v = true ->
      converts v = true ->
      exists x : float,
        as_float v = Return x
        /\ largest_unit v = Units
        /\ format_market_cap v = Return ("$" +:+ format_float grouped0 x)
        /\ unit_free ("$" +:+ format_float grouped0 x) = true)
  /\ (forall n : Z,
        n <= - (2 ^ 1024 - 2 ^ 970) ->
        format_market_cap (PyInt n) = Raise OverflowError)
  /\ (forall n : Z,
        - 2 ^ 53 < n < 0 ->
        format_market_cap (PyInt n)
        = Return ("$-" +:+ fixed_digits grouped0 (- n)))
  /\ format_market_cap (PyInt (-2500000000)) = Return "$-2,500,000,000".
Proof.
  split; [| split; [| split]].
  - intros v Hneg Hv. destruct (as_float_converts v Hv) as [x Hx].
    pose proof (negative_largest_unit v Hneg) as Hunit.
    exists x. split; [exact Hx |]. split; [exact Hunit |]. split.
    + rewrite (format_market_cap_numeric v x Hx), Hunit. reflexivity.
    + apply (unit_free_app "$"); [reflexivity | apply format_float_unit_free].
  - intros n Hn.
    assert (Hbig : 0 < 2 ^ 1024 - 2 ^ 970) by (vm_compute; reflexivity).
    unfold format_market_cap, ge_float, format.
    rewrite int_ge_float_1e12, int_ge_float_1e9, int_ge_float_1e6.
    cbn [mbind outcome_bind].
    repeat match goal with
           | |- context [?k <=? n] => destruct (Z.leb_spec k n); [lia |]
           end.
    now rewrite (proj2 (float_of_int_range n)) by lia.
  - intros n Hn. unfold format_market_cap, ge_float.
    rewrite int_ge_float_1e12, int_ge_float_1e9, int_ge_float_1e6.
    cbn [mbind outcome_bind].
    repeat match goal with
           | |- context [?k <=? n] => destruct (Z.leb_spec k n); [lia |]
           end.
    rewrite (format_int_exact grouped0 n) by (cbn; lia).
    replace (n <? 0) with true by (symmetry; apply Z.ltb_lt; lia).
    now rewrite Z.abs_neq by lia.
  - vm_compute. reflexivity.
Qed.

Lemma negative_market_cap_is_grouped_witness :
  (exists x : float,
      as_float (PyInt (-2500000000)) = Return x
      /\ largest_unit (PyInt (-2500000000)) = Units
      /\ format_market_cap (PyInt (-2500000000))
         = Return ("$" +:+ format_float grouped0 x)
      /\ unit_free ("$" +:+ format_float grouped0 x) = true)
  /\ format_market_cap (PyInt (- 2 ^ 1024)) = Raise OverflowError
  /\ format_market_cap (PyInt (-1234567))
     = Return ("$-" +:+ fixed_digits grouped0 (- -1234567)).
Proof.
  split; [| split].
  - apply (proj1 negative_market_cap_is_grouped (PyInt (-2500000000)));
      reflexivity.
  - apply (proj1 (proj2 negative_market_cap_is_grouped) (- 2 ^ 1024)).
    vm_compute. discriminate.
  - apply (proj1 (proj2 (proj2 negative_market_cap_is_grouped)) (-1234567)).
    lia.
Defined.

(** C9, as stated, fails: the int [-2^1024] is negative, and on it
    [format_market_cap] raises [OverflowError] instead of returning a
    text. *)
Lemma negative_market_cap_overflows :
  is_negative (PyInt (- 2 ^ 1024)) = true
  /\ format_market_cap (PyInt (- 2 ^ 1024)) = Raise OverflowError.
Proof. split; vm_compute; reflexivity. Qed.

(** *** A failed fetch among the selected companies *)

Lemma for_each_raises {A S : Type} (body : S -> A -> run S) (l : list A)
    (a : A) :
  In a l ->
  (forall s, exists e, result (body s a) = Raise e) ->
  forall s, exists e, result (for_each body l s) = Raise e.
Proof.
  intros Ha Hbody. induction l as [| b l IH]; [destruct Ha |].
  intros s. rewrite for_each_cons, result_bind.
  destruct Ha as [-> | Ha].
  - destruct (Hbody s) as [e ->]. eauto.
  - destruct (result (body s b)); [now apply IH | eauto].
Qed.

Lemma In_enumerate {A : Type} (l : list A) (a : A) :
  In a l -> exists i, In (i, a) (enumerate l).
Proof.
  intros Ha. apply list_elem_of_In, list_elem_of_lookup in Ha as [i Hi].
  exists i. apply list_elem_of_In. unfold enumerate.
  apply elem_of_lookup_imap. eauto.
Qed.

Section FailedFetch.

Variable history : string -> string -> response dataframe.
Variable snapshot : string -> response (gmap string pyval).
Variable Set1 : list string.

(** A company whose fetch fails is never loaded. *)
Lemma load_keeps_failed (ctl : controls) (companies_dict : dict string)
    (s s' : loaded) (company c : string) (r : response dataframe) :
  dict_get COMPANY_GROUPS (company_group ctl) = Some companies_dict ->
  answer history ctl c = Some r ->
  fetch_fails r = true ->
  dict_get s.2 c = None ->
  result (load history snapshot companies_dict (selected_period ctl) s company)
    = Return s' ->
  dict_get s'.2 c = None.
Proof.
  intros Hgroup Hr Hfails Hs. unfold load, getitem.
  destruct (dict_get companies_dict company) as [ticker |] eqn:Hticker;
    [rewrite bind_lift_Return | discriminate].
  destruct (dict_get period_options (selected_period ctl)) as [period |]
    eqn:Hperiod; [rewrite bind_lift_Return | discriminate].
  rewrite result_bind.
  destruct (result (get_stock_data history ticker period)) as [data |]
    eqn:Hdata; [| discriminate].
  destruct (get_company_info_returns snapshot ticker) as [info ->].
  rewrite bind_Run_Return. cbn [result].
  destruct data as [data |]; [| now intros [= <-]].
  apply get_stock_data_Some in Hdata.
  destruct (negb (empty data)) eqn:Hempty; intros [= <-]; [| exact Hs].
  cbn [snd]. rewrite dict_get_set.
  destruct (String.eqb_spec c company) as [-> | Hne]; [exfalso | exact Hs].
  apply answer_Some in Hr
    as (companies_dict' & ticker' & period' & Hgroup' & Hticker' & Hperiod'
        & ->).
  rewrite Hgroup in Hgroup'. injection Hgroup' as <-.
  rewrite Hticker in Hticker'. injection Hticker' as <-.
  rewrite Hperiod in Hperiod'. injection Hperiod' as <-.
  rewrite Hdata in Hfails. cbn [fetch_fails] in Hfails.
  rewrite Hfails in Hempty. discriminate.
Qed.

(** The card of a company that is not loaded raises [KeyError]. *)
Lemma metric_card_missing (company_info : dict (gmap string pyval))
    (u : unit) (i : nat) (c : string) :
  dict_get company_info c = None ->
  exists e, result (metric_card company_info u (i, c)) = Raise e.
Proof.
  intros Hc. unfold metric_card, getitem. rewrite Hc. eauto.
Qed.

(** When the fetch fails for one of the selected companies, the page never
    gets past the metric cards: it shows no chart, no table and no
    information box, and it either raises or, no company being loaded, ends
    with the error message. *)
Lemma failed_fetch_stops_before_charts (ctl : controls) (c : string)
    (r : response dataframe) :
  In c (selected_companies ctl) ->
  answer history ctl c = Some r ->
  fetch_fails r = true ->
  Forall (fun e => preliminary e = true)
    (trace (main history snapshot Set1 ctl))
  /\ ((exists e, result (main history snapshot Set1 ctl) = Raise e)
      \/ (result (main history snapshot Set1 ctl) = Return tt
          /\ last (trace (main history snapshot Set1 ctl))
             = Some (Error "데이터를 불러올 수 없습니다."))).
Proof.
  intros Hc Hr Hfails.
  pose proof Hr as Hr'. apply answer_Some in Hr'
    as (companies_dict & _ & _ & Hgroup & _).
  destruct (selected_companies ctl) as [| c0 l] eqn:Hsel; [destruct Hc |].
  rewrite <- Hsel in Hc.
  unfold main, getitem. rewrite !bind_emit, Hgroup, bind_lift_Return, Hsel.
  rewrite <- Hsel. cbn [trace result].
  rewrite trace_bind, result_bind.
  match goal with
  | |- context [result ?m] => remember m as loading eqn:Hloading
  end.
  assert (Hload : Forall (fun e => preliminary e = true) (trace loading)).
  { subst loading. apply for_each_trace. intros s a. apply load_preliminary. }
  assert (Hkept : forall s', result loading = Return s' ->
                             dict_get s'.2 c = None).
  { subst loading. intros s'.
    apply (for_each_invariant (fun s : loaded => dict_get s.2 c = None)).
    - intros s a s1. now apply (load_keeps_failed ctl companies_dict s s1 a c r).
    - reflexivity. }
  clear Hloading.
  match goal with
  | |- context [match ?r with Return _ => _ | Raise _ => _ end] =>
      destruct r as [[stock_data company_info] |] eqn:Hresult
  end.
  2:{ split; [| left; eauto].
      repeat (constructor; [reflexivity |]).
      apply Forall_app. split; [exact Hload | constructor]. }
  specialize (Hkept (stock_data, company_info) Hresult). cbn [fst snd] in *.
  destruct stock_data as [| entry stock_data'].
  { split; [| right; split; [reflexivity |]].
    - repeat (constructor; [reflexivity |]).
      apply Forall_app. split; [exact Hload | repeat constructor].
    - cbn [trace emit]. rewrite !last_cons, last_snoc. reflexivity. }
  destruct (In_enumerate (selected_companies ctl) c Hc) as [i Hi].
  destruct (for_each_raises (metric_card company_info)
              (enumerate (selected_companies ctl)) (i, c) Hi
              (fun u => metric_card_missing company_info u i c Hkept) tt)
    as [e Hcards].
  unfold render. rewrite bind_emit. cbn [trace result].
  rewrite trace_bind, result_bind.
  match goal with
  | |- context [match ?r with Return _ => _ | Raise _ => _ end] =>
      replace r with (@Raise unit e)
  end.
  split; [| left; eauto].
  repeat (constructor; [reflexivity |]).
  apply Forall_app. split; [exact Hload |].
  constructor; [reflexivity |]. apply Forall_app. split; [| constructor].
  apply for_each_trace. intros u ic. apply metric_card_preliminary.
Qed.

End FailedFetch.

(** *** The model on particular values *)

(** The quotient is a float: 1,015,000 over [1e6] is the float next below
    1.015, and prints as 1.01. *)
Example market_cap_1015000 :
  format_market_cap (PyInt 1015000) = Return "$1.01M".
Proof. vm_compute. reflexivity. Qed.

(** Ties go to the even digit: 2.5 prints as 2 and 1234.5 as 1,234. *)
Example market_cap_half :
  format_market_cap (PyFloat (fdiv (float_of_Z 5) (float_of_Z 2)))
  = Return "$2"
  /\ format_market_cap (PyFloat (fdiv (float_of_Z 2469) (float_of_Z 2)))
     = Return "$1,234".
Proof. split; vm_compute; reflexivity. Qed.

(** A negative float that rounds to zero keeps its sign. *)
Example market_cap_small_negative :
  format_market_cap (PyFloat (fdiv (float_of_Z (-2)) (float_of_Z 5)))
  = Return "$-0".
Proof. vm_compute. reflexivity. Qed.

(** An int above [2^53] is printed as the float nearest to it. *)
Example market_cap_inexact_int :
  format_market_cap (PyInt (- (2 ^ 53 + 1)))
  = Return "$-9,007,199,254,740,992".
Proof. vm_compute. reflexivity. Qed.

(** The last int that converts, and the first that does not. *)
Example float_of_int_edge :
  float_of_int (2 ^ 1024 - 2 ^ 970 - 1)
  = Return (S754_finite false (2 ^ 53 - 1)%positive 971)
  /\ float_of_int (2 ^ 1024 - 2 ^ 970) = Raise OverflowError.
Proof. split; vm_compute; reflexivity. Qed.

(** What is neither a number nor convertible to one raises [TypeError]. *)
Example market_cap_of_None :
  format_market_cap PyNone = Raise TypeError
  /\ format_market_cap (PyStr "1000") = Raise TypeError.
Proof. split; reflexivity. Qed.

(** A snapshot with the name alone: the other fields are placeholders. *)
Example company_info_partial :
  result (get_company_info Sample.snapshot "GOOGL")
  = Return (<["name" := PyStr "Alphabet Inc."]> (<["sector" := PyStr "N/A"]>
           (<["marketCap" := PyInt 0]> (<["currentPrice" := PyInt 0]> ∅)))).
Proof. reflexivity. Qed.

(** A series of one close has no standard deviation. *)
Example volatility_of_one_close :
  volatility <$> (match performance "Apple" (Sample.bars [100]) with
                  | Return row => Some row
                  | Raise _ => None
                  end)
  = Some "nan".
Proof. vm_compute. reflexivity. Qed.

(** Three successful fetches in line mode: the page runs to its end. *)
Example three_successful_fetches :
  result (main Sample.history Sample.snapshot Sample.Set1
            (Controls "시총 Top 10 기업"
               ["Apple"; "Alphabet (Google)"; "Amazon"] "3년" line_chart))
  = Return tt.
Proof. vm_compute. reflexivity. Qed.

(** In candlestick mode the page raises at the volume chart, after the
    candlestick chart and the performance table. *)
Example candlestick_run_ends_at_volume_chart :
  result (main Sample.history Sample.snapshot Sample.Set1
            (Controls "시총 Top 10 기업" ["Apple"; "Alphabet (Google)"] "3년"
               candlestick_chart))
  = Raise (UnboundLocalError "colors").
Proof. vm_compute. reflexivity. Qed.

(** *** Every selected company is ready *)

Lemma for_each_returns {A : Type} (body : unit -> A -> run unit)
    (l : list A) :
  (forall a, In a l -> exists t, body tt a = Run t (Return tt)) ->
  exists t, for_each body l tt = Run t (Return tt).
Proof.
  induction l as [| a l IH]; intros Hbody.
  - exists []. reflexivity.
  - destruct (Hbody a (or_introl eq_refl)) as [t1 Ha].
    destruct IH as [t2 Hl]; [intros b Hb; apply Hbody; now right |].
    rewrite for_each_cons, Ha, bind_Run_Return, Hl. eauto.
Qed.

Lemma enumerate_In {A : Type} (l : list A) (i : nat) (a : A) :
  In (i, a) (enumerate l) -> In a l.
Proof.
  intros Hia. apply list_elem_of_In in Hia. unfold enumerate in Hia.
  apply elem_of_lookup_imap in Hia as (j & b & [= -> ->] & Hb).
  apply list_elem_of_In, list_elem_of_lookup. eauto.
Qed.

Lemma format_converts (v : pyval) (spec : format_spec) :
  converts v = true -> exists s, format v spec = Return s.
Proof.
  intros Hv. destruct (as_float_converts v Hv) as [x Hx].
  destruct v as [| n | y | |]; try discriminate; cbn [as_float format] in *.
  - rewrite Hx. cbn. eauto.
  - eauto.
Qed.

(** Find an event in a trace made of conses and appends. *)
Ltac shown :=
  match goal with
  | |- In _ (_ :: _) => (left; reflexivity) || (right; shown)
  | |- In _ (_ ++ _) => apply in_or_app; ((left; shown) || (right; shown))
  end.

Section AllReady.

Variable history : string -> string -> response dataframe.
Variable snapshot : string -> response (gmap string pyval).
Variable Set1 : list string.

Lemma get_company_info_record (ticker : string) :
  get_company_info snapshot ticker
  = Run [FetchSnapshot ticker] (Return (snapshot_record (snapshot ticker))).
Proof.
  unfold get_company_info. now destruct (snapshot ticker).
Qed.

(** A company that is ready is loaded, and what was loaded stays loaded. *)
Lemma load_ready (ctl : controls) (companies_dict : dict string)
    (s : loaded) (company : string) :
  dict_get COMPANY_GROUPS (company_group ctl) = Some companies_dict ->
  ready history snapshot ctl company = true ->
  exists t s',
    load history snapshot companies_dict (selected_period ctl) s company
      = Run t (Return s')
    /\ holds history snapshot ctl s' company
    /\ (forall c, holds history snapshot ctl s c ->
                  holds history snapshot ctl s' c).
Proof.
  intros Hgroup Hready. unfold ready in Hready. rewrite Hgroup in Hready.
  destruct (dict_get companies_dict company) as [ticker |] eqn:Hticker;
    [| discriminate].
  destruct (dict_get period_options (selected_period ctl)) as [period |]
    eqn:Hperiod; [| discriminate].
  destruct (history ticker period) as [data |] eqn:Hdata; [| discriminate].
  apply andb_prop in Hready as [Hrows _].
  unfold load, getitem, get_stock_data.
  rewrite Hticker, bind_lift_Return, Hperiod, bind_lift_Return.
  rewrite bind_emit, Hdata. cbn [trace result mret run_ret].
  rewrite bind_Run_Return, get_company_info_record, bind_Run_Return, Hrows.
  cbn [trace result mret run_ret]. eexists _, _. split; [reflexivity |].
  split.
  - exists companies_dict, ticker, period, data. cbn [fst snd].
    rewrite !dict_get_set, String.eqb_refl. auto 10.
  - intros c (cd & ticker' & period' & data' & Hg & Ht & Hp & Hd & H1 & H2).
    exists cd, ticker', period', data'. cbn [fst snd].
    rewrite !dict_get_set.
    destruct (String.eqb_spec c company) as [-> | Hne]; [| auto 10].
    rewrite Hgroup in Hg. injection Hg as <-.
    rewrite Hticker in Ht. injection Ht as <-.
    rewrite Hperiod in Hp. injection Hp as <-.
    rewrite Hdata in Hd. injection Hd as <-. auto 10.
Qed.

Lemma load_all_ready (ctl : controls) (companies_dict : dict string)
    (selected : list string) :
  dict_get COMPANY_GROUPS (company_group ctl) = Some companies_dict ->
  (forall c, In c selected -> ready history snapshot ctl c = true) ->
  forall s : loaded,
  exists t s',
    for_each (load history snapshot companies_dict (selected_period ctl))
      selected s = Run t (Return s')
    /\ (forall c, In c selected -> holds history snapshot ctl s' c)
    /\ (forall c, holds history snapshot ctl s c ->
                  holds history snapshot ctl s' c).
Proof.
  intros Hgroup. induction selected as [| c l IH]; intros Hready s.
  - exists [], s. split; [reflexivity |]. split; [intros c [] | auto].
  - destruct (load_ready ctl companies_dict s c Hgroup
                (Hready c (or_introl eq_refl)))
      as (t1 & s1 & Hload & Hc & Hkeep1).
    destruct (IH (fun c' Hc' => Hready c' (or_intror Hc')) s1)
      as (t2 & s2 & Hrest & Hl & Hkeep2).
    exists (t1 ++ t2), s2. split; [| split].
    + now rewrite for_each_cons, Hload, bind_Run_Return, Hrest.
    + intros c' [<- | Hc']; [now apply Hkeep2 | now apply Hl].
    + intros c' Hc'. now apply Hkeep2, Hkeep1.
Qed.

(** The card of a company that is ready is shown. *)
Lemma metric_card_ready (company_info : dict (gmap string pyval))
    (i : nat) (company : string) (r : response (gmap string pyval)) :
  dict_get company_info company = Some (snapshot_record r) ->
  card_ok (snapshot_record r) = true ->
  exists t, metric_card company_info tt (i, company) = Run t (Return tt).
Proof.
  intros Hinfo Hok. unfold card_ok in Hok.
  destruct (snapshot_record r !! "currentPrice") as [price |] eqn:Hprice;
    [| discriminate].
  destruct (snapshot_record r !! "marketCap") as [cap |] eqn:Hcap;
    [| discriminate].
  apply andb_prop in Hok as [Hp Hc].
  destruct (format_converts price f2 Hp) as [sp Hsp].
  destruct (as_float_converts cap Hc) as [x Hx].
  pose proof (format_market_cap_numeric cap x Hx) as Hsc.
  unfold metric_card, getitem, field.
  rewrite Hinfo, bind_lift_Return, Hprice, Hcap.
  cbn [mbind outcome_bind]. rewrite Hsp, Hsc, !bind_lift_Return, bind_emit.
  assert (Hsector : snapshot_record r !! "sector"
                    = Some (default (PyStr "N/A") (provided r "sector")))
    by reflexivity.
  rewrite Hsector, bind_lift_Return. cbn [trace result emit]. eauto.
Qed.

Lemma holds_card_ok (ctl : controls) (s : loaded) (company : string) :
  holds history snapshot ctl s company ->
  ready history snapshot ctl company = true ->
  exists r,
    dict_get s.2 company = Some (snapshot_record r)
    /\ card_ok (snapshot_record r) = true.
Proof.
  intros (cd & ticker & period & data & Hg & Ht & Hp & Hd & _ & Hinfo) Hready.
  unfold ready in Hready. rewrite Hg, Ht, Hp, Hd in Hready.
  apply andb_prop in Hready as [_ Hok]. eauto.
Qed.

(** When every selected company is ready, the candlestick chart of the first
    one is shown. *)
Lemma candlestick_chart_shown (ctl : controls) (company : string)
    (rest : list string) :
  chart_type ctl = candlestick_chart ->
  selected_companies ctl = company :: rest ->
  (forall c, In c (selected_companies ctl) ->
             ready history snapshot ctl c = true) ->
  exists data,
    In (PlotlyChart (candlestick_figure ctl company data))
      (trace (main history snapshot Set1 ctl)).
Proof.
  intros Hchart Hsel Hready.
  assert (Hfirst : In company (selected_companies ctl))
    by (rewrite Hsel; now left).
  destruct (dict_get COMPANY_GROUPS (company_group ctl))
    as [companies_dict |] eqn:Hgroup.
  2:{ specialize (Hready company Hfirst). unfold ready in Hready.
      now rewrite Hgroup in Hready. }
  destruct (load_all_ready ctl companies_dict (selected_companies ctl)
              Hgroup Hready ([], []))
    as (t & [stock_data company_info] & Hload & Hheld & _).
  pose proof (Hheld company Hfirst)
    as (cd & ticker & period & data & _ & _ & _ & _ & Hdata & _).
  cbn [fst] in Hdata.
  destruct (for_each_returns (metric_card company_info)
              (enumerate (selected_companies ctl))) as [tc Hcards].
  { intros [i c] Hic. apply enumerate_In in Hic.
    destruct (holds_card_ok ctl (stock_data, company_info) c (Hheld c Hic)
                (Hready c Hic)) as (r & Hinfo & Hok).
    now apply (metric_card_ready company_info i c r). }
  exists data.
  unfold main, getitem. rewrite !bind_emit, Hgroup, bind_lift_Return, Hsel.
  rewrite <- Hsel, Hload, bind_Run_Return. cbn [fst].
  destruct stock_data as [| entry stock_data'] eqn:Hstock; [discriminate |].
  rewrite <- Hstock in *. unfold render.
  rewrite bind_emit, Hcards, bind_Run_Return, bind_emit.
  rewrite (price_chart_candlestick Set1 ctl stock_data company rest Hchart
             Hsel), Hdata.
  rewrite bind_Run_Return, bind_emit. cbn [trace fst].
  shown.
Qed.

End AllReady.

(** *** The candlestick chart, shown *)

(** C8: in candlestick mode, a chart that the page shows is the candlestick
    chart of the first selected company alone, made of the rows that the
    provider returned for that company, and when more than one company is
    selected the notice that only one company is supported is shown too; the
    chart is shown whenever every selected company is ready (its fetch
    returned rows and its card can be made); with exactly one company
    selected the notice is not shown. *)
Theorem candlestick_shows_first_company
    (history : string -> string -> response dataframe)
    (snapshot : string -> response (gmap string pyval))
    (Set1 : list string) (ctl : controls) :
  chart_type ctl = candlestick_chart ->
  (forall fig,
      In (PlotlyChart fig) (trace (main history snapshot Set1 ctl)) ->
      exists company rest data,
        selected_companies ctl = company :: rest
        /\ answer history ctl company = Some (Responds data)
        /\ fig = Figure [Candlestick (map Date data) (map Open data)
                           (map High data) (map Low data) (map Close data)
                           company]
                   (company +:+ " 캔들스틱 차트 - " +:+ selected_period ctl)
        /\ (rest <> [] ->
            In (Info candlestick_notice)
              (trace (main history snapshot Set1 ctl))))
  /\ (forall company rest,
        selected_companies ctl = company :: rest ->
        (forall c, In c (selected_companies ctl) ->
                   ready history snapshot ctl c = true) ->
        exists data,
          answer history ctl company = Some (Responds data)
          /\ In (PlotlyChart
                   (Figure [Candlestick (map Date data) (map Open data)
                              (map High data) (map Low data)
                              (map Close data) company]
                      (company +:+ " 캔들스틱 차트 - " +:+ selected_period ctl)))
               (trace (main history snapshot Set1 ctl))
          /\ (rest <> [] ->
              In (Info candlestick_notice)
                (trace (main history snapshot Set1 ctl))))
  /\ (forall company,
        selected_companies ctl = [company] ->
        ~ In (Info candlestick_notice)
            (trace (main history snapshot Set1 ctl))).
Proof.
  intros Hchart.
  assert (Hquiet : forall (t : list event) (e : event),
             Forall (fun e => quiet e = true) t -> In e t -> quiet e = true).
  { intros t e Ht He. exact (proj1 (List.Forall_forall _ t) Ht e He). }
  assert (Hshown : forall fig,
      In (PlotlyChart fig) (trace (main history snapshot Set1 ctl)) ->
      exists company rest data,
        selected_companies ctl = company :: rest
        /\ answer history ctl company = Some (Responds data)
        /\ fig = Figure [Candlestick (map Date data) (map Open data)
                           (map High data) (map Low data) (map Close data)
                           company]
                   (company +:+ " 캔들스틱 차트 - " +:+ selected_period ctl)
        /\ (rest <> [] ->
            In (Info candlestick_notice)
              (trace (main history snapshot Set1 ctl)))).
  { intros fig Hfig.
    destruct (selected_companies ctl) as [| company rest] eqn:Hsel.
    { exfalso. revert Hfig. unfold main, getitem. rewrite !bind_emit, Hsel.
      destruct (dict_get COMPANY_GROUPS (company_group ctl));
        [rewrite bind_lift_Return |]; cbn; intuition discriminate. }
    destruct (main_candlestick history snapshot Set1 ctl company rest
                Hchart Hsel)
      as (before & after & Hbefore & Hafter & [Ht | (data & Hdata & Ht)]);
      rewrite Ht in *.
    { apply (Hquiet _ _ Hbefore) in Hfig. discriminate. }
    exists company, rest, data. split; [reflexivity |]. split; [exact Hdata |].
    split.
    + apply in_app_or in Hfig as [Hfig | Hfig];
        [apply (Hquiet _ _ Hbefore) in Hfig; discriminate |].
      apply in_app_or in Hfig as [Hfig | [Hfig | Hfig]].
      * destruct rest; [destruct Hfig |].
        destruct Hfig as [Hfig | []]. discriminate.
      * now injection Hfig as <-.
      * apply (Hquiet _ _ Hafter) in Hfig. discriminate.
    + intros Hrest. apply in_or_app. right. apply in_or_app. left.
      destruct rest; [congruence | now left]. }
  split; [exact Hshown |]. split.
  - intros company rest Hsel Hready.
    destruct (candlestick_chart_shown history snapshot Set1 ctl company rest
                Hchart Hsel Hready) as [data0 Hin].
    destruct (Hshown _ Hin)
      as (company' & rest' & data & Hsel' & Hdata & Hfig & Hnotice).
    rewrite Hsel in Hsel'. injection Hsel' as <- <-.
    exists data. split; [exact Hdata |]. split; [| exact Hnotice].
    rewrite <- Hfig. exact Hin.
  - intros company Hsel Hnotice.
    destruct (main_candlestick history snapshot Set1 ctl company []
                Hchart Hsel)
      as (before & after & Hbefore & Hafter & [Ht | (data & Hdata & Ht)]);
      rewrite Ht in *.
    { apply (Hquiet _ _ Hbefore) in Hnotice. discriminate. }
    apply in_app_or in Hnotice as [Hnotice | Hnotice];
      [apply (Hquiet _ _ Hbefore) in Hnotice; discriminate |].
    destruct Hnotice as [Hnotice | Hnotice]; [discriminate |].
    apply (Hquiet _ _ Hafter) in Hnotice. discriminate.
Qed.


Lemma candlestick_shows_first_company_witness :
  let ctl := Controls "시총 Top 10 기업" ["Apple"; "Alphabet (Google)"] "3년"
               candlestick_chart in
  let shown := trace (main Sample.history Sample.snapshot Sample.Set1 ctl) in
  exists data,
    answer Sample.history ctl "Apple" = Some (Responds data)
    /\ In (PlotlyChart
             (Figure [Candlestick (map Date data) (map Open data)
                        (map High data) (map Low data) (map Close data)
                        "Apple"]
                ("Apple" +:+ " 캔들스틱 차트 - " +:+ selected_period ctl)))
         shown
    /\ (["Alphabet (Google)"] <> [] -> In (Info candlestick_notice) shown).
Proof.
  intros ctl shown.
  apply (proj1 (proj2 (candlestick_shows_first_company Sample.history
                         Sample.snapshot Sample.Set1 ctl eq_refl))
           "Apple" ["Alphabet (Google)"] eq_refl).
  intros c [<- | [<- | []]]; reflexivity.
Defined.

(** ** More properties of the page *)

(** *** The loaded data *)

Lemma dict_get_None {V : Type} (d : dict V) (k : string) :
  dict_get d k = None <-> ~ In k (keys d).
Proof.
  unfold keys. induction d as [| [k0 v0] d IH]; cbn.
  - tauto.
  - destruct (String.eqb_spec k k0) as [-> | Hne].
    + split; [discriminate | tauto].
    + rewrite IH. split; [intros H [H0 | H1]; [congruence | tauto] | tauto].
Qed.

Lemma dict_get_Some_In {V : Type} (d : dict V) (k : string) (v : V) :
  dict_get d k = Some v -> In (k, v) d.
Proof.
  induction d as [| [k0 v0] d IH]; cbn; [discriminate |].
  destruct (String.eqb_spec k k0) as [-> | Hne].
  - intros [= ->]. now left.
  - intros H. right. now apply IH.
Qed.

Lemma keys_dict_set {V : Type} (d : dict V) (k : string) (v : V) :
  keys (dict_set d k v)
  = match dict_get d k with
    | Some _ => keys d
    | None => keys d ++ [k]
    end.
Proof.
  unfold keys. induction d as [| [k0 v0] d IH]; cbn; [reflexivity |].
  destruct (String.eqb_spec k k0) as [-> | Hne]; cbn; [reflexivity |].
  rewrite IH. now destruct (dict_get d k).
Qed.

Lemma Forall_dict_set {V : Type} (P : string * V -> Prop) (d : dict V)
    (k : string) (v : V) :
  Forall P d -> P (k, v) -> Forall P (dict_set d k v).
Proof.
  intros Hd Hkv. induction Hd as [| [k0 v0] d H0 Hd IH]; cbn.
  - now constructor.
  - destruct (String.eqb k k0); constructor; auto.
Qed.

Lemma same_keys_get {V W : Type} (d : dict V) (d' : dict W) (k : string) :
  keys d = keys d' -> dict_get d k = None -> dict_get d' k = None.
Proof.
  intros Hkeys Hk. apply dict_get_None. rewrite <- Hkeys.
  now apply dict_get_None.
Qed.

Section Loading.

Variable history : string -> string -> response dataframe.
Variable snapshot : string -> response (gmap string pyval).

(** What a step of the loading loop leaves: the data as they were, or with
    the company set to the rows that the provider returned. *)
Lemma load_step (companies_dict : dict string) (period_label : string)
    (s s' : loaded) (company : string) :
  result (load history snapshot companies_dict period_label s company)
    = Return s' ->
  s' = s
  \/ exists ticker period data,
       dict_get companies_dict company = Some ticker
       /\ dict_get period_options period_label = Some period
       /\ history ticker period = Responds data
       /\ empty data = false
       /\ s' = (dict_set s.1 company data,
                dict_set s.2 company (snapshot_record (snapshot ticker))).
Proof.
  unfold load, getitem.
  destruct (dict_get companies_dict company) as [ticker |] eqn:Hticker;
    [rewrite bind_lift_Return | discriminate].
  destruct (dict_get period_options period_label) as [period |] eqn:Hperiod;
    [rewrite bind_lift_Return | discriminate].
  rewrite result_bind.
  destruct (result (get_stock_data history ticker period)) as [data |]
    eqn:Hdata; [| discriminate].
  rewrite get_company_info_record, bind_Run_Return. cbn [result].
  destruct data as [data |]; [| intros [= <-]; now left].
  apply get_stock_data_Some in Hdata.
  destruct (empty data) eqn:Hempty; cbn [negb]; intros [= <-]; [now left |].
  right. exists ticker, period, data. auto.
Qed.

Lemma load_well_loaded (companies_dict : dict string) (period_label : string)
    (s s' : loaded) (company : string) :
  well_loaded s ->
  result (load history snapshot companies_dict period_label s company)
    = Return s' ->
  well_loaded s'.
Proof.
  intros [Hkeys Hrows] Hload.
  apply load_step in Hload
    as [-> | (ticker & period & data & _ & _ & _ & Hdata & ->)];
    [now split |].
  split; cbn [fst snd].
  - rewrite !keys_dict_set, Hkeys.
    destruct (dict_get s.1 company) eqn:H1, (dict_get s.2 company) eqn:H2;
      try reflexivity.
    + apply (same_keys_get s.2 s.1) in H2; [congruence | now symmetry].
    + apply (same_keys_get s.1 s.2) in H1; [congruence | exact Hkeys].
  - apply Forall_dict_set; [exact Hrows | exact Hdata].
Qed.

Lemma loading_well_loaded (companies_dict : dict string)
    (period_label : string) (selected : list string) (s' : loaded) :
  result (for_each (load history snapshot companies_dict period_label)
            selected ([], [])) = Return s' ->
  well_loaded s'.
Proof.
  apply (for_each_invariant well_loaded).
  - intros s a s1. apply load_well_loaded.
  - split; [reflexivity | constructor].
Qed.

End Loading.
(** *** How a run goes *)

Lemma render_charts (Set1 : list string) (ctl : controls)
    (stock_data : dict dataframe) (company_info : dict (gmap string pyval)) :
  render Set1 ctl (stock_data, company_info)
  = (_ ← emit (Header "📊 선택된 기업 정보");
     _ ← for_each (metric_card company_info)
           (enumerate (selected_companies ctl)) tt;
     charts Set1 ctl stock_data).
Proof. reflexivity. Qed.


(** *** Snapshot values that are not numbers *)

Lemma format_non_number (v : pyval) (spec : format_spec) :
  is_number v = false -> exists e, format v spec = Raise e.
Proof. destruct v; try discriminate; cbn; eauto. Qed.

Lemma format_market_cap_non_number (v : pyval) :
  is_number v = false -> format_market_cap v = Raise TypeError.
Proof. now destruct v. Qed.

(** A card whose price or market cap is not a number raises. *)
Lemma metric_card_non_number (company_info : dict (gmap string pyval))
    (u : unit) (i : nat) (company : string) (info : gmap string pyval)
    (price cap : pyval) :
  dict_get company_info company = Some info ->
  info !! "currentPrice" = Some price ->
  info !! "marketCap" = Some cap ->
  is_number price = false \/ is_number cap = false ->
  exists e, result (metric_card company_info u (i, company)) = Raise e.
Proof.
  intros Hinfo Hprice Hcap Hbad. unfold metric_card, getitem, field.
  rewrite Hinfo, bind_lift_Return, Hprice, Hcap. cbn [mbind outcome_bind].
  destruct (format price f2) as [text |] eqn:Htext.
  - rewrite bind_lift_Return.
    destruct Hbad as [Hbad | Hbad].
    + destruct (format_non_number price f2 Hbad). congruence.
    + rewrite (format_market_cap_non_number cap Hbad). cbn. eauto.
  - cbn. eauto.
Qed.

Section Records.

Variable history : string -> string -> response dataframe.
Variable snapshot : string -> response (gmap string pyval).
Variable Set1 : list string.

Lemma load_records_of (companies_dict : dict string) (period_label : string)
    (s s' : loaded) (company : string) :
  records_of snapshot companies_dict s ->
  result (load history snapshot companies_dict period_label s company)
    = Return s' ->
  records_of snapshot companies_dict s'.
Proof.
  intros Hs Hload.
  apply load_step in Hload
    as [-> | (ticker & period & data & Hticker & _ & _ & _ & ->)];
    [exact Hs |].
  intros c info. cbn [snd]. rewrite dict_get_set.
  destruct (String.eqb_spec c company) as [-> | Hne]; [| apply Hs].
  intros [= <-]. eauto.
Qed.

End Records.

Section Run.

Variable history : string -> string -> response dataframe.
Variable snapshot : string -> response (gmap string pyval).
Variable Set1 : list string.

Lemma load_undisplayed (companies_dict : dict string) (period_label : string)
    (s : loaded) (company : string) :
  Forall (fun e => is_display e = false)
    (trace (load history snapshot companies_dict period_label s company)).
Proof.
  unfold load.
  destruct (getitem companies_dict company) as [ticker |];
    [rewrite bind_lift_Return | constructor].
  destruct (getitem period_options period_label) as [period |];
    [rewrite bind_lift_Return | constructor].
  rewrite trace_bind. apply Forall_app. split.
  - unfold get_stock_data. rewrite bind_emit. cbn [trace].
    destruct (history ticker period) as [data | [] msg]; repeat constructor.
  - destruct (result (get_stock_data history ticker period)) as [data |];
      [| constructor].
    rewrite get_company_info_record, bind_Run_Return. cbn [trace].
    constructor; [reflexivity |].
    destruct data as [data |]; [destruct (negb (empty data)) |]; constructor.
Qed.

(** The loading loop adds companies of the selection, in its order. *)
Lemma loading_sublist (companies_dict : dict string) (period_label : string)
    (selected : list string) :
  forall s s' : loaded,
  result (for_each (load history snapshot companies_dict period_label)
            selected s) = Return s' ->
  exists added,
    keys s'.1 = keys s.1 ++ added /\ added `sublist_of` selected.
Proof.
  induction selected as [| c l IH]; intros s s' Hrun.
  - injection Hrun as <-. exists []. now rewrite app_nil_r.
  - rewrite for_each_cons, result_bind in Hrun.
    destruct (result (load history snapshot companies_dict period_label s c))
      as [s1 |] eqn:Hstep; [| discriminate].
    destruct (IH s1 s' Hrun) as (added & Hkeys & Hsub).
    apply load_step in Hstep
      as [-> | (ticker & period & data & _ & _ & _ & _ & ->)].
    + exists added. split; [exact Hkeys | now apply sublist_cons].
    + cbn [fst] in Hkeys. rewrite keys_dict_set in Hkeys.
      destruct (dict_get s.1 c).
      * exists added. split; [exact Hkeys | now apply sublist_cons].
      * exists (c :: added). rewrite <- app_assoc in Hkeys.
        split; [exact Hkeys | now apply sublist_skip].
Qed.

(** When every card is shown, every selected company has its record. *)
Lemma cards_shown (company_info : dict (gmap string pyval))
    (selected : list string) (c : string) :
  result (for_each (metric_card company_info) (enumerate selected) tt)
    = Return tt ->
  In c selected -> In c (keys company_info).
Proof.
  intros Hcards Hc.
  destruct (dict_get company_info c) as [info |] eqn:Hinfo.
  - apply dict_get_Some_In in Hinfo. unfold keys.
    apply (in_map fst) in Hinfo. exact Hinfo.
  - exfalso. destruct (In_enumerate selected c Hc) as [i Hi].
    destruct (for_each_raises (metric_card company_info) (enumerate selected)
                (i, c) Hi
                (fun u => metric_card_missing company_info u i c Hinfo) tt)
      as [e He].
    congruence.
Qed.

(** How a run of the page goes: it stops before the price chart, by an
    exception or with nothing shown; or it reaches the price chart with
    well-formed data that hold every selected company. *)
Lemma main_cases (ctl : controls) :
  (Forall (fun e => preliminary e = true)
     (trace (main history snapshot Set1 ctl))
   /\ ((exists e, result (main history snapshot Set1 ctl) = Raise e)
       \/ (result (main history snapshot Set1 ctl) = Return tt
           /\ Forall (fun e => is_display e = false)
                (trace (main history snapshot Set1 ctl)))))
  \/ exists before stock_data company_info,
       Forall (fun e => preliminary e = true) before
       /\ well_loaded (stock_data, company_info)
       /\ selected_companies ctl <> []
       /\ (forall c, In c (selected_companies ctl) -> In c (keys stock_data))
       /\ keys stock_data `sublist_of` selected_companies ctl
       /\ (forall c d, dict_get stock_data c = Some d ->
                       answer history ctl c = Some (Responds d))
       /\ main history snapshot Set1 ctl
          = Run (before ++ trace (charts Set1 ctl stock_data))
              (result (charts Set1 ctl stock_data))
       /\ result (for_each (metric_card company_info)
                    (enumerate (selected_companies ctl)) tt) = Return tt
       /\ exists companies_dict,
            dict_get COMPANY_GROUPS (company_group ctl) = Some companies_dict
            /\ records_of snapshot companies_dict (stock_data, company_info).
Proof.
  unfold main, getitem. rewrite !bind_emit.
  destruct (dict_get COMPANY_GROUPS (company_group ctl))
    as [companies_dict |] eqn:Hgroup.
  2:{ left. cbn. split; [repeat constructor | left; eauto]. }
  rewrite bind_lift_Return.
  destruct (selected_companies ctl) as [| c0 l0] eqn:Hsel.
  { left. cbn. split; [repeat constructor | right].
    split; [reflexivity | repeat constructor]. }
  rewrite <- Hsel.
  remember (for_each (load history snapshot companies_dict
                        (selected_period ctl)) (selected_companies ctl)
              ([], [])) as loading eqn:Hloading.
  assert (Hload : Forall (fun e => preliminary e = true) (trace loading)).
  { subst loading. apply for_each_trace. intros s a. apply load_preliminary. }
  assert (Hquiet : Forall (fun e => is_display e = false) (trace loading)).
  { subst loading. apply for_each_trace. intros s a. apply load_undisplayed. }
  destruct (result loading) as [[stock_data company_info] |] eqn:Hresult.
  2:{ left. rewrite (bind_Raise loading _ e Hresult). cbn [trace result].
      split; [| left; eauto]. repeat (constructor; [reflexivity |]).
      exact Hload. }
  rewrite (bind_Return loading _ _ Hresult). cbn [fst trace result].
  destruct stock_data as [| entry stock_data'] eqn:Hstock.
  { left. cbn [trace result emit]. split.
    - repeat (constructor; [reflexivity |]).
      apply Forall_app. split; [exact Hload | repeat constructor].
    - right. split; [reflexivity |]. repeat (constructor; [reflexivity |]).
      apply Forall_app. split; [exact Hquiet | repeat constructor]. }
  rewrite <- Hstock in *.
  rewrite render_charts, bind_emit. cbn [trace result].
  pose proof (for_each_trace (fun e => preliminary e = true)
                (metric_card company_info)
                (enumerate (selected_companies ctl))
                (metric_card_preliminary company_info) tt) as Hcards.
  destruct (result (for_each (metric_card company_info)
                      (enumerate (selected_companies ctl)) tt))
    as [[] |] eqn:Hshown.
  2:{ left. rewrite (bind_Raise _ _ e Hshown). cbn [trace result].
      split; [| left; eauto]. repeat (constructor; [reflexivity |]).
      apply Forall_app. split; [exact Hload |].
      constructor; [reflexivity | exact Hcards]. }
  right. rewrite (bind_Return _ _ tt Hshown). cbn [trace result].
  assert (Hwell : well_loaded (stock_data, company_info)).
  { subst loading. now apply loading_well_loaded in Hresult. }
  exists (Title "📈 글로벌 주요 기업 주가 분석"
          :: Markdown
      "시총 상위 기업과 차세대 AI 기업들의 최근 주가 흐름을 비교해보세요."
          :: trace loading
             ++ Header "📊 선택된 기업 정보"
                :: trace (for_each (metric_card company_info)
                            (enumerate (selected_companies ctl)) tt)),
    stock_data, company_info.
  split; [| split; [exact Hwell | split; [congruence | split; [| split;
    [| split; [| split; [| split; [exact Hshown |]]]]]]]].
  6:{ exists companies_dict. split; [reflexivity |].
      subst loading. revert Hresult.
      apply (for_each_invariant (records_of snapshot companies_dict)).
      - intros s a s1. apply load_records_of.
      - intros c info. discriminate. }
  - repeat (constructor; [reflexivity |]). apply Forall_app.
    split; [exact Hload |]. constructor; [reflexivity | exact Hcards].
  - intros c Hc. destruct Hwell as [Hkeys _]. cbn [fst snd] in Hkeys.
    rewrite Hkeys. now apply (cards_shown company_info (selected_companies ctl)).
  - subst loading. apply loading_sublist in Hresult as (added & Hkeys & Hsub).
    cbn [fst] in Hkeys. now rewrite Hkeys.
  - subst loading. revert Hresult.
    apply (for_each_invariant
             (fun s : loaded => forall c d, dict_get s.1 c = Some d ->
                answer history ctl c = Some (Responds d))).
    + intros s a s1. now apply load_answer.
    + discriminate.
  - f_equal. cbn [app]. rewrite <- !app_assoc. reflexivity.
Qed.

End Run.
(** *** The charts and the table *)

Lemma price_trace_at (colors : list string) (acc : list plot_trace)
    (i : nat) (company : string) (data : dataframe) (c : string) :
  colors !! i = Some c ->
  price_trace colors acc (i, (company, data))
  = Run [] (Return (acc ++ [price_line (company, data) c])).
Proof.
  intros Hc. unfold price_trace, color. now rewrite Hc, bind_lift_Return.
Qed.

Lemma volume_trace_at (colors : list string) (acc : list plot_trace)
    (i : nat) (company : string) (data : dataframe) (c : string) :
  (i < length colors)%nat ->
  colors !! i = Some c ->
  volume_trace (Some colors) acc (i, (company, data))
  = Run [] (Return (acc ++ [volume_line (company, data) c])).
Proof.
  intros Hi Hc. unfold volume_trace, color. rewrite bind_lift_Return.
  destruct (length colors) as [| n] eqn:Hlen; [lia |]. rewrite <- Hlen.
  rewrite (Nat.mod_small i (length colors)) by lia.
  now rewrite Hc, bind_lift_Return.
Qed.

Lemma price_loop (colors : list string) (stock_data : dict dataframe) :
  forall (k : nat) (acc : list plot_trace),
  (k + length stock_data <= length colors)%nat ->
  for_each (price_trace colors)
    (imap (fun i cd => ((k + i)%nat, cd)) stock_data) acc
  = Run [] (Return (acc ++ zip_with price_line stock_data (drop k colors))).
Proof.
  induction stock_data as [| [company data] rest IH]; intros k acc Hk.
  - cbn. now rewrite app_nil_r.
  - cbn [length] in Hk.
    destruct (lookup_lt_is_Some_2 colors k ltac:(lia)) as [c Hc].
    rewrite (drop_S colors c k Hc), imap_cons, for_each_cons.
    cbn [zip_with]. cbn beta.
    rewrite Nat.add_0_r, (price_trace_at colors acc k company data c Hc).
    rewrite bind_Run_Return. cbn [app].
    rewrite (imap_ext _ (fun i cd => ((S k + i)%nat, cd)))
      by (intros i cd _; cbn; f_equal; lia).
    rewrite IH by lia. cbn [trace result]. now rewrite <- app_assoc.
Qed.

Lemma volume_loop (colors : list string) (stock_data : dict dataframe) :
  forall (k : nat) (acc : list plot_trace),
  (k + length stock_data <= length colors)%nat ->
  for_each (volume_trace (Some colors))
    (imap (fun i cd => ((k + i)%nat, cd)) stock_data) acc
  = Run [] (Return (acc ++ zip_with volume_line stock_data (drop k colors))).
Proof.
  induction stock_data as [| [company data] rest IH]; intros k acc Hk.
  - cbn. now rewrite app_nil_r.
  - cbn [length] in Hk.
    destruct (lookup_lt_is_Some_2 colors k ltac:(lia)) as [c Hc].
    rewrite (drop_S colors c k Hc), imap_cons, for_each_cons.
    cbn [zip_with]. cbn beta.
    rewrite Nat.add_0_r,
      (volume_trace_at colors acc k company data c ltac:(lia) Hc).
    rewrite bind_Run_Return. cbn [app].
    rewrite (imap_ext _ (fun i cd => ((S k + i)%nat, cd)))
      by (intros i cd _; cbn; f_equal; lia).
    rewrite IH by lia. cbn [trace result]. now rewrite <- app_assoc.
Qed.

Lemma performance_returns (company : string) (data : dataframe) :
  empty data = false ->
  exists row,
    performance company data = Return row /\ company_name row = company.
Proof.
  intros Hdata. unfold performance, iloc_first, iloc_last.
  destruct data as [| b rest]; [discriminate |].
  destruct (last (map Close (b :: rest))) as [final |] eqn:Hlast.
  - cbn. eauto.
  - apply last_None in Hlast. discriminate.
Qed.

Lemma performance_loop (stock_data : dict dataframe) :
  Forall (fun cd => empty cd.2 = false) stock_data ->
  forall acc, exists rows,
    for_each performance_entry stock_data acc = Run [] (Return (acc ++ rows))
    /\ Forall2 (fun cd row => performance cd.1 cd.2 = Return row)
         stock_data rows
    /\ map company_name rows = keys stock_data.
Proof.
  induction 1 as [| [company data] rest Hdata _ IH]; intros acc.
  - exists []. cbn. rewrite app_nil_r. repeat split. constructor.
  - destruct (performance_returns company data Hdata) as (row & Hrow & Hname).
    destruct (IH (acc ++ [row])) as (rows & Hrest & Hall & Hnames).
    exists (row :: rows). rewrite for_each_cons.
    assert (Hentry : performance_entry acc (company, data)
                     = Run [] (Return (acc ++ [row]))).
    { unfold performance_entry. cbn [fst snd].
      now rewrite Hrow, bind_lift_Return. }
    rewrite Hentry, bind_Run_Return, Hrest, <- app_assoc.
    split; [reflexivity |]. split; [now constructor |].
    unfold keys in *. cbn. now rewrite Hname, Hnames.
Qed.
Lemma bind_Run_nil {A B : Type} (a : A) (k : A -> run B) :
  Run [] (Return a) ≫= k = k a.
Proof. apply (bind_lift_Return a k). Qed.

Section Charts.

Variable history : string -> string -> response dataframe.
Variable snapshot : string -> response (gmap string pyval).
Variable Set1 : list string.

(** The line chart and what follows it, when the colours suffice. *)
Lemma charts_line (ctl : controls) (stock_data : dict dataframe) :
  chart_type ctl = line_chart ->
  Forall (fun cd => empty cd.2 = false) stock_data ->
  (length stock_data <= length (Set1 ++ Set1))%nat ->
  exists rows,
    Forall2 (fun cd row => performance cd.1 cd.2 = Return row) stock_data rows
    /\ charts Set1 ctl stock_data
       = Run [ Header "📈 주가 차트";
               PlotlyChart
                 (Figure (zip_with price_line stock_data (Set1 ++ Set1))
                    ("주가 추이 - " +:+ selected_period ctl));
               Header "📊 성과 비교";
               Dataframe rows;
               Header "📊 거래량 분석";
               PlotlyChart
                 (Figure (zip_with volume_line stock_data (Set1 ++ Set1))
                    ("거래량 추이 - " +:+ selected_period ctl));
               Header "ℹ️ 추가 정보";
               Info disclaimer ]
           (Return tt).
Proof.
  intros Hchart Hrows Hcolors.
  destruct (performance_loop stock_data Hrows [])
    as (rows & Htable & Hall & _).
  exists rows. split; [exact Hall |].
  unfold charts, price_chart. rewrite Hchart, String.eqb_refl, bind_emit.
  change (enumerate stock_data)
    with (imap (fun i cd => ((0 + i)%nat, cd)) stock_data).
  rewrite (price_loop (Set1 ++ Set1) stock_data 0 [] Hcolors).
  rewrite bind_Run_nil, bind_mret, !bind_emit, Htable, bind_Run_nil.
  rewrite !bind_emit. cbn [fst snd].
  rewrite (volume_loop (Set1 ++ Set1) stock_data 0 [] Hcolors).
  rewrite bind_Run_nil, !bind_emit. reflexivity.
Qed.

(** The candlestick chart and what follows it: the volume chart fails at its
    first line. *)
Lemma charts_candlestick (ctl : controls) (stock_data : dict dataframe)
    (company : string) (rest : list string) (data : dataframe) :
  chart_type ctl = candlestick_chart ->
  selected_companies ctl = company :: rest ->
  dict_get stock_data company = Some data ->
  Forall (fun cd => empty cd.2 = false) stock_data ->
  exists rows,
    Forall2 (fun cd row => performance cd.1 cd.2 = Return row) stock_data rows
    /\ charts Set1 ctl stock_data
       = Run (Header "📈 주가 차트"
              :: match rest with
                 | [] => []
                 | _ :: _ => [Info candlestick_notice]
                 end
              ++ [ PlotlyChart (candlestick_figure ctl company data);
                   Header "📊 성과 비교";
                   Dataframe rows;
                   Header "📊 거래량 분석" ])
           (Raise (UnboundLocalError "colors")).
Proof.
  intros Hchart Hsel Hdata Hrows.
  destruct (performance_loop stock_data Hrows [])
    as (rows & Htable & Hall & _).
  exists rows. split; [exact Hall |].
  assert (Hsome : stock_data <> []) by (destruct stock_data; discriminate).
  unfold charts.
  rewrite (price_chart_candlestick Set1 ctl stock_data company rest Hchart
             Hsel), Hdata.
  rewrite bind_emit, bind_Run_Return, !bind_emit, Htable, bind_Run_Return.
  rewrite !bind_emit. cbn [fst snd].
  rewrite (volume_without_colors stock_data Hsome), bind_Run_Raise.
  cbn [trace result app]. reflexivity.
Qed.

(** A run that loads data and shows every card goes on to the charts. *)
Lemma main_after_cards (ctl : controls) (companies_dict : dict string)
    (t tc : list event) (stock_data : dict dataframe)
    (company_info : dict (gmap string pyval)) :
  dict_get COMPANY_GROUPS (company_group ctl) = Some companies_dict ->
  selected_companies ctl <> [] ->
  for_each (load history snapshot companies_dict (selected_period ctl))
    (selected_companies ctl) ([], []) = Run t (Return (stock_data, company_info)) ->
  stock_data <> [] ->
  for_each (metric_card company_info) (enumerate (selected_companies ctl)) tt
    = Run tc (Return tt) ->
  main history snapshot Set1 ctl
  = Run (Title "📈 글로벌 주요 기업 주가 분석"
         :: Markdown
      "시총 상위 기업과 차세대 AI 기업들의 최근 주가 흐름을 비교해보세요."
         :: t ++ Header "📊 선택된 기업 정보" :: tc
            ++ trace (charts Set1 ctl stock_data))
      (result (charts Set1 ctl stock_data)).
Proof.
  intros Hgroup Hsel Hload Hdata Hcards.
  unfold main, getitem. rewrite !bind_emit, Hgroup, bind_lift_Return.
  destruct (selected_companies ctl) as [| c0 l0] eqn:Hsel0; [congruence |].
  rewrite Hload, bind_Run_Return. cbn [fst].
  destruct stock_data as [| entry stock_data'] eqn:Hstock; [congruence |].
  rewrite <- Hstock in *.
  rewrite render_charts, bind_emit, Hsel0, Hcards, bind_Run_Return.
  cbn [trace result app]. reflexivity.
Qed.

(** When every selected company is ready, the page reaches the charts with
    the data of the selected companies. *)
Lemma main_ready (ctl : controls) :
  selected_companies ctl <> [] ->
  (forall c, In c (selected_companies ctl) ->
             ready history snapshot ctl c = true) ->
  exists before stock_data,
    Forall (fun e => preliminary e = true) before
    /\ Forall (fun cd => empty cd.2 = false) stock_data
    /\ (forall c, In c (selected_companies ctl) -> In c (keys stock_data))
    /\ keys stock_data `sublist_of` selected_companies ctl
    /\ (forall c d, dict_get stock_data c = Some d ->
                    answer history ctl c = Some (Responds d))
    /\ main history snapshot Set1 ctl
       = Run (before ++ trace (charts Set1 ctl stock_data))
           (result (charts Set1 ctl stock_data)).
Proof.
  intros Hsel Hready.
  destruct (selected_companies ctl) as [| c0 l0] eqn:Hsel0; [congruence |].
  rewrite <- Hsel0 in *.
  assert (Hfirst : In c0 (selected_companies ctl))
    by (rewrite Hsel0; now left).
  destruct (dict_get COMPANY_GROUPS (company_group ctl))
    as [companies_dict |] eqn:Hgroup.
  2:{ specialize (Hready c0 Hfirst). unfold ready in Hready.
      now rewrite Hgroup in Hready. }
  destruct (load_all_ready history snapshot ctl companies_dict
              (selected_companies ctl) Hgroup Hready ([], []))
    as (t & [stock_data company_info] & Hload & Hheld & _).
  destruct (for_each_returns (metric_card company_info)
              (enumerate (selected_companies ctl))) as [tc Hcards].
  { intros [i c] Hic. apply enumerate_In in Hic.
    destruct (holds_card_ok history snapshot ctl (stock_data, company_info) c
                (Hheld c Hic) (Hready c Hic)) as (r & Hinfo & Hok).
    now apply (metric_card_ready company_info i c r). }
  assert (Hresult : result (for_each (load history snapshot companies_dict
                                        (selected_period ctl))
                              (selected_companies ctl) ([], []))
                    = Return (stock_data, company_info))
    by now rewrite Hload.
  assert (Hin : forall c, In c (selected_companies ctl) ->
                          In c (keys stock_data)).
  { intros c Hc.
    destruct (Hheld c Hc) as (cd & ticker & period & data & _ & _ & _ & _
                              & Hdata & _).
    cbn [fst] in Hdata. apply dict_get_Some_In in Hdata.
    apply (in_map fst) in Hdata. exact Hdata. }
  assert (Hsome : stock_data <> []).
  { intros ->. exact (Hin c0 Hfirst). }
  exists (Title "📈 글로벌 주요 기업 주가 분석"
          :: Markdown
      "시총 상위 기업과 차세대 AI 기업들의 최근 주가 흐름을 비교해보세요."
          :: t ++ Header "📊 선택된 기업 정보" :: tc), stock_data.
  split; [| split; [| split; [exact Hin | split; [| split]]]].
  - repeat (constructor; [reflexivity |]). apply Forall_app. split.
    + replace t with (trace (for_each (load history snapshot companies_dict
                                         (selected_period ctl))
                               (selected_companies ctl) ([], [])))
        by now rewrite Hload.
      apply for_each_trace. intros s a. apply load_preliminary.
    + constructor; [reflexivity |].
      replace tc with (trace (for_each (metric_card company_info)
                                (enumerate (selected_companies ctl)) tt))
        by now rewrite Hcards.
      apply for_each_trace. intros u ic. apply metric_card_preliminary.
  - apply loading_well_loaded in Hresult. apply Hresult.
  - apply loading_sublist in Hresult as (added & Hkeys & Hsub).
    cbn [fst] in Hkeys. now rewrite Hkeys.
  - revert Hresult.
    apply (for_each_invariant
             (fun s : loaded => forall c d, dict_get s.1 c = Some d ->
                answer history ctl c = Some (Responds d))).
    + intros s a s1. now apply load_answer.
    + discriminate.
  - rewrite (main_after_cards ctl companies_dict t tc stock_data company_info
               Hgroup ltac:(congruence) Hload Hsome Hcards).
    f_equal. cbn [app]. rewrite <- !app_assoc. reflexivity.
Qed.

End Charts.
Lemma keys_get {V : Type} (d : dict V) (k : string) :
  In k (keys d) -> exists v, dict_get d k = Some v.
Proof.
  intros Hk. destruct (dict_get d k) as [v |] eqn:Hget; [eauto |].
  now apply dict_get_None in Hget.
Qed.

Lemma preliminary_In (t : list event) (e : event) :
  Forall (fun e => preliminary e = true) t -> In e t -> preliminary e = true.
Proof. intros Ht He. exact (proj1 (List.Forall_forall _ t) Ht e He). Qed.

(** X12: in candlestick mode the page never shows its end.  A run that
    shows a chart raises [UnboundLocalError] for [colors], right after the
    header of the volume chart and with the performance table shown; a run
    that shows any card, chart or table raises; the closing information box
    is never shown; and when every selected company is ready the run does
    raise [UnboundLocalError]. *)
Theorem candlestick_run_raises
    (history : string -> string -> response dataframe)
    (snapshot : string -> response (gmap string pyval))
    (Set1 : list string) (ctl : controls) :
  chart_type ctl = candlestick_chart ->
  (forall fig,
      In (PlotlyChart fig) (trace (main history snapshot Set1 ctl)) ->
      result (main history snapshot Set1 ctl)
        = Raise (UnboundLocalError "colors")
      /\ last (trace (main history snapshot Set1 ctl))
         = Some (Header "📊 거래량 분석")
      /\ exists rows,
           In (Dataframe rows) (trace (main history snapshot Set1 ctl)))
  /\ (forall e,
        In e (trace (main history snapshot Set1 ctl)) ->
        is_display e = true ->
        exists x, result (main history snapshot Set1 ctl) = Raise x)
  /\ ~ In (Info disclaimer) (trace (main history snapshot Set1 ctl))
  /\ (selected_companies ctl <> [] ->
      (forall c, In c (selected_companies ctl) ->
                 ready history snapshot ctl c = true) ->
      result (main history snapshot Set1 ctl)
        = Raise (UnboundLocalError "colors")).
Proof.
  intros Hchart.
  assert (Hafter : forall before stock_data,
            Forall (fun cd => empty cd.2 = false) stock_data ->
            selected_companies ctl <> [] ->
            (forall c, In c (selected_companies ctl) ->
                       In c (keys stock_data)) ->
            main history snapshot Set1 ctl
              = Run (before ++ trace (charts Set1 ctl stock_data))
                  (result (charts Set1 ctl stock_data)) ->
            exists (company : string) (rest : list string)
                (data : dataframe) (rows : list performance_row),
              main history snapshot Set1 ctl
              = Run (before
                     ++ Header "📈 주가 차트"
                        :: match rest with
                           | [] => []
                           | _ :: _ => [Info candlestick_notice]
                           end
                        ++ [ PlotlyChart (candlestick_figure ctl company data);
                             Header "📊 성과 비교";
                             Dataframe rows;
                             Header "📊 거래량 분석" ])
                  (Raise (UnboundLocalError "colors"))).
  { intros before stock_data Hrows Hsel Hin Hmain.
    destruct (selected_companies ctl) as [| company rest] eqn:Hsel0;
      [congruence |].
    destruct (keys_get stock_data company (Hin company (or_introl eq_refl)))
      as [data Hdata].
    destruct (charts_candlestick Set1 ctl stock_data company rest data Hchart
                Hsel0 Hdata Hrows) as (rows & _ & Hcharts).
    exists company, rest, data, rows. now rewrite Hmain, Hcharts. }
  destruct (main_cases history snapshot Set1 ctl)
    as [[Hpre Hend]
       | (before & stock_data & company_info & Hbefore & [_ Hrows] & Hsel
          & Hin & _ & _ & Hmain & _)].
  - split; [| split; [| split]].
    + intros fig Hfig. apply (preliminary_In _ _ Hpre) in Hfig. discriminate.
    + intros e He Hshow. destruct Hend as [Hraise | [_ Hnone]]; [exact Hraise |].
      apply (proj1 (List.Forall_forall _ _) Hnone e) in He. congruence.
    + intros Hinfo. apply (preliminary_In _ _ Hpre) in Hinfo. discriminate.
    + intros Hsel Hready.
      destruct (main_ready history snapshot Set1 ctl Hsel Hready)
        as (before & stock_data & _ & Hrows & Hin & _ & _ & Hmain).
      destruct (Hafter before stock_data Hrows Hsel Hin Hmain)
        as (company & rest & data & rows & ->).
      reflexivity.
  - cbn [fst] in Hrows.
    destruct (Hafter before stock_data Hrows Hsel Hin Hmain)
      as (company & rest & data & rows & Hrun).
    rewrite Hrun. cbn [trace result].
    split; [| split; [| split]].
    + intros fig _. split; [reflexivity |]. split.
      * rewrite last_app_cons, last_cons.
        destruct rest; reflexivity.
      * exists rows. apply in_or_app. right. right. apply in_or_app. right.
        cbn. tauto.
    + eauto.
    + intros Hinfo. apply in_app_or in Hinfo as [Hinfo | Hinfo].
      { apply (preliminary_In _ _ Hbefore) in Hinfo. discriminate. }
      destruct Hinfo as [Hinfo | Hinfo]; [discriminate |].
      apply in_app_or in Hinfo as [Hinfo | Hinfo].
      * destruct rest; [destruct Hinfo |].
        destruct Hinfo as [Hinfo | []]. discriminate.
      * cbn in Hinfo. intuition discriminate.
    + reflexivity.
Qed.
Lemma candlestick_run_raises_witness :
  let ctl := Controls "시총 Top 10 기업" ["Apple"; "Alphabet (Google)"] "3년"
               candlestick_chart in
  result (main Sample.history Sample.snapshot Sample.Set1 ctl)
  = Raise (UnboundLocalError "colors").
Proof.
  intros ctl.
  apply (proj2 (proj2 (proj2 (candlestick_run_raises Sample.history
                                Sample.snapshot Sample.Set1 ctl eq_refl)))).
  - discriminate.
  - intros c [<- | [<- | []]]; reflexivity.
Defined.

(** X10: in line mode, when the selection has at most twice as many
    companies as [Set1] has colours, a run that shows a chart returns and
    ends with the closing information box; and when every selected company
    is ready the run does so. *)
Theorem line_chart_run_completes
    (history : string -> string -> response dataframe)
    (snapshot : string -> response (gmap string pyval))
    (Set1 : list string) (ctl : controls) :
  chart_type ctl = line_chart ->
  (length (selected_companies ctl) <= 2 * length Set1)%nat ->
  (forall fig,
      In (PlotlyChart fig) (trace (main history snapshot Set1 ctl)) ->
      result (main history snapshot Set1 ctl) = Return tt
      /\ last (trace (main history snapshot Set1 ctl))
         = Some (Info disclaimer))
  /\ (selected_companies ctl <> [] ->
      (forall c, In c (selected_companies ctl) ->
                 ready history snapshot ctl c = true) ->
      result (main history snapshot Set1 ctl) = Return tt
      /\ last (trace (main history snapshot Set1 ctl))
         = Some (Info disclaimer)).
Proof.
  intros Hchart Hcolors.
  assert (Hafter : forall before stock_data,
            Forall (fun cd => empty cd.2 = false) stock_data ->
            keys stock_data `sublist_of` selected_companies ctl ->
            main history snapshot Set1 ctl
              = Run (before ++ trace (charts Set1 ctl stock_data))
                  (result (charts Set1 ctl stock_data)) ->
            result (main history snapshot Set1 ctl) = Return tt
            /\ last (trace (main history snapshot Set1 ctl))
               = Some (Info disclaimer)).
  { intros before stock_data Hrows Hsub Hmain.
    destruct (charts_line Set1 ctl stock_data Hchart Hrows)
      as (rows & _ & Hcharts).
    { apply sublist_length in Hsub. unfold keys in Hsub.
      rewrite length_map in Hsub. rewrite length_app. lia. }
    rewrite Hmain, Hcharts. cbn [trace result]. split; [reflexivity |].
    now rewrite last_app_cons. }
  split.
  - intros fig Hfig.
    destruct (main_cases history snapshot Set1 ctl)
      as [[Hpre _]
         | (before & stock_data & company_info & _ & [_ Hrows] & _ & _ & Hsub
            & _ & Hmain & _)].
    + apply (preliminary_In _ _ Hpre) in Hfig. discriminate.
    + now apply (Hafter before stock_data).
  - intros Hsel Hready.
    destruct (main_ready history snapshot Set1 ctl Hsel Hready)
      as (before & stock_data & _ & Hrows & _ & Hsub & _ & Hmain).
    now apply (Hafter before stock_data).
Qed.

Lemma line_chart_run_completes_witness :
  let ctl := Controls "시총 Top 10 기업"
               ["Apple"; "Alphabet (Google)"; "Amazon"] "3년" line_chart in
  result (main Sample.history Sample.snapshot Sample.Set1 ctl) = Return tt
  /\ last (trace (main Sample.history Sample.snapshot Sample.Set1 ctl))
     = Some (Info disclaimer).
Proof.
  intros ctl.
  apply (proj2 (line_chart_run_completes Sample.history Sample.snapshot
                  Sample.Set1 ctl eq_refl ltac:(cbn; lia))).
  - discriminate.
  - intros c [<- | [<- | [<- | []]]]; reflexivity.
Defined.


(** *** The requests *)

Lemma Forall_trace_bind {A B : Type} (P : event -> Prop) (m : run A)
    (k : A -> run B) :
  Forall P (trace m) -> (forall a, Forall P (trace (k a))) ->
  Forall P (trace (m ≫= k)).
Proof.
  intros Hm Hk. rewrite trace_bind. apply Forall_app. split; [exact Hm |].
  destruct (result m); [apply Hk | constructor].
Qed.

Lemma Forall_trace_for_each {A S : Type} (P : event -> Prop)
    (body : S -> A -> run S) (l : list A) (s : S) :
  (forall s a, Forall P (trace (body s a))) ->
  Forall P (trace (for_each body l s)).
Proof. intros Hbody. now apply for_each_trace. Qed.

Section Requests.

Variable history : string -> string -> response dataframe.
Variable snapshot : string -> response (gmap string pyval).
Variable Set1 : list string.

(** A step of the loading loop sends the two requests of its company and
    returns, unless the provider raises what is not an [Exception]. *)
Lemma load_requests (companies_dict : dict string) (period_label : string)
    (s : loaded) (company ticker period : string) :
  dict_get companies_dict company = Some ticker ->
  dict_get period_options period_label = Some period ->
  (forall msg, history ticker period <> Fails false msg) ->
  List.filter is_fetch
    (trace (load history snapshot companies_dict period_label s company))
  = [FetchHistory ticker period; FetchSnapshot ticker]
  /\ exists s',
       result (load history snapshot companies_dict period_label s company)
       = Return s'.
Proof.
  intros Hticker Hperiod Hexn. unfold load, getitem, get_stock_data.
  rewrite Hticker, bind_lift_Return, Hperiod, bind_lift_Return, bind_emit.
  rewrite get_company_info_record.
  destruct (history ticker period) as [data | [] msg] eqn:Hdata.
  - cbn [trace result mret run_ret]. rewrite bind_Run_Return, bind_Run_Return.
    destruct (negb (empty data)); cbn; eauto.
  - rewrite bind_emit. cbn [trace result mret run_ret].
    rewrite bind_Run_Return, bind_Run_Return. cbn. eauto.
  - now destruct (Hexn msg).
Qed.

Lemma loading_requests (companies_dict : dict string)
    (period_label period : string) (selected : list string) :
  dict_get period_options period_label = Some period ->
  Forall (fun c => is_Some (dict_get companies_dict c)) selected ->
  (forall ticker msg, history ticker period <> Fails false msg) ->
  forall s : loaded,
  List.filter is_fetch
    (trace (for_each (load history snapshot companies_dict period_label)
              selected s))
  = requests companies_dict period selected
  /\ exists s',
       result (for_each (load history snapshot companies_dict period_label)
                 selected s) = Return s'.
Proof.
  intros Hperiod Hall Hexn.
  induction Hall as [| c l [ticker Hticker] _ IH]; intros s.
  - cbn. eauto.
  - destruct (load_requests companies_dict period_label s c ticker period
                Hticker Hperiod (Hexn ticker)) as (Hstep & s1 & Hs1).
    destruct (IH s1) as (Hrest & s' & Hs').
    rewrite for_each_cons, (bind_Return _ _ s1 Hs1). cbn [trace result].
    rewrite List.filter_app, Hstep, Hrest. cbn [requests flat_map].
    rewrite Hticker. split; [reflexivity | eauto].
Qed.

End Requests.








(** X7: when the snapshot of a selected company gives a price or a
    market cap that is not a number ([None], a string), the page never gets
    past the cards: it shows no chart, no table and no information box, and
    it raises, or it returns with nothing shown. *)
Theorem non_number_snapshot_stops_before_charts
    (history : string -> string -> response dataframe)
    (snapshot : string -> response (gmap string pyval))
    (Set1 : list string) (ctl : controls)
    (companies_dict : dict string) (company ticker : string) (v : pyval) :
  dict_get COMPANY_GROUPS (company_group ctl) = Some companies_dict ->
  In company (selected_companies ctl) ->
  dict_get companies_dict company = Some ticker ->
  provided (snapshot ticker) "currentPrice" = Some v
  \/ provided (snapshot ticker) "marketCap" = Some v ->
  is_number v = false ->
  Forall (fun e => preliminary e = true)
    (trace (main history snapshot Set1 ctl))
  /\ ((exists e, result (main history snapshot Set1 ctl) = Raise e)
      \/ (result (main history snapshot Set1 ctl) = Return tt
          /\ Forall (fun e => is_display e = false)
               (trace (main history snapshot Set1 ctl)))).
Proof.
  intros Hgroup Hc Hticker Hv Hbad.
  destruct (main_cases history snapshot Set1 ctl)
    as [Hstop
       | (before & stock_data & company_info & _ & [Hkeys _] & _ & Hin & _ & _
          & _ & Hcards & companies_dict' & Hgroup' & Hrecords)];
    [exact Hstop | exfalso].
  rewrite Hgroup in Hgroup'. injection Hgroup' as <-.
  cbn [fst snd] in Hkeys.
  destruct (keys_get company_info company) as [info Hinfo];
    [rewrite <- Hkeys; now apply Hin |].
  destruct (Hrecords company info Hinfo) as (ticker' & Hticker' & ->).
  rewrite Hticker in Hticker'. injection Hticker' as <-.
  destruct (In_enumerate (selected_companies ctl) company Hc) as [i Hi].
  destruct (for_each_raises (metric_card company_info)
              (enumerate (selected_companies ctl)) (i, company) Hi) with (s := tt)
    as [e He]; [| congruence].
  intros u.
  apply (metric_card_non_number company_info u i company
           (snapshot_record (snapshot ticker))
           (default (PyInt 0) (provided (snapshot ticker) "currentPrice"))
           (default (PyInt 0) (provided (snapshot ticker) "marketCap")));
    [exact Hinfo | reflexivity | reflexivity |].
  destruct Hv as [-> | ->]; cbn [default]; auto.
Qed.

Lemma non_number_snapshot_stops_before_charts_witness :
  let snapshot := fun _ : string =>
    Responds (<["currentPrice" := PyNone]> (∅ : gmap string pyval)) in
  let ctl := Controls "시총 Top 10 기업" ["Apple"] "3년" line_chart in
  Forall (fun e => preliminary e = true)
    (trace (main Sample.history snapshot Sample.Set1 ctl))
  /\ ((exists e, result (main Sample.history snapshot Sample.Set1 ctl)
                 = Raise e)
      \/ (result (main Sample.history snapshot Sample.Set1 ctl) = Return tt
          /\ Forall (fun e => is_display e = false)
               (trace (main Sample.history snapshot Sample.Set1 ctl)))).
Proof.
  intros snapshot ctl.
  apply (non_number_snapshot_stops_before_charts Sample.history snapshot
           Sample.Set1 ctl TOP_10_COMPANIES "Apple" "AAPL" PyNone eq_refl).
  - now left.
  - reflexivity.
  - left. reflexivity.
  - reflexivity.
Defined.
(** X6: a company whose history has rows and whose snapshot request
    raises is loaded with the placeholder record, and its card shows the
    price $0.00, the market cap $0 and the sector N/A. *)
Theorem failed_snapshot_shows_zero_card
    (history : string -> string -> response dataframe)
    (snapshot : string -> response (gmap string pyval))
    (companies_dict : dict string) (period_label : string) (s : loaded)
    (company ticker period : string) (data : dataframe)
    (is_exception : bool) (msg : string) :
  dict_get companies_dict company = Some ticker ->
  dict_get period_options period_label = Some period ->
  history ticker period = Responds data ->
  empty data = false ->
  snapshot ticker = Fails is_exception msg ->
  exists s' : loaded,
    load history snapshot companies_dict period_label s company
    = Run [FetchHistory ticker period; FetchSnapshot ticker] (Return s')
    /\ dict_get s'.1 company = Some data
    /\ forall i : nat,
         metric_card s'.2 tt (i, company)
         = Run [ Metric i company "$0.00" "시총: $0";
                 Caption i "섹터: " (PyStr "N/A") ]
             (Return tt).
Proof.
  intros Hticker Hperiod Hdata Hrows Hfail.
  exists (dict_set s.1 company data, dict_set s.2 company placeholder).
  split; [| split].
  - unfold load, getitem, get_stock_data.
    rewrite Hticker, bind_lift_Return, Hperiod, bind_lift_Return.
    rewrite bind_emit, Hdata. cbn [trace result mret run_ret].
    rewrite bind_Run_Return, get_company_info_record, bind_Run_Return, Hrows.
    rewrite Hfail. reflexivity.
  - cbn [fst]. now rewrite dict_get_set, String.eqb_refl.
  - intros i. unfold metric_card, getitem. cbn [snd].
    rewrite dict_get_set, String.eqb_refl, bind_lift_Return.
    assert (Hprice : (v ← field placeholder "currentPrice"; format v f2)
                     = Return "0.00") by (vm_compute; reflexivity).
    assert (Hcap : (v ← field placeholder "marketCap"; format_market_cap v)
                   = Return "$0") by (vm_compute; reflexivity).
    assert (Hsector : field placeholder "sector" = Return (PyStr "N/A"))
      by reflexivity.
    rewrite Hprice, bind_lift_Return, Hcap, bind_lift_Return, bind_emit.
    rewrite Hsector, bind_lift_Return. reflexivity.
Qed.

Lemma failed_snapshot_shows_zero_card_witness :
  exists s' : loaded,
    load Sample.history Sample.snapshot TOP_10_COMPANIES "3년" ([], [])
      "Amazon"
    = Run [FetchHistory "AMZN" "3y"; FetchSnapshot "AMZN"] (Return s')
    /\ dict_get s'.1 "Amazon" = Some (Sample.bars [10; 20; 30])
    /\ forall i : nat,
         metric_card s'.2 tt (i, "Amazon")
         = Run [ Metric i "Amazon" "$0.00" "시총: $0";
                 Caption i "섹터: " (PyStr "N/A") ]
             (Return tt).
Proof.
  apply (failed_snapshot_shows_zero_card Sample.history Sample.snapshot
           TOP_10_COMPANIES "3년" ([], []) "Amazon" "AMZN" "3y"
           (Sample.bars [10; 20; 30]) true "no snapshot");
    reflexivity.
Defined.
(** *** What is not an [Exception] *)

Section Interrupt.

Variable history : string -> string -> response dataframe.
Variable snapshot : string -> response (gmap string pyval).

Lemma load_interrupted (companies_dict : dict string)
    (period_label period : string) (s : loaded)
    (company ticker msg : string) :
  dict_get period_options period_label = Some period ->
  dict_get companies_dict company = Some ticker ->
  history ticker period = Fails false msg ->
  load history snapshot companies_dict period_label s company
  = Run [FetchHistory ticker period] (Raise (ProviderError false msg)).
Proof.
  intros Hperiod Hticker Hfail. unfold load, getitem, get_stock_data.
  rewrite Hticker, bind_lift_Return, Hperiod, bind_lift_Return.
  rewrite bind_emit, Hfail. reflexivity.
Qed.

(** The loading loop stops at the first request for a history that raises
    what is not an [Exception]. *)
Lemma loading_interrupted (companies_dict : dict string)
    (period_label period : string) (earlier later : list string)
    (company ticker msg : string) :
  dict_get period_options period_label = Some period ->
  Forall (fun c => exists t, dict_get companies_dict c = Some t
                             /\ forall m, history t period <> Fails false m)
    earlier ->
  dict_get companies_dict company = Some ticker ->
  history ticker period = Fails false msg ->
  forall s : loaded,
  exists t,
    for_each (load history snapshot companies_dict period_label)
      (earlier ++ company :: later) s
    = Run (t ++ [FetchHistory ticker period]) (Raise (ProviderError false msg))
    /\ Forall (fun e => is_display e = false) t
    /\ List.filter is_fetch t = requests companies_dict period earlier.
Proof.
  intros Hperiod Hearlier Hticker Hfail.
  induction Hearlier as [| c l (t0 & Ht0 & Hexn) _ IH]; intros s.
  - exists []. split; [| split; [constructor | reflexivity]].
    cbn [app]. rewrite for_each_cons.
    now rewrite (load_interrupted companies_dict period_label period s
                   company ticker msg Hperiod Hticker Hfail).
  - destruct (load_requests history snapshot companies_dict period_label s c
                t0 period Ht0 Hperiod Hexn) as (Hstep & s1 & Hs1).
    destruct (IH s1) as (t & Hrest & Hquiet & Hsent).
    exists (trace (load history snapshot companies_dict period_label s c)
            ++ t).
    cbn [app]. rewrite for_each_cons, (bind_Return _ _ s1 Hs1), Hrest.
    cbn [trace result]. rewrite <- app_assoc.
    split; [reflexivity |]. split.
    + apply Forall_app. split; [apply load_undisplayed | exact Hquiet].
    + rewrite List.filter_app, Hstep, Hsent. cbn [requests flat_map].
      now rewrite Ht0.
Qed.

End Interrupt.

(** X5: the first history request that raises what is not an
    [Exception] ends the run with what it raised: the request is the last
    thing the run does, no error message is shown for it, the snapshot of
    that company is not requested, and the companies after it are not
    requested at all. *)
Theorem interrupt_ends_the_run
    (history : string -> string -> response dataframe)
    (snapshot : string -> response (gmap string pyval))
    (Set1 : list string) (ctl : controls)
    (companies_dict : dict string) (period : string)
    (earlier later : list string) (company ticker msg : string) :
  dict_get COMPANY_GROUPS (company_group ctl) = Some companies_dict ->
  dict_get period_options (selected_period ctl) = Some period ->
  selected_companies ctl = earlier ++ company :: later ->
  Forall (fun c => exists t, dict_get companies_dict c = Some t
                             /\ forall m, history t period <> Fails false m)
    earlier ->
  dict_get companies_dict company = Some ticker ->
  history ticker period = Fails false msg ->
  exists t,
    main history snapshot Set1 ctl
    = Run (Title "📈 글로벌 주요 기업 주가 분석"
           :: Markdown
      "시총 상위 기업과 차세대 AI 기업들의 최근 주가 흐름을 비교해보세요."
           :: t ++ [FetchHistory ticker period])
        (Raise (ProviderError false msg))
    /\ Forall (fun e => is_display e = false) t
    /\ List.filter is_fetch t = requests companies_dict period earlier.
Proof.
  intros Hgroup Hperiod Hsel Hearlier Hticker Hfail.
  destruct (loading_interrupted history snapshot companies_dict
              (selected_period ctl) period earlier later company ticker msg
              Hperiod Hearlier Hticker Hfail ([], []))
    as (t & Hload & Hquiet & Hsent).
  exists t. split; [| now split].
  unfold main, getitem. rewrite !bind_emit, Hgroup, bind_lift_Return, Hsel.
  destruct (earlier ++ company :: later) as [| c0 l0] eqn:Hlist.
  { now destruct earlier. }
  rewrite Hload, bind_Run_Raise. reflexivity.
Qed.

Lemma interrupt_ends_the_run_witness :
  let history := fun ticker period : string =>
    if String.eqb ticker "MSFT" then Fails false "interrupted"
    else Responds (Sample.bars [100; 110]) in
  let ctl := Controls "시총 Top 10 기업" ["Apple"; "Microsoft"; "Tesla"] "3년"
               line_chart in
  exists t,
    main history Sample.snapshot Sample.Set1 ctl
    = Run (Title "📈 글로벌 주요 기업 주가 분석"
           :: Markdown
      "시총 상위 기업과 차세대 AI 기업들의 최근 주가 흐름을 비교해보세요."
           :: t ++ [FetchHistory "MSFT" "3y"])
        (Raise (ProviderError false "interrupted"))
    /\ Forall (fun e => is_display e = false) t
    /\ List.filter is_fetch t = requests TOP_10_COMPANIES "3y" ["Apple"].
Proof.
  intros history ctl.
  apply (interrupt_ends_the_run history Sample.snapshot Sample.Set1 ctl
           TOP_10_COMPANIES "3y" ["Apple"] ["Tesla"] "Microsoft" "MSFT"
           "interrupted" eq_refl eq_refl eq_refl).
  - constructor; [| constructor]. exists "AAPL". split; [reflexivity |].
    intros m. discriminate.
  - reflexivity.
  - reflexivity.
Defined.

(** *** The market-cap text, by kind of argument *)

(** X1: [format_market_cap] returns a text that starts with a dollar
    sign on every float (NaN and the infinities included: $nan, $infT,
    $-inf) and on every int that converts to a float; it raises
    [TypeError] on what is not a number, and [OverflowError] on an int that
    does not convert. *)
Theorem format_market_cap_outcomes :
  (forall v : pyval,
      converts v = true ->
      exists text, format_market_cap v = Return ("$" +:+ text))
  /\ (forall v : pyval,
        is_number v = false -> format_market_cap v = Raise TypeError)
  /\ (forall v : pyval,
        is_number v = true -> converts v = false ->
        format_market_cap v = Raise OverflowError)
  /\ format_market_cap (PyFloat S754_nan) = Return "$nan"
  /\ format_market_cap (PyFloat (S754_infinity false)) = Return "$infT"
  /\ format_market_cap (PyFloat (S754_infinity true)) = Return "$-inf".
Proof.
  split; [| split; [| split]].
  - intros v Hv. destruct (as_float_converts v Hv) as [x Hx].
    rewrite (format_market_cap_numeric v x Hx).
    destruct (largest_unit v); eexists; reflexivity.
  - intros v Hv. now destruct v.
  - intros [| n | x | |] Hnum Hv; try discriminate.
    cbn [converts] in Hv. apply Z.ltb_ge in Hv.
    assert (Hn : float_of_int n = Raise OverflowError)
      by now apply float_of_int_range.
    assert (Hbig : 10 ^ 12 <= 2 ^ 1024 - 2 ^ 970) by (vm_compute; discriminate).
    unfold format_market_cap, ge_float, truediv_float, format.
    rewrite int_ge_float_1e12, int_ge_float_1e9, int_ge_float_1e6, Hn.
    cbn [mbind outcome_bind].
    destruct (10 ^ 12 <=? n), (10 ^ 9 <=? n), (10 ^ 6 <=? n); reflexivity.
  - repeat split; vm_compute; reflexivity.
Qed.

Lemma format_market_cap_outcomes_witness :
  (exists text, format_market_cap (PyFloat S754_nan) = Return ("$" +:+ text))
  /\ format_market_cap PyNone = Raise TypeError
  /\ format_market_cap (PyInt (- 2 ^ 1024)) = Raise OverflowError.
Proof.
  split; [| split].
  - apply (proj1 format_market_cap_outcomes (PyFloat S754_nan)). reflexivity.
  - apply (proj1 (proj2 format_market_cap_outcomes) PyNone). reflexivity.
  - apply (proj1 (proj2 (proj2 format_market_cap_outcomes))
             (PyInt (- 2 ^ 1024))); vm_compute; reflexivity.
Defined.
(** *** The performance row at its edges *)

(** X14: when the first close is zero the row of the performance
    table is still made (no [ZeroDivisionError]): its total return is
    inf%, -inf% or nan%, and inf% when the last close is positive and the
    first is +0. *)
Theorem zero_first_close_gives_inf :
  (forall (company : string) (data : dataframe) (first final : float),
      head (map Close data) = Some first ->
      last (map Close data) = Some final ->
      is_zero first = true ->
      exists row,
        performance company data = Return row
        /\ (total_return row = "inf%" \/ total_return row = "-inf%"
            \/ total_return row = "nan%"))
  /\ (forall (company : string) (data : dataframe) (m : positive) (e : Z),
        head (map Close data) = Some (S754_zero false) ->
        last (map Close data) = Some (S754_finite false m e) ->
        exists row,
          performance company data = Return row
          /\ total_return row = "inf%").
Proof.
  assert (Hrow : forall (company : string) (data : dataframe)
                   (first final : float),
             head (map Close data) = Some first ->
             last (map Close data) = Some final ->
             exists row,
               performance company data = Return row
               /\ total_return row
                  = format_float f2 (percent_change first final) +:+ "%").
  { intros company data first final Hfirst Hlast.
    unfold performance, iloc_first, iloc_last. rewrite Hlast.
    destruct (map Close data) as [| x xs]; [discriminate |].
    injection Hfirst as ->. eexists. split; reflexivity. }
  split.
  - intros company data first final Hfirst Hlast Hzero.
    destruct (Hrow company data first final Hfirst Hlast) as (row & Hr & Ht).
    exists row. split; [exact Hr |]. rewrite Ht.
    destruct first as [s0 | | |]; try discriminate.
    destruct final as [s | s | | s m e]; destruct s0; try destruct s;
      vm_compute; auto.
  - intros company data m e Hfirst Hlast.
    destruct (Hrow company data _ _ Hfirst Hlast) as (row & Hr & Ht).
    exists row. split; [exact Hr |]. rewrite Ht. reflexivity.
Qed.

Lemma zero_first_close_gives_inf_witness :
  exists row,
    performance "Apple" (Sample.bars [0; 5]) = Return row
    /\ total_return row = "inf%".
Proof.
  apply (proj2 zero_first_close_gives_inf "Apple" (Sample.bars [0; 5])
           (5 * 2 ^ 50)%positive (-50)); reflexivity.
Defined.

(** X15: for a history of one row with a finite, nonzero close, the
    start price, the current price, the highest and the lowest are the same
    text, the total return is 0.00% (with the sign of the close), and the
    volatility is nan. *)
Theorem one_row_history (company : string) (b : bar) (s : bool)
    (m : positive) (e : Z) :
  Close b = S754_finite s m e ->
  performance company [b]
  = Return {| company_name := company;
              start_price := "$" +:+ format_float f2 (Close b);
              current_price := "$" +:+ format_float f2 (Close b);
              total_return := sign s +:+ "0.00%";
              highest := "$" +:+ format_float f2 (Close b);
              lowest := "$" +:+ format_float f2 (Close b);
              volatility := "nan" |}.
Proof.
  intros Hclose. unfold performance. cbn [map iloc_first iloc_last last].
  rewrite Hclose. cbn [mbind outcome_bind mret outcome_ret].
  assert (Hdiff : fsub (S754_finite s m e) (S754_finite s m e)
                  = S754_zero false).
  { unfold fsub, SFsub. now rewrite Z.sub_diag. }
  rewrite Hdiff. f_equal. f_equal. now destruct s.
Qed.

Lemma one_row_history_witness :
  performance "Apple" (Sample.bars [100])
  = Return {| company_name := "Apple";
              start_price := "$" +:+ format_float f2 (float_of_Z 100);
              current_price := "$" +:+ format_float f2 (float_of_Z 100);
              total_return := sign false +:+ "0.00%";
              highest := "$" +:+ format_float f2 (float_of_Z 100);
              lowest := "$" +:+ format_float f2 (float_of_Z 100);
              volatility := "nan" |}.
Proof.
  apply (one_row_history "Apple"
           (Bar "day 0" (float_of_Z 100) (float_of_Z 100) (float_of_Z 100)
              (float_of_Z 100) 1000) false (100 * 2 ^ 46)%positive (-46)).
  vm_compute. reflexivity.
Defined.

(** *** Reading a market cap back *)

Lemma uint_digits_no_comma (u : Decimal.uint) :
  forallb (fun c => negb (Ascii.eqb c ","))
    (list_ascii_of_string (NilEmpty.string_of_uint u)) = true.
Proof. induction u; cbn; auto. Qed.

Lemma digits_no_comma (n : Z) :
  forallb (fun c => negb (Ascii.eqb c ",")) (digits n) = true.
Proof.
  unfold digits, NilZero.string_of_uint.
  destruct (N.to_uint (Z.to_N n)) eqn:Hn; try (rewrite <- Hn);
    try apply uint_digits_no_comma.
  reflexivity.
Qed.

Lemma digits_length (n : Z) : (1 <= length (digits n))%nat.
Proof.
  unfold digits, NilZero.string_of_uint.
  destruct (N.to_uint (Z.to_N n)); cbn; lia.
Qed.

(** The separators are all that [group3] adds. *)
Lemma group3_filter (l : list ascii) :
  List.filter (fun c => negb (Ascii.eqb c ",")) (group3 l)
  = List.filter (fun c => negb (Ascii.eqb c ",")) l.
Proof.
  remember (length l) as n eqn:Hn. revert l Hn.
  induction n as [n IH] using lt_wf_ind. intros l Hn.
  destruct l as [| a [| b [| c [| d rest]]]]; try reflexivity.
  change (group3 (a :: b :: c :: d :: rest))
    with (a :: b :: c :: ","%char :: group3 (d :: rest)).
  change (a :: b :: c :: ","%char :: group3 (d :: rest))
    with ([a; b; c; ","%char] ++ group3 (d :: rest)).
  change (a :: b :: c :: d :: rest) with ([a; b; c] ++ d :: rest).
  rewrite !List.filter_app.
  rewrite (IH (length (d :: rest))) by (subst n; cbn; lia || reflexivity).
  reflexivity.
Qed.

(** Without its separators, the text of a natural number is its digits. *)
Lemma fixed_digits_filter (n : Z) :
  List.filter (fun c => negb (Ascii.eqb c ","))
    (list_ascii_of_string (fixed_digits grouped0 n))
  = digits n.
Proof.
  unfold fixed_digits. cbn [precision grouping grouped0].
  rewrite list_ascii_of_string_of_list_ascii, app_nil_r.
  pose proof (digits_length n) as Hlen.
  replace (1 - length (digits n))%nat with 0%nat by lia.
  cbn [repeat app]. rewrite Nat.sub_0_r, firstn_all.
  rewrite filter_rev, group3_filter, filter_rev, rev_involutive.
  apply forallb_filter_id, digits_no_comma.
Qed.

(** X2: for an int above [-2^53] and below a million, the text that
    [format_market_cap] returns reads back as that int: after the dollar
    sign, taking out the thousands separators leaves its decimal
    notation. *)
Theorem small_market_cap_reads_back (n : Z) :
  - 2 ^ 53 < n < 10 ^ 6 ->
  exists text,
    format_market_cap (PyInt n) = Return text
    /\ read_dollars text = Some n.
Proof.
  intros Hn.
  assert (Htext : format_market_cap (PyInt n)
                  = Return ("$" +:+ sign (n <? 0)
                            +:+ fixed_digits grouped0 (Z.abs n))).
  { unfold format_market_cap, ge_float.
    rewrite int_ge_float_1e12, int_ge_float_1e9, int_ge_float_1e6.
    cbn [mbind outcome_bind].
    repeat match goal with
           | |- context [?k <=? n] => destruct (Z.leb_spec k n); [lia |]
           end.
    now rewrite (format_int_exact grouped0 n) by (cbn; lia). }
  eexists. split; [exact Htext |].
  change ("$" +:+ sign (n <? 0) +:+ fixed_digits grouped0 (Z.abs n))
    with (String "$" (sign (n <? 0) +:+ fixed_digits grouped0 (Z.abs n))).
  cbn [read_dollars].
  rewrite list_ascii_of_string_app, List.filter_app, fixed_digits_filter.
  assert (Hdigits : string_of_list_ascii
                      (List.filter (fun c => negb (Ascii.eqb c ","))
                         (list_ascii_of_string (sign (n <? 0)))
                       ++ digits (Z.abs n))
                    = NilZero.string_of_int (Z.to_int n)).
  { unfold digits. destruct n as [| p | p]; cbn [Z.ltb Z.compare sign Z.abs];
      cbn [list_ascii_of_string List.filter app Ascii.eqb Bool.eqb negb
           string_of_list_ascii];
      now rewrite string_of_list_ascii_of_string. }
  rewrite Hdigits, NilZero.isi.
  - cbn [fmap option_fmap option_map]. now rewrite DecimalZ.of_to.
  - destruct n as [| p | p]; cbn [Z.to_int]; [discriminate | | discriminate].
    intros [= Hp]. now apply DecimalPos.Unsigned.to_uint_nonnil in Hp.
  - destruct n as [| p | p]; cbn [Z.to_int]; [discriminate | discriminate |].
    intros [= Hp]. now apply DecimalPos.Unsigned.to_uint_nonnil in Hp.
Qed.

Lemma small_market_cap_reads_back_witness :
  exists text,
    format_market_cap (PyInt (-1234567)) = Return text
    /\ read_dollars text = Some (-1234567).
Proof. apply (small_market_cap_reads_back (-1234567)). lia. Defined.
(** *** The order of the floats *)

Lemma flt_irrefl (x : float) : flt x x = false.
Proof.
  unfold flt, SFltb, SFcompare.
  destruct x as [s | s | | s m e]; try reflexivity;
    try (destruct s; reflexivity).
  cbv beta iota. rewrite Z.compare_refl.
  change (PosDef.Pos.compare_cont Eq m m) with (Pos.compare m m).
  rewrite Pos.compare_refl. now destruct s.
Qed.

Lemma flt_trans (x y z : float) :
  flt x y = true -> flt y z = true -> flt x z = true.
Proof.
  unfold flt, SFltb, SFcompare.
  destruct x as [sx | sx | | sx mx ex], y as [sy | sy | | sy my ey],
    z as [sz | sz | | sz mz ez];
    try discriminate; cbv beta iota;
    repeat match goal with s : bool |- _ => destruct s end;
    try discriminate; try reflexivity.
  all: change (PosDef.Pos.compare_cont Eq) with Pos.compare.
  all: destruct (Z.compare_spec ex ey), (Z.compare_spec ey ez),
         (Z.compare_spec ex ez); try discriminate; try lia; try reflexivity;
       subst;
       destruct (Pos.compare_spec mx my), (Pos.compare_spec my mz),
         (Pos.compare_spec mx mz); cbn; try discriminate; try lia;
       reflexivity.
Qed.

(** The fold of [series_max]: what it returns is one of the values, and no
    value is above it. *)
Lemma fold_max (xs : list float) :
  forall (seen : list float) (acc : float),
  In acc seen ->
  (forall z, In z seen -> flt acc z = false) ->
  let hi := fold_left (fun acc y => if flt acc y then y else acc) xs acc in
  In hi (seen ++ xs)
  /\ forall z, In z (seen ++ xs) -> flt hi z = false.
Proof.
  induction xs as [| y xs IH]; intros seen acc Hacc Hseen.
  - cbn. rewrite app_nil_r. now split.
  - cbn [fold_left].
    replace (seen ++ y :: xs) with ((seen ++ [y]) ++ xs)
      by now rewrite <- app_assoc.
    destruct (flt acc y) eqn:Hy; apply IH.
    + apply in_or_app. right. now left.
    + intros z [Hz | [<- | []]]%in_app_or; [| apply flt_irrefl].
      destruct (flt y z) eqn:Hyz; [| reflexivity].
      rewrite <- (Hseen z Hz). symmetry. now apply (flt_trans acc y z).
    + apply in_or_app. now left.
    + intros z [Hz | [<- | []]]%in_app_or; [now apply Hseen | exact Hy].
Qed.

Lemma fold_min (xs : list float) :
  forall (seen : list float) (acc : float),
  In acc seen ->
  (forall z, In z seen -> flt z acc = false) ->
  let lo := fold_left (fun acc y => if flt y acc then y else acc) xs acc in
  In lo (seen ++ xs)
  /\ forall z, In z (seen ++ xs) -> flt z lo = false.
Proof.
  induction xs as [| y xs IH]; intros seen acc Hacc Hseen.
  - cbn. rewrite app_nil_r. now split.
  - cbn [fold_left].
    replace (seen ++ y :: xs) with ((seen ++ [y]) ++ xs)
      by now rewrite <- app_assoc.
    destruct (flt y acc) eqn:Hy; apply IH.
    + apply in_or_app. right. now left.
    + intros z [Hz | [<- | []]]%in_app_or; [| apply flt_irrefl].
      destruct (flt z y) eqn:Hzy; [| reflexivity].
      rewrite <- (Hseen z Hz). symmetry. now apply (flt_trans z y acc).
    + apply in_or_app. now left.
    + intros z [Hz | [<- | []]]%in_app_or; [now apply Hseen | exact Hy].
Qed.

Lemma flt_nan (x y : float) :
  is_nan x = true \/ is_nan y = true -> flt x y = false.
Proof.
  unfold flt, SFltb, SFcompare.
  intros [Hx | Hy]; [destruct x; try discriminate; reflexivity |].
  destruct y; try discriminate. now destruct x.
Qed.

(** X16: for a series with at least one close that is not NaN, the
    highest close [series.max()] and the lowest close [series.min()] are
    closes of the series, are not NaN, and no close of the series is above
    the highest or below the lowest. *)
Theorem highest_and_lowest_close (series : list float) (x0 : float) :
  In x0 series ->
  is_nan x0 = false ->
  (In (series_max series) series
   /\ is_nan (series_max series) = false
   /\ forall x, In x series -> flt (series_max series) x = false)
  /\ (In (series_min series) series
      /\ is_nan (series_min series) = false
      /\ forall x, In x series -> flt x (series_min series) = false).
Proof.
  intros Hx0 Hnan.
  assert (Hkept : forall x, x ∈ filter (fun x => negb (is_nan x)) series
                            <-> is_nan x = false /\ In x series).
  { intros x. rewrite list_elem_of_filter, list_elem_of_In.
    destruct (is_nan x); cbn; intuition congruence. }
  unfold series_max, series_min.
  destruct (filter (fun x => negb (is_nan x)) series) as [| x xs] eqn:Hvalues.
  { exfalso. apply (not_elem_of_nil x0), Hkept. now split. }
  assert (Hin : forall z, In z (x :: xs) -> is_nan z = false /\ In z series)
    by (intros z Hz; now apply Hkept, list_elem_of_In).
  assert (Hout : forall z, In z series -> is_nan z = false -> In z (x :: xs))
    by (intros z Hz Hn; now apply list_elem_of_In, Hkept).
  split.
  - destruct (fold_max xs [x] x) as [Hhi Hall];
      [now left | intros z [<- | []]; apply flt_irrefl |].
    cbn [app] in Hhi, Hall. apply Hin in Hhi as [Hhi1 Hhi2].
    split; [exact Hhi2 |]. split; [exact Hhi1 |].
    intros z Hz. destruct (is_nan z) eqn:Hzn.
    + apply flt_nan. now right.
    + now apply Hall, Hout.
  - destruct (fold_min xs [x] x) as [Hlo Hall];
      [now left | intros z [<- | []]; apply flt_irrefl |].
    cbn [app] in Hlo, Hall. apply Hin in Hlo as [Hlo1 Hlo2].
    split; [exact Hlo2 |]. split; [exact Hlo1 |].
    intros z Hz. destruct (is_nan z) eqn:Hzn.
    + apply flt_nan. now left.
    + now apply Hall, Hout.
Qed.

Lemma highest_and_lowest_close_witness :
  let series := [float_of_Z 20; S754_nan; float_of_Z 30; float_of_Z 10] in
  (In (series_max series) series
   /\ is_nan (series_max series) = false
   /\ forall x, In x series -> flt (series_max series) x = false)
  /\ (In (series_min series) series
      /\ is_nan (series_min series) = false
      /\ forall x, In x series -> flt x (series_min series) = false).
Proof.
  intros series.
  apply (highest_and_lowest_close series (float_of_Z 20)).
  - now left.
  - reflexivity.
Defined.
(** *** The cards *)

Lemma omap_no_card (t : list event) :
  Forall (fun e => card_of e = None) t -> omap card_of t = [].
Proof.
  induction 1 as [| e t He _ IH]; [reflexivity |]. cbn. now rewrite He.
Qed.

Lemma omap_card_cons (e : event) (t : list event) :
  omap card_of (e :: t)
  = match card_of e with
    | Some c => c :: omap card_of t
    | None => omap card_of t
    end.
Proof. reflexivity. Qed.

Lemma undisplayed_no_card (t : list event) :
  Forall (fun e => is_display e = false) t ->
  Forall (fun e => card_of e = None) t.
Proof.
  intros Ht. eapply Forall_impl; [exact Ht |]. intros e He. now destruct e.
Qed.

(** After the cards, the page shows no card. *)
Lemma charts_no_card (Set1 : list string) (ctl : controls)
    (stock_data : dict dataframe) :
  Forall (fun e => card_of e = None) (trace (charts Set1 ctl stock_data)).
Proof.
  unfold charts.
  repeat first
    [ apply Forall_trace_bind; [| intros ?]
    | apply Forall_trace_for_each; intros ? ?
    | progress unfold price_chart, price_trace, performance_entry,
        volume_trace
    | match goal with
      | |- Forall _ (trace (let '(_, _) := ?p in _)) => destruct p
      | |- Forall _ (trace (if ?c then _ else _)) => destruct c
      end
    | solve [repeat constructor] ].
Qed.

(** What a card shows: its [Metric] element, unless it fails before. *)
Lemma metric_card_cards (company_info : dict (gmap string pyval)) (u : unit)
    (i : nat) (company : string) :
  (result (metric_card company_info u (i, company)) = Return tt
   /\ omap card_of (trace (metric_card company_info u (i, company)))
      = [(i, company)])
  \/ ((exists e, result (metric_card company_info u (i, company)) = Raise e)
      /\ (omap card_of (trace (metric_card company_info u (i, company))) = []
          \/ omap card_of (trace (metric_card company_info u (i, company)))
             = [(i, company)])).
Proof.
  unfold metric_card.
  destruct (getitem company_info company) as [info |];
    [rewrite bind_lift_Return | right; cbn; eauto].
  destruct (v ← field info "currentPrice"; format v f2) as [price |];
    [rewrite bind_lift_Return | right; cbn; eauto].
  destruct (v ← field info "marketCap"; format_market_cap v) as [cap |];
    [rewrite bind_lift_Return | right; cbn; eauto].
  rewrite bind_emit.
  destruct (field info "sector") as [sector |];
    [rewrite bind_lift_Return | right; cbn; eauto].
  left. cbn. auto.
Qed.

Lemma cards_prefix (company_info : dict (gmap string pyval))
    (ics : list (nat * string)) :
  omap card_of (trace (for_each (metric_card company_info) ics tt))
    `prefix_of` ics
  /\ (result (for_each (metric_card company_info) ics tt) = Return tt ->
      omap card_of (trace (for_each (metric_card company_info) ics tt))
      = ics).
Proof.
  induction ics as [| [i c] ics [IH1 IH2]].
  - split; [apply prefix_nil | reflexivity].
  - rewrite for_each_cons, trace_bind, result_bind, omap_app.
    destruct (metric_card_cards company_info tt i c)
      as [[Hr Ht] | [[e Hr] [Ht | Ht]]]; rewrite Hr, Ht; cbn [app omap].
    + split; [now apply prefix_cons | intros H; f_equal; auto].
    + split; [apply prefix_nil | discriminate].
    + split; [apply prefix_cons, prefix_nil | discriminate].
Qed.

(** X9: the metric cards that a run shows are, in order, cards of
    the selected companies from the first on, each in the column of its
    position and labelled with its name; a run that shows a chart has shown
    the card of every selected company. *)
Theorem cards_follow_selection
    (history : string -> string -> response dataframe)
    (snapshot : string -> response (gmap string pyval))
    (Set1 : list string) (ctl : controls) :
  omap card_of (trace (main history snapshot Set1 ctl))
    `prefix_of` enumerate (selected_companies ctl)
  /\ (forall fig,
        In (PlotlyChart fig) (trace (main history snapshot Set1 ctl)) ->
        omap card_of (trace (main history snapshot Set1 ctl))
        = enumerate (selected_companies ctl)).
Proof.
  assert (Hcases :
    omap card_of (trace (main history snapshot Set1 ctl)) = []
    /\ Forall (fun e => preliminary e = true)
         (trace (main history snapshot Set1 ctl))
    \/ exists company_info,
         omap card_of (trace (main history snapshot Set1 ctl))
         = omap card_of (trace (for_each (metric_card company_info)
                                  (enumerate (selected_companies ctl)) tt))
         /\ (result (for_each (metric_card company_info)
                       (enumerate (selected_companies ctl)) tt) = Return tt
             \/ Forall (fun e => preliminary e = true)
                  (trace (main history snapshot Set1 ctl)))).
  { unfold main, getitem. rewrite !bind_emit.
    destruct (dict_get COMPANY_GROUPS (company_group ctl))
      as [companies_dict |] eqn:Hgroup.
    2:{ left. cbn. split; [reflexivity | repeat constructor]. }
    rewrite bind_lift_Return.
    destruct (selected_companies ctl) as [| c0 l0] eqn:Hsel.
    { left. cbn. split; [reflexivity | repeat constructor]. }
    rewrite <- Hsel.
    remember (for_each (load history snapshot companies_dict
                          (selected_period ctl)) (selected_companies ctl)
                ([], [])) as loading eqn:Hloading.
    assert (Hload : Forall (fun e => preliminary e = true) (trace loading)).
    { subst loading. apply for_each_trace. intros s a.
      apply load_preliminary. }
    assert (Hquiet : omap card_of (trace loading) = []).
    { subst loading. apply omap_no_card, undisplayed_no_card, for_each_trace.
      intros s a. apply load_undisplayed. }
    destruct (result loading) as [[stock_data company_info] |] eqn:Hresult.
    2:{ left. rewrite (bind_Raise loading _ e Hresult). cbn [trace].
        rewrite !omap_card_cons. cbn [card_of].
        split; [exact Hquiet |]. repeat (constructor; [reflexivity |]).
        exact Hload. }
    rewrite (bind_Return loading _ _ Hresult). cbn [fst trace].
    rewrite !omap_card_cons. cbn [card_of].
    rewrite omap_app, Hquiet. cbn [app].
    destruct stock_data as [| entry stock_data'] eqn:Hstock.
    { left. split; [reflexivity |]. repeat (constructor; [reflexivity |]).
      apply Forall_app. split; [exact Hload | repeat constructor]. }
    rewrite <- Hstock in *. right. exists company_info.
    rewrite render_charts, bind_emit. cbn [trace].
    rewrite !omap_card_cons. cbn [card_of].
    rewrite trace_bind, omap_app.
    pose proof (for_each_trace (fun e => preliminary e = true)
                  (metric_card company_info)
                  (enumerate (selected_companies ctl))
                  (metric_card_preliminary company_info) tt) as Hcards.
    destruct (result (for_each (metric_card company_info)
                        (enumerate (selected_companies ctl)) tt))
      as [[] |] eqn:Hshown.
    - rewrite (omap_no_card _ (charts_no_card Set1 ctl stock_data)).
      rewrite app_nil_r. split; [reflexivity | now left].
    - cbn [omap]. rewrite !app_nil_r. split; [reflexivity | right].
      repeat (constructor; [reflexivity |]). apply Forall_app.
      split; [exact Hload |]. constructor; [reflexivity | exact Hcards]. }
  split.
  - destruct Hcases as [[-> _] | (company_info & -> & _)];
      [apply prefix_nil | apply cards_prefix].
  - intros fig Hfig.
    destruct Hcases as [[_ Hpre] | (company_info & -> & [Hr | Hpre])].
    + apply (preliminary_In _ _ Hpre) in Hfig. discriminate.
    + now apply cards_prefix.
    + apply (preliminary_In _ _ Hpre) in Hfig. discriminate.
Qed.

Lemma cards_follow_selection_witness :
  let ctl := Controls "시총 Top 10 기업" ["Apple"; "Alphabet (Google)"] "3년"
               line_chart in
  omap card_of (trace (main Sample.history Sample.snapshot Sample.Set1 ctl))
  = enumerate ["Apple"; "Alphabet (Google)"].
Proof.
  intros ctl.
  apply (proj2 (cards_follow_selection Sample.history Sample.snapshot
                  Sample.Set1 ctl)
           (Figure (zip_with price_line
                      [("Apple", Sample.bars [100; 110]);
                       ("Alphabet (Google)", Sample.bars [200; 180])]
                      (Sample.Set1 ++ Sample.Set1))
              ("주가 추이 - " +:+ "3년"))).
  vm_compute. tauto.
Defined.
(** *** The exceptions of a run *)

Lemma for_each_exception {A S : Type} (body : S -> A -> run S) (l : list A)
    (e : exn) :
  forall s,
  result (for_each body l s) = Raise e ->
  exists a s0, In a l /\ result (body s0 a) = Raise e.
Proof.
  induction l as [| a l IH]; intros s; [discriminate |].
  rewrite for_each_cons, result_bind.
  destruct (result (body s a)) as [s1 |] eqn:Hstep.
  - intros Hrest. destruct (IH s1 Hrest) as (b & s0 & Hb & Hraise).
    exists b, s0. split; [now right | exact Hraise].
  - intros [= ->]. exists a, s. split; [now left | exact Hstep].
Qed.

(** What [format_market_cap] and the format of a price can raise. *)
Lemma format_market_cap_raises (v : pyval) (e : exn) :
  format_market_cap v = Raise e -> e = TypeError \/ e = OverflowError.
Proof.
  destruct (is_number v) eqn:Hnum.
  - destruct (converts v) eqn:Hv.
    + destruct (as_float_converts v Hv) as [x Hx].
      rewrite (format_market_cap_numeric v x Hx). discriminate.
    + destruct v as [| n | x | |]; try discriminate Hnum; try discriminate Hv.
      cbn [converts] in Hv. apply Z.ltb_ge in Hv.
      assert (Hn : float_of_int n = Raise OverflowError)
        by now apply float_of_int_range.
      unfold format_market_cap, ge_float, truediv_float, format.
      rewrite Hn. cbn [mbind outcome_bind].
      destruct (int_ge_float n f1e12), (int_ge_float n f1e9),
        (int_ge_float n f1e6); intros [= <-]; now right.
  - rewrite (format_market_cap_non_number v Hnum). intros [= <-]. now left.
Qed.

Lemma format_raises (v : pyval) (spec : format_spec) (e : exn) :
  format v spec = Raise e ->
  e = TypeError \/ e = ValueError \/ e = OverflowError.
Proof.
  destruct v as [| n | x | |]; cbn [format]; try (intros [= <-]; auto).
  unfold float_of_int. destruct (float_of_Z n); cbn; intros [= <-]; auto.
Qed.

(** What a card can raise, on a record made by [get_company_info]. *)
Lemma metric_card_raises (company_info : dict (gmap string pyval)) (u : unit)
    (i : nat) (company : string) (e : exn) :
  (forall info, dict_get company_info company = Some info ->
                exists r, info = snapshot_record r) ->
  result (metric_card company_info u (i, company)) = Raise e ->
  (e = KeyError company /\ dict_get company_info company = None)
  \/ e = TypeError \/ e = ValueError \/ e = OverflowError.
Proof.
  intros Hrecord. unfold metric_card, getitem.
  destruct (dict_get company_info company) as [info |] eqn:Hinfo.
  2:{ cbn. intros [= <-]. now left. }
  destruct (Hrecord info eq_refl) as [r ->]. rewrite bind_lift_Return.
  assert (Hprice : field (snapshot_record r) "currentPrice"
                   = Return (default (PyInt 0) (provided r "currentPrice")))
    by reflexivity.
  assert (Hcap : field (snapshot_record r) "marketCap"
                 = Return (default (PyInt 0) (provided r "marketCap")))
    by reflexivity.
  assert (Hsector : field (snapshot_record r) "sector"
                    = Return (default (PyStr "N/A") (provided r "sector")))
    by reflexivity.
  rewrite Hprice, Hcap, Hsector. cbn [mbind outcome_bind].
  destruct (format _ f2) as [price |] eqn:Hformat.
  2:{ cbn. intros [= <-]. right. exact (format_raises _ _ _ Hformat). }
  rewrite bind_lift_Return.
  destruct (format_market_cap _) as [cap |] eqn:Htext.
  2:{ cbn. intros [= <-]. right.
      destruct (format_market_cap_raises _ _ Htext); auto. }
  rewrite bind_lift_Return, bind_emit, bind_lift_Return. discriminate.
Qed.
Section Exceptions.

Variable history : string -> string -> response dataframe.
Variable snapshot : string -> response (gmap string pyval).
Variable Set1 : list string.

(** A company whose history has rows is loaded. *)
Lemma load_responds (companies_dict : dict string) (period_label : string)
    (s : loaded) (company ticker period : string) (data : dataframe) :
  dict_get companies_dict company = Some ticker ->
  dict_get period_options period_label = Some period ->
  history ticker period = Responds data ->
  empty data = false ->
  result (load history snapshot companies_dict period_label s company)
  = Return (dict_set s.1 company data,
            dict_set s.2 company (snapshot_record (snapshot ticker))).
Proof.
  intros Hticker Hperiod Hdata Hrows. unfold load, getitem, get_stock_data.
  rewrite Hticker, bind_lift_Return, Hperiod, bind_lift_Return.
  rewrite bind_emit, Hdata. cbn [trace result mret run_ret].
  rewrite bind_Run_Return, get_company_info_record, bind_Run_Return, Hrows.
  reflexivity.
Qed.

(** What is loaded stays loaded. *)
Lemma load_keeps (companies_dict : dict string) (period_label : string)
    (s s' : loaded) (company c : string) :
  dict_get s.2 c <> None ->
  result (load history snapshot companies_dict period_label s company)
    = Return s' ->
  dict_get s'.2 c <> None.
Proof.
  intros Hc Hload.
  apply load_step in Hload
    as [-> | (ticker & period & data & _ & _ & _ & _ & ->)]; [exact Hc |].
  cbn [snd]. rewrite dict_get_set.
  now destruct (String.eqb c company).
Qed.

(** After the loading loop, a selected company whose history has rows is
    loaded. *)
Lemma loading_loads (companies_dict : dict string) (period_label : string)
    (selected : list string) (c ticker period : string) (data : dataframe) :
  dict_get companies_dict c = Some ticker ->
  dict_get period_options period_label = Some period ->
  history ticker period = Responds data ->
  empty data = false ->
  forall s s' : loaded,
  dict_get s.2 c <> None \/ In c selected ->
  result (for_each (load history snapshot companies_dict period_label)
            selected s) = Return s' ->
  dict_get s'.2 c <> None.
Proof.
  intros Hticker Hperiod Hdata Hrows.
  induction selected as [| a l IH]; intros s s' Hc Hrun.
  - injection Hrun as <-. destruct Hc as [Hc | []]. exact Hc.
  - rewrite for_each_cons, result_bind in Hrun.
    destruct (result (load history snapshot companies_dict period_label s a))
      as [s1 |] eqn:Hstep; [| discriminate].
    apply (IH s1 s'); [| exact Hrun].
    destruct Hc as [Hc | [-> | Hc]].
    + left. exact (load_keeps companies_dict period_label s s1 a c Hc Hstep).
    + left. rewrite (load_responds companies_dict period_label s c ticker
                       period data Hticker Hperiod Hdata Hrows) in Hstep.
      injection Hstep as <-. cbn [snd].
      now rewrite dict_get_set, String.eqb_refl.
    + now right.
Qed.

End Exceptions.

(** X13: for controls that the widgets can give, a provider that
    raises only [Exception]s and colours enough for the selection, a run
    raises only: [KeyError] for a selected company whose fetch failed, or
    [TypeError], [ValueError] or [OverflowError] from the texts of a card,
    in both cases before any chart, table or information box; or
    [UnboundLocalError] for [colors], in candlestick mode.  It raises
    neither [IndexError] nor [ZeroDivisionError], and no [KeyError] for the
    group or the period. *)
Theorem exceptions_of_a_run
    (history : string -> string -> response dataframe)
    (snapshot : string -> response (gmap string pyval))
    (Set1 : list string) (ctl : controls) (e : exn) :
  offered ctl ->
  (forall ticker period msg, history ticker period <> Fails false msg) ->
  (length (selected_companies ctl) <= 2 * length Set1)%nat ->
  result (main history snapshot Set1 ctl) = Raise e ->
  (Forall (fun e => preliminary e = true)
     (trace (main history snapshot Set1 ctl))
   /\ ((exists c r,
          e = KeyError c
          /\ In c (selected_companies ctl)
          /\ answer history ctl c = Some r
          /\ fetch_fails r = true)
       \/ e = TypeError \/ e = ValueError \/ e = OverflowError))
  \/ (e = UnboundLocalError "colors" /\ chart_type ctl = candlestick_chart).
Proof.
  intros (companies_dict & Hgroup & Hoffered & Hnodup & Hperiod & Hchart)
    Hexn Hcolors.
  apply keys_get in Hperiod as [period Hperiod].
  assert (Htickers : Forall (fun c => is_Some (dict_get companies_dict c))
                       (selected_companies ctl)).
  { eapply Forall_impl; [exact Hoffered |]. intros c Hc.
    destruct (keys_get companies_dict c Hc) as [t Ht]. now exists t. }
  destruct (loading_requests history snapshot companies_dict
              (selected_period ctl) period (selected_companies ctl) Hperiod
              Htickers (fun t m => Hexn t period m) ([], []))
    as (_ & [stock_data company_info] & Hload).
  unfold main, getitem. rewrite !bind_emit, Hgroup, bind_lift_Return.
  destruct (selected_companies ctl) as [| c0 l0] eqn:Hsel; [discriminate |].
  rewrite <- Hsel in *.
  rewrite (bind_Return _ _ _ Hload). cbn [fst trace result].
  pose proof (for_each_trace (fun e => preliminary e = true)
                (load history snapshot companies_dict (selected_period ctl))
                (selected_companies ctl)
                (load_preliminary history snapshot companies_dict
                   (selected_period ctl)) ([], [])) as Hquiet.
  pose proof (loading_well_loaded history snapshot _ _ _ _ Hload)
    as [Hkeys Hrows].
  cbn [fst snd] in Hkeys, Hrows.
  assert (Hrecords : records_of snapshot companies_dict
                       (stock_data, company_info)).
  { revert Hload.
    apply (for_each_invariant (records_of snapshot companies_dict)).
    - intros s a s1. apply load_records_of.
    - intros c info. discriminate. }
  destruct stock_data as [| entry stock_data'] eqn:Hstock; [discriminate |].
  rewrite <- Hstock in *.
  rewrite render_charts, bind_emit. cbn [trace result].
  rewrite trace_bind, result_bind.
  pose proof (for_each_trace (fun e => preliminary e = true)
                (metric_card company_info)
                (enumerate (selected_companies ctl))
                (metric_card_preliminary company_info) tt) as Hcards.
  destruct (result (for_each (metric_card company_info)
                      (enumerate (selected_companies ctl)) tt))
    as [[] |] eqn:Hshown.
  - (* the cards are shown: the exception comes from the charts *)
    intros Hraise. right.
    destruct Hchart as [Hline | [Hcandle | []]].
    + exfalso.
      destruct (charts_line Set1 ctl stock_data (eq_sym Hline) Hrows)
        as (rows & _ & Hcharts).
      { pose proof (loading_sublist history snapshot _ _ _ _ _ Hload)
          as (added & Hadded & Hsub).
        cbn [fst keys map app] in Hadded. apply sublist_length in Hsub.
        rewrite <- Hadded in Hsub. unfold keys in Hsub.
        rewrite length_map in Hsub. rewrite length_app. lia. }
      rewrite Hcharts in Hraise. discriminate.
    + assert (Hfirst : In c0 (keys stock_data)).
      { rewrite Hkeys.
        apply (cards_shown company_info (selected_companies ctl) c0 Hshown).
        rewrite Hsel. now left. }
      destruct (keys_get stock_data c0 Hfirst) as [data Hdata].
      destruct (charts_candlestick Set1 ctl stock_data c0 l0 data
                  (eq_sym Hcandle) Hsel Hdata Hrows) as (rows & _ & Hcharts).
      rewrite Hcharts in Hraise. cbn [result] in Hraise.
      injection Hraise as <-. split; [reflexivity | now symmetry].
  - (* a card raises *)
    intros [= ->]. left. split.
    { repeat (constructor; [reflexivity |]). apply Forall_app.
      split; [exact Hquiet |]. constructor; [reflexivity |].
      now rewrite app_nil_r. }
    apply for_each_exception in Hshown as ([i c] & u & Hic & Hcard).
    apply enumerate_In in Hic.
    apply metric_card_raises in Hcard
      as [[-> Hmissing] | Hformat]; [left | now right |].
    2:{ intros info Hinfo. destruct (Hrecords c info Hinfo) as (t & _ & ->).
        eauto. }
    pose proof (proj1 (List.Forall_forall _ _) Htickers c Hic) as [t Ht].
    exists c, (history t period). split; [reflexivity |].
    split; [exact Hic |]. split.
    { unfold answer. rewrite Hgroup. cbn [mbind option_bind].
      rewrite Ht. cbn [mbind option_bind]. now rewrite Hperiod. }
    destruct (history t period) as [data | [] msg] eqn:Hdata; cbn.
    + destruct (empty data) eqn:Hempty; [reflexivity | exfalso].
      apply (loading_loads history snapshot companies_dict
               (selected_period ctl) (selected_companies ctl) c t period data
               Ht Hperiod Hdata Hempty ([], []) (stock_data, company_info));
        [now right | exact Hload | exact Hmissing].
    + reflexivity.
    + now destruct (Hexn t period msg).
Qed.
Lemma exceptions_of_a_run_witness :
  let ctl := Controls "시총 Top 10 기업" ["Apple"; "Microsoft"] "3년"
               line_chart in
  (Forall (fun e => preliminary e = true)
     (trace (main Sample.history Sample.snapshot Sample.Set1 ctl))
   /\ ((exists c r,
          KeyError "Microsoft" = KeyError c
          /\ In c (selected_companies ctl)
          /\ answer Sample.history ctl c = Some r
          /\ fetch_fails r = true)
       \/ KeyError "Microsoft" = TypeError
       \/ KeyError "Microsoft" = ValueError
       \/ KeyError "Microsoft" = OverflowError))
  \/ (KeyError "Microsoft" = UnboundLocalError "colors"
      /\ chart_type ctl = candlestick_chart).
Proof.
  intros ctl.
  apply (exceptions_of_a_run Sample.history Sample.snapshot Sample.Set1 ctl
           (KeyError "Microsoft")).
  - exists TOP_10_COMPANIES. split; [reflexivity |].
    split; [repeat constructor; cbn; tauto |].
    split; [apply (bool_decide_unpack _); vm_compute; exact I |].
    split; cbn; tauto.
  - intros ticker period msg. unfold Sample.history.
    repeat match goal with
           | |- context [if ?c then _ else _] => destruct c
           end; discriminate.
  - cbn. lia.
  - vm_compute. reflexivity.
Defined.

(** *** The error messages *)

(** Once the data are loaded, the page shows no error message. *)
Lemma render_no_error (Set1 : list string) (ctl : controls) (s : loaded) :
  Forall (fun e => is_error e = false) (trace (render Set1 ctl s)).
Proof.
  destruct s as [stock_data company_info]. unfold render.
  repeat first
    [ apply Forall_trace_bind; [| intros ?]
    | apply Forall_trace_for_each; intros ? ?
    | progress unfold metric_card, price_chart, price_trace,
        performance_entry, volume_trace
    | match goal with
      | |- Forall _ (trace (let '(_, _) := ?p in _)) => destruct p
      | |- Forall _ (trace (if ?c then _ else _)) => destruct c
      end
    | solve [repeat constructor] ].
Qed.

Section Errors.

Variable history : string -> string -> response dataframe.
Variable snapshot : string -> response (gmap string pyval).
Variable Set1 : list string.

Lemma load_errors (companies_dict : dict string) (period_label : string)
    (s : loaded) (company ticker period : string) :
  dict_get companies_dict company = Some ticker ->
  dict_get period_options period_label = Some period ->
  List.filter is_error
    (trace (load history snapshot companies_dict period_label s company))
  = fetch_errors history companies_dict period [company].
Proof.
  intros Hticker Hperiod. unfold load, getitem, get_stock_data.
  rewrite Hticker, bind_lift_Return, Hperiod, bind_lift_Return, bind_emit.
  rewrite get_company_info_record.
  cbn [fetch_errors flat_map]. rewrite Hticker, app_nil_r.
  destruct (history ticker period) as [data | [] msg] eqn:Hdata.
  - cbn [trace result mret run_ret]. rewrite bind_Run_Return, bind_Run_Return.
    destruct (negb (empty data)); reflexivity.
  - rewrite bind_emit. cbn [trace result mret run_ret].
    rewrite bind_Run_Return, bind_Run_Return. reflexivity.
  - reflexivity.
Qed.

Lemma loading_errors (companies_dict : dict string)
    (period_label period : string) (selected : list string) :
  dict_get period_options period_label = Some period ->
  Forall (fun c => is_Some (dict_get companies_dict c)) selected ->
  (forall ticker msg, history ticker period <> Fails false msg) ->
  forall s : loaded,
  List.filter is_error
    (trace (for_each (load history snapshot companies_dict period_label)
              selected s))
  = fetch_errors history companies_dict period selected.
Proof.
  intros Hperiod Hall Hexn.
  induction Hall as [| c l [ticker Hticker] _ IH]; intros s; [reflexivity |].
  destruct (load_requests history snapshot companies_dict period_label s c
              ticker period Hticker Hperiod (Hexn ticker)) as (_ & s1 & Hs1).
  rewrite for_each_cons, (bind_Return _ _ s1 Hs1). cbn [trace].
  rewrite List.filter_app, IH.
  rewrite (load_errors companies_dict period_label s c ticker period Hticker
             Hperiod).
  unfold fetch_errors. cbn [flat_map]. now rewrite app_nil_r.
Qed.

End Errors.

(** X4: when no history request raises what is not an [Exception],
    the error messages of a run are one message per selected company whose
    history request raised, in the order of the selection, with the ticker
    and the text of the exception, then at most the message that no data
    could be loaded, which is shown only if the fetch failed for every
    selected company; an empty history gets no message. *)
Theorem error_messages_of_a_run
    (history : string -> string -> response dataframe)
    (snapshot : string -> response (gmap string pyval))
    (Set1 : list string) (ctl : controls)
    (companies_dict : dict string) (period : string) :
  dict_get COMPANY_GROUPS (company_group ctl) = Some companies_dict ->
  dict_get period_options (selected_period ctl) = Some period ->
  Forall (fun c => is_Some (dict_get companies_dict c))
    (selected_companies ctl) ->
  (forall ticker msg, history ticker period <> Fails false msg) ->
  exists last_message,
    List.filter is_error (trace (main history snapshot Set1 ctl))
    = fetch_errors history companies_dict period (selected_companies ctl)
      ++ last_message
    /\ (last_message = []
        \/ (last_message = [Error "데이터를 불러올 수 없습니다."]
            /\ Forall (fun c => exists r, answer history ctl c = Some r
                                          /\ fetch_fails r = true)
                 (selected_companies ctl))).
Proof.
  intros Hgroup Hperiod Hall Hexn.
  unfold main, getitem. rewrite !bind_emit, Hgroup, bind_lift_Return.
  destruct (selected_companies ctl) as [| c0 l0] eqn:Hsel.
  { exists []. split; [reflexivity | now left]. }
  rewrite <- Hsel in *.
  destruct (loading_requests history snapshot companies_dict
              (selected_period ctl) period (selected_companies ctl) Hperiod
              Hall Hexn ([], [])) as (_ & [stock_data company_info] & Hload).
  rewrite (bind_Return _ _ _ Hload). cbn [fst trace result List.filter is_error].
  rewrite List.filter_app.
  rewrite (loading_errors history snapshot companies_dict
             (selected_period ctl) period (selected_companies ctl) Hperiod
             Hall Hexn).
  assert (Hrest : forall t, Forall (fun e => is_error e = false) t ->
                            List.filter is_error t = []).
  { induction 1 as [| e t He _ IH]; [reflexivity |]. cbn. now rewrite He. }
  destruct stock_data as [| entry stock_data'] eqn:Hstock.
  2:{ exists []. split; [| now left]. f_equal. apply Hrest, render_no_error. }
  exists [Error "데이터를 불러올 수 없습니다."]. split; [reflexivity |].
  right. split; [reflexivity |].
  pose proof (loading_well_loaded history snapshot _ _ _ _ Hload)
    as [Hkeys _].
  cbn [fst snd] in Hkeys.
  apply List.Forall_forall. intros c Hc.
  pose proof (proj1 (List.Forall_forall _ _) Hall c Hc) as [t Ht].
  exists (history t period). split.
  { unfold answer. rewrite Hgroup. cbn [mbind option_bind].
    rewrite Ht. cbn [mbind option_bind]. now rewrite Hperiod. }
  destruct (history t period) as [data | [] msg] eqn:Hdata; cbn.
  - destruct (empty data) eqn:Hempty; [reflexivity | exfalso].
    apply (loading_loads history snapshot companies_dict
             (selected_period ctl) (selected_companies ctl) c t period data
             Ht Hperiod Hdata Hempty ([], []) ([], company_info));
      [now right | exact Hload |].
    cbn [snd]. apply dict_get_None. rewrite <- Hkeys. intros [].
  - reflexivity.
  - now destruct (Hexn t msg).
Qed.

Lemma error_messages_of_a_run_witness :
  let ctl := Controls "시총 Top 10 기업" ["Apple"; "Microsoft"; "Tesla"] "3년"
               line_chart in
  exists last_message,
    List.filter is_error
      (trace (main Sample.history Sample.snapshot Sample.Set1 ctl))
    = fetch_errors Sample.history TOP_10_COMPANIES "3y"
        ["Apple"; "Microsoft"; "Tesla"]
      ++ last_message
    /\ (last_message = []
        \/ (last_message = [Error "데이터를 불러올 수 없습니다."]
            /\ Forall (fun c => exists r, answer Sample.history ctl c = Some r
                                          /\ fetch_fails r = true)
                 ["Apple"; "Microsoft"; "Tesla"])).
Proof.
  intros ctl.
  apply (error_messages_of_a_run Sample.history Sample.snapshot Sample.Set1
           ctl TOP_10_COMPANIES "3y" eq_refl eq_refl).
  - repeat constructor; eexists; reflexivity.
  - intros ticker msg. unfold Sample.history.
    repeat match goal with
           | |- context [if ?c then _ else _] => destruct c
           end; discriminate.
Defined.
(** X8: when the fetch of the history fails for one of the selected
    companies (the request raises an exception or returns no rows), all
    that the run shows comes before the charts: no chart, no table and no
    information box; and the run raises, or it returns after the message
    that no data could be loaded. *)
Theorem failed_fetch_never_reaches_charts
    (history : string -> string -> response dataframe)
    (snapshot : string -> response (gmap string pyval))
    (Set1 : list string) (ctl : controls) (company : string)
    (r : response dataframe) :
  In company (selected_companies ctl) ->
  answer history ctl company = Some r ->
  fetch_fails r = true ->
  (forall e, In e (trace (main history snapshot Set1 ctl)) ->
             preliminary e = true)
  /\ ((exists e, result (main history snapshot Set1 ctl) = Raise e)
      \/ (result (main history snapshot Set1 ctl) = Return tt
          /\ last (trace (main history snapshot Set1 ctl))
             = Some (Error "데이터를 불러올 수 없습니다."))).
Proof.
  intros Hc Hr Hfails.
  destruct (failed_fetch_stops_before_charts history snapshot Set1 ctl
              company r Hc Hr Hfails) as [Hpre Hend].
  split; [| exact Hend].
  intros e He. exact (preliminary_In _ e Hpre He).
Qed.

Lemma failed_fetch_never_reaches_charts_witness :
  let ctl := Controls "시총 Top 10 기업" ["Apple"; "Tesla"] "3년" line_chart in
  (forall e,
      In e (trace (main Sample.history Sample.snapshot Sample.Set1 ctl)) ->
      preliminary e = true)
  /\ ((exists e, result (main Sample.history Sample.snapshot Sample.Set1 ctl)
                 = Raise e)
      \/ (result (main Sample.history Sample.snapshot Sample.Set1 ctl)
          = Return tt
          /\ last (trace (main Sample.history Sample.snapshot Sample.Set1
                            ctl))
             = Some (Error "데이터를 불러올 수 없습니다."))).
Proof.
  intros ctl.
  apply (failed_fetch_never_reaches_charts Sample.history Sample.snapshot
           Sample.Set1 ctl "Tesla" (Fails true "no data")).
  - right. now left.
  - reflexivity.
  - reflexivity.
Defined.

(** *** The quotient by the unit *)

Lemma renormalize_low (s : bool) (mant k : Z) :
  2 ^ 52 <= mant <= 2 ^ 53 ->
  -1074 <= k ->
  (let '(mrs, e) := shr_fexp prec emax mant k loc_Exact in
   match shr_m mrs with
   | 0 => S754_zero s
   | Zpos m => if e <=? emax - prec then S754_finite s m e
               else S754_infinity s
   | Zneg _ => S754_nan
   end)
  = if mant <? 2 ^ 53
    then if k <=? 971 then S754_finite s (Z.to_pos mant) k
         else S754_infinity s
    else if k + 1 <=? 971 then S754_finite s (Z.to_pos (2 ^ 52)) (k + 1)
         else S754_infinity s.
Proof.
  intros Hmant Hk. unfold shr_fexp, fexp, emin, prec, emax.
  destruct (Z.ltb_spec mant (2 ^ 53)) as [Hlt | Hge].
  - destruct mant as [| q | q]; try lia. cbn [Zdigits2].
    rewrite (digits2_pos_unique q 53) by (change (53 - 1) with 52; lia).
    replace (Z.max (53 + k - 53) (3 - 1024 - 53)) with k by lia.
    rewrite Z.sub_diag. cbn [shr shr_record_of_loc shr_m].
    change (1024 - 53) with 971. reflexivity.
  - replace mant with (2 ^ 53) by lia.
    change (Zdigits2 (2 ^ 53)) with 54.
    replace (Z.max (54 + k - 53) (3 - 1024 - 53)) with (k + 1) by lia.
    replace (k + 1 - k) with 1 by lia.
    change (1024 - 53) with 971. reflexivity.
Qed.

(** The location of a remainder says how twice the remainder compares with
    the divisor. *)
Lemma new_location_spec (d r : Z) :
  0 < d -> 0 <= r < d ->
  new_location d r
  = if r =? 0 then loc_Exact else loc_Inexact (2 * r ?= d).
Proof.
  intros Hd Hr. unfold new_location, new_location_even, new_location_odd.
  destruct (Z.even d) eqn:Heven; [reflexivity |].
  destruct (r =? 0); [reflexivity |]. f_equal.
  assert (Hodd : Z.odd d = true) by (rewrite <- Z.negb_even, Heven; reflexivity).
  apply Z.odd_spec in Hodd as [k Hk].
  destruct (Z.compare_spec (2 * r + 1) d), (Z.compare_spec (2 * r) d);
    try reflexivity; lia.
Qed.

(** Rounding a quotient to the nearest integer: the result is within half
    of the divisor. *)
Lemma round_quotient (d q r : Z) :
  0 < d -> 0 <= r < d ->
  let mant := round_nearest_even q (new_location d r) in
  q <= mant <= q + 1
  /\ 2 * Z.abs (mant * d - (q * d + r)) <= d.
Proof.
  intros Hd Hr. rewrite (new_location_spec d r Hd Hr).
  unfold round_nearest_even.
  destruct (Z.eqb_spec r 0) as [-> | Hr0]; [lia |].
  destruct (Z.compare_spec (2 * r) d); try destruct (Z.even q); lia.
Qed.

(** The same after a shift of one bit. *)
Lemma round_quotient_shifted (d q r : Z) :
  0 < d -> 0 <= r < d -> 0 <= q ->
  let st := shr_1 (shr_record_of_loc q (new_location d r)) in
  let mant := round_nearest_even (shr_m st) (loc_of_shr_record st) in
  shr_m st = q / 2
  /\ q / 2 <= mant <= q / 2 + 1
  /\ 2 * Z.abs (mant * 2 * d - (q * d + r)) <= 2 * d.
Proof.
  intros Hd Hr Hq. rewrite (new_location_spec d r Hd Hr).
  assert (Hst : forall rb sb,
             shr_1 (Build_shr_record q rb sb)
             = Build_shr_record (q / 2) (Z.odd q) (rb || sb)).
  { intros rb sb. rewrite shr_1_nonneg by exact Hq. now rewrite Z.div2_div. }
  pose proof (Z.div2_odd q) as Hhalf. rewrite Z.div2_div in Hhalf.
  destruct (Z.eqb_spec r 0) as [-> | Hr0];
    [| destruct (Z.compare_spec (2 * r) d)];
    cbn [shr_record_of_loc]; rewrite Hst;
    cbn [shr_m shr_r shr_s loc_of_shr_record orb round_nearest_even];
    (split; [reflexivity |]);
    destruct (Z.odd q); cbn [Z.b2z] in Hhalf;
    cbn [loc_of_shr_record round_nearest_even];
    try destruct (Z.even (q / 2)); split; nia.
Qed.

(** The quotient of two floats with mantissas of 53 bits: its mantissa has
    53 bits, and it is within half a unit in the last place of the exact
    quotient. *)
Lemma fdiv_53 (sx sy : bool) (mx my : positive) (ex ey : Z) :
  Zpos (digits2_pos mx) = 53 ->
  Zpos (digits2_pos my) = 53 ->
  -1074 <= ex - ey - 53 <= 969 ->
  exists (mq : positive) (delta : Z),
    0 <= delta <= 2
    /\ 2 ^ 52 <= Zpos mq < 2 ^ 53
    /\ fdiv (S754_finite sx mx ex) (S754_finite sy my ey)
       = S754_finite (xorb sx sy) mq (ex - ey - 53 + delta)
    /\ 2 * Z.abs (Zpos mq * 2 ^ delta * Zpos my - Zpos mx * 2 ^ 53)
       <= 2 ^ delta * Zpos my.
Proof.
  intros Hdx Hdy He.
  pose proof (digits2_pos_bounds mx) as Hmx. rewrite Hdx in Hmx.
  pose proof (digits2_pos_bounds my) as Hmy. rewrite Hdy in Hmy.
  change (53 - 1) with 52 in Hmx, Hmy.
  set (e0 := ex - ey - 53) in *.
  unfold fdiv, SFdiv, SFdiv_core_binary. cbn [Zdigits2].
  rewrite Hdx, Hdy. unfold fexp, emin, prec, emax.
  replace (Z.min (Z.max (53 + ex - (53 + ey) - 53) (3 - 1024 - 53)) (ex - ey))
    with e0 by (subst e0; lia).
  replace (ex - ey - e0) with 53 by (subst e0; lia).
  rewrite Z.shiftl_mul_pow2 by lia.
  pose proof (Z_div_mod (Zpos mx * 2 ^ 53) (Zpos my) ltac:(lia)) as Hdiv.
  change IntDef.Z.div_eucl with Z.div_eucl.
  destruct (Z.div_eucl (Zpos mx * 2 ^ 53) (Zpos my)) as [q r].
  destruct Hdiv as [Hqr Hr].
  assert (Hq : 2 ^ 52 <= q < 2 ^ 54) by nia.
  unfold binary_round_aux.
  destruct (Z.ltb_spec q (2 ^ 53)) as [Hsmall | Hbig].
  - (* the quotient has 53 bits *)
    assert (Hshift : shr_fexp 53 1024 q e0 (new_location (Zpos my) r)
                     = (shr_record_of_loc q (new_location (Zpos my) r), e0)).
    { unfold shr_fexp, fexp, emin. destruct q as [| p | p]; try lia.
      cbn [Zdigits2].
      rewrite (digits2_pos_unique p 53) by (change (53 - 1) with 52; lia).
      replace (Z.max (53 + e0 - 53) (3 - 1024 - 53) - e0) with 0 by lia.
      reflexivity. }
    rewrite Hshift.
    assert (Hloc : forall l, loc_of_shr_record (shr_record_of_loc q l) = l)
      by (intros [| []]; reflexivity).
    assert (Hm : forall l, shr_m (shr_record_of_loc q l) = q)
      by (intros [| []]; reflexivity).
    rewrite Hloc, Hm.
    destruct (round_quotient (Zpos my) q r ltac:(lia) Hr) as [Hmant Herr].
    set (mant := round_nearest_even q (new_location (Zpos my) r)) in *.
    pose proof (renormalize_low (xorb sx sy) mant e0 ltac:(lia) ltac:(lia))
      as Hre.
    unfold prec, emax in Hre. rewrite Hre. clear Hre.
    destruct (Z.ltb_spec mant (2 ^ 53)) as [Hlt | Hge].
    + exists (Z.to_pos mant), 0.
      rewrite Z2Pos.id by lia.
      replace (e0 <=? 971) with true by (symmetry; apply Z.leb_le; lia).
      rewrite Z.add_0_r. change (2 ^ 0) with 1.
      repeat split; try reflexivity; try lia.
    + exists (Z.to_pos (2 ^ 52)), 1.
      replace (e0 + 1 <=? 971) with true by (symmetry; apply Z.leb_le; lia).
      rewrite Z2Pos.id by lia. change (2 ^ 1) with 2.
      assert (Hm53 : mant = 2 ^ 53) by lia. rewrite Hm53 in Herr.
      repeat split; try reflexivity; try lia.
  - (* the quotient has 54 bits *)
    assert (Hshift : shr_fexp 53 1024 q e0 (new_location (Zpos my) r)
                     = (shr_1 (shr_record_of_loc q (new_location (Zpos my) r)),
                        e0 + 1)).
    { unfold shr_fexp, fexp, emin. destruct q as [| p | p]; try lia.
      cbn [Zdigits2].
      rewrite (digits2_pos_unique p 54) by (change (54 - 1) with 53; lia).
      replace (Z.max (54 + e0 - 53) (3 - 1024 - 53) - e0) with 1 by lia.
      reflexivity. }
    rewrite Hshift.
    destruct (round_quotient_shifted (Zpos my) q r ltac:(lia) Hr ltac:(lia))
      as (Hst & Hmant & Herr).
    set (st := shr_1 (shr_record_of_loc q (new_location (Zpos my) r))) in *.
    set (mant := round_nearest_even (shr_m st) (loc_of_shr_record st)) in *.
    assert (Hhalf : 2 ^ 52 <= q / 2 < 2 ^ 53).
    { split; [apply Z.div_le_lower_bound; lia
             | apply Z.div_lt_upper_bound; lia]. }
    pose proof (renormalize_low (xorb sx sy) mant (e0 + 1) ltac:(lia)
                  ltac:(lia)) as Hre.
    unfold prec, emax in Hre. rewrite Hre. clear Hre.
    destruct (Z.ltb_spec mant (2 ^ 53)) as [Hlt | Hge].
    + exists (Z.to_pos mant), 1.
      rewrite Z2Pos.id by lia.
      replace (e0 + 1 <=? 971) with true by (symmetry; apply Z.leb_le; lia).
      change (2 ^ 1) with 2.
      repeat split; try reflexivity; try lia.
    + exists (Z.to_pos (2 ^ 52)), 2.
      replace (e0 + 1 + 1 <=? 971) with true
        by (symmetry; apply Z.leb_le; lia).
      rewrite Z2Pos.id by lia. change (2 ^ 2) with 4.
      replace (e0 + 1 + 1) with (e0 + 2) by lia.
      assert (Hm53 : mant = 2 ^ 53) by lia. rewrite Hm53 in Herr.
      repeat split; try reflexivity; try lia.
Qed.

Lemma round_half_even_near (a b : Z) :
  0 < b ->
  2 * Z.abs (a - round_half_even a b * b) <= b
  /\ (0 <= a -> 0 <= round_half_even a b).
Proof.
  intros Hb. unfold round_half_even.
  pose proof (Z.div_mod a b ltac:(lia)) as Hdiv.
  pose proof (Z.mod_pos_bound a b Hb) as Hmod.
  assert (Hpos : 0 <= a -> 0 <= a / b) by (intros; apply Z.div_pos; lia).
  destruct (Z.compare_spec (2 * (a mod b)) b);
    try destruct (Z.even (a / b)); split; try lia; nia.
Qed.

(** Two roundings, one result: a quotient rounded to a float of 53 bits and
    then to hundredths is the exact quotient rounded to hundredths, when the
    float is fine enough. *)
Lemma hundredths_of_quotient (n k mq W N : Z) :
  0 < k -> 0 < W ->
  2 ^ 52 <= mq ->
  0 < n <= 2 ^ 53 - 2 ->
  2 * Z.abs (mq * (200 * k) - n * W) <= 200 * k ->
  2 * Z.abs (mq * 100 - N * W) <= W ->
  2 * Z.abs (100 * n - N * (200 * k)) <= 200 * k.
Proof.
  intros Hk HW Hmq Hn H1 H2.
  assert (Hfine : 100 * k < W) by nia.
  assert (Hdiff : W * Z.abs (n - 2 * k * N) <= 100 * k + k * W).
  { assert (H1' : - (100 * k) <= mq * (200 * k) - n * W <= 100 * k) by lia.
    assert (H2' : - W <= 2 * (mq * 100 - N * W) <= W) by lia.
    assert (- (100 * k + k * W) <= W * (n - 2 * k * N) <= 100 * k + k * W)
      by nia.
    rewrite <- (Z.abs_eq W) at 1 by lia. rewrite <- Z.abs_mul.
    now apply Z.abs_le. }
  assert (Hnear : Z.abs (n - 2 * k * N) <= k) by nia.
  replace (100 * n - N * (200 * k)) with (100 * (n - 2 * k * N)) by lia.
  rewrite Z.abs_mul. change (Z.abs 100) with 100. lia.
Qed.

(** The text of the quotient of an int below [2^53] by a unit. *)
Lemma quotient_text (p : positive) (k : Z) (mu : positive) (eu : Z) :
  Zpos p <= 2 ^ 53 - 2 ->
  0 < k ->
  Zpos (digits2_pos mu) = 53 ->
  -40 <= eu <= 0 ->
  Zpos mu = 200 * k * 2 ^ (- eu) ->
  exists (x : float) (N : Z),
    float_of_int (Zpos p) = Return x
    /\ 0 <= N
    /\ format_float f2 (fdiv x (S754_finite false mu eu)) = fixed_digits f2 N
    /\ 2 * Z.abs (100 * Zpos p - N * (200 * k)) <= 200 * k.
Proof.
  intros Hp Hk Hdu Heu Hmu.
  destruct (binary_round_exact false p ltac:(lia))
    as (m & e & Hround & He & Hm & Hdm).
  pose proof (digits2_pos_bounds m) as Hmb. rewrite Hdm in Hmb.
  assert (Hpow : 0 < 2 ^ (- e)) by (apply Z.pow_pos_nonneg; lia).
  assert (Hlow : -53 < e).
  { assert (2 ^ (- e) < 2 ^ 53) by nia.
    apply Z.pow_lt_mono_r_iff in H; lia. }
  destruct (fdiv_53 false false m mu e eu Hdm Hdu ltac:(lia))
    as (mq & delta & Hdelta & Hmq & Hdiv & Herr).
  exists (S754_finite false m e).
  set (eq := e - eu - 53 + delta) in *.
  set (W := 2 ^ (- eq)).
  exists (round_half_even (Zpos mq * 100) W).
  assert (HW : 0 < W) by (apply Z.pow_pos_nonneg; subst eq; lia).
  destruct (round_half_even_near (Zpos mq * 100) W HW) as [Hnear Hnonneg].
  split; [| split; [apply Hnonneg; lia | split]].
  - unfold float_of_int, float_of_Z, binary_normalize. now rewrite Hround.
  - rewrite Hdiv. cbn [format_float xorb sign precision f2].
    unfold scaled. cbn [Z.of_nat Pos.of_succ_nat Pos.succ].
    change (10 ^ 2) with 100.
    replace (0 <=? eq) with false by (symmetry; apply Z.leb_gt; subst eq; lia).
    reflexivity.
  - apply (hundredths_of_quotient (Zpos p) k (Zpos mq) W); try lia.
    set (A := 2 ^ (delta - eu)).
    assert (HA : 0 < A) by (apply Z.pow_pos_nonneg; lia).
    assert (H1 : 2 ^ delta * 2 ^ (- eu) = A)
      by (subst A; rewrite <- Z.pow_add_r by lia; f_equal; lia).
    assert (H2 : 2 ^ (- e) * 2 ^ 53 = W * A).
    { subst W A. rewrite <- !Z.pow_add_r by (subst eq; lia).
      f_equal. subst eq. lia. }
    assert (Hscaled : 2 * Z.abs (A * (Zpos mq * (200 * k) - Zpos p * W))
                      <= A * (200 * k)).
    { replace (A * (Zpos mq * (200 * k) - Zpos p * W))
        with (Zpos mq * 2 ^ delta * Zpos mu - Zpos m * 2 ^ 53)
        by (rewrite Hmu, Hm; nia).
      replace (A * (200 * k)) with (2 ^ delta * Zpos mu)
        by (rewrite Hmu; nia).
      exact Herr. }
    rewrite Z.abs_mul, (Z.abs_eq A) in Hscaled by lia.
    apply (Z.mul_le_mono_pos_l _ _ A HA).
    rewrite Z.mul_assoc, (Z.mul_comm A 2), <- Z.mul_assoc. exact Hscaled.
Qed.

(** X17: for an int from a million to [2^53 - 2], the number that
    [format_market_cap] prints before the letter of the unit is the int
    over the unit rounded to the nearest hundredth (either one on a tie):
    the text is that of [N] hundredths, and [N] hundredths of the unit are
    within half a hundredth of the unit of the int. *)
Theorem market_cap_is_nearest_hundredth (n : Z) :
  10 ^ 6 <= n <= 2 ^ 53 - 2 ->
  exists N : Z,
    0 <= N
    /\ format_market_cap (PyInt n)
       = Return ("$" +:+ fixed_digits f2 N +:+ unit_suffix n)
    /\ 2 * Z.abs (100 * n - N * unit_of n) <= unit_of n.
Proof.
  intros Hn. destruct n as [| p | p]; try lia.
  assert (H12 : f1e12 = S754_finite false 8192000000000000 (-13))
    by (vm_compute; reflexivity).
  assert (H9 : f1e9 = S754_finite false 8388608000000000 (-23))
    by (vm_compute; reflexivity).
  assert (H6 : f1e6 = S754_finite false 8589934592000000 (-33))
    by (vm_compute; reflexivity).
  unfold format_market_cap, ge_float, truediv_float, unit_of, unit_suffix.
  rewrite int_ge_float_1e12, int_ge_float_1e9, int_ge_float_1e6.
  cbn [mbind outcome_bind].
  destruct (Z.leb_spec (10 ^ 12) (Zpos p)) as [Ht | Ht];
    [| destruct (Z.leb_spec (10 ^ 9) (Zpos p)) as [Hb | Hb];
       [| destruct (Z.leb_spec (10 ^ 6) (Zpos p)) as [Hm | Hm]; [| lia]]].
  - destruct (quotient_text p (5 * 10 ^ 9) 8192000000000000 (-13))
      as (x & N & Hx & HN & Htext & Hnear);
      [lia | lia | reflexivity | lia | reflexivity |].
    exists N. rewrite Hx, H12. cbn [mbind outcome_bind float_truediv is_zero].
    rewrite Htext. split; [exact HN |]. split; [reflexivity |].
    replace (10 ^ 12) with (200 * (5 * 10 ^ 9)) by reflexivity. exact Hnear.
  - destruct (quotient_text p (5 * 10 ^ 6) 8388608000000000 (-23))
      as (x & N & Hx & HN & Htext & Hnear);
      [lia | lia | reflexivity | lia | reflexivity |].
    exists N. rewrite Hx, H9. cbn [mbind outcome_bind float_truediv is_zero].
    rewrite Htext. split; [exact HN |]. split; [reflexivity |].
    replace (10 ^ 9) with (200 * (5 * 10 ^ 6)) by reflexivity. exact Hnear.
  - destruct (quotient_text p (5 * 10 ^ 3) 8589934592000000 (-33))
      as (x & N & Hx & HN & Htext & Hnear);
      [lia | lia | reflexivity | lia | reflexivity |].
    exists N. rewrite Hx, H6. cbn [mbind outcome_bind float_truediv is_zero].
    rewrite Htext. split; [exact HN |]. split; [reflexivity |].
    replace (10 ^ 6) with (200 * (5 * 10 ^ 3)) by reflexivity. exact Hnear.
Qed.

Lemma market_cap_is_nearest_hundredth_witness :
  exists N : Z,
    0 <= N
    /\ format_market_cap (PyInt 1015000)
       = Return ("$" +:+ fixed_digits f2 N +:+ unit_suffix 1015000)
    /\ 2 * Z.abs (100 * 1015000 - N * unit_of 1015000) <= unit_of 1015000.
Proof. apply (market_cap_is_nearest_hundredth 1015000). lia. Defined.

(** Above [2^53] the int itself is rounded first, and the hundredths can be
    off: 9,007,205,000,000,001 is over 9007.205 trillions, and prints as
    9007.20. *)
Example market_cap_beyond_2_53 :
  format_market_cap (PyInt 9007205000000001) = Return "$9007.20T"
  /\ 10 ^ 12 < 2 * Z.abs (100 * 9007205000000001 - 900720 * 10 ^ 12).
Proof. split; [vm_compute; reflexivity | lia]. Qed.
